(** * Shopora backend: cart, checkout and payment lifecycle

    A shallow embedding of the Mongoose models [Cart] and [Order], of the
    cart, order and product controllers and of the Stripe webhook, with the
    properties of the order-lifecycle specification stated over them.

    Conventions of the embedding.
    - A Mongoose [Number] holding an amount or a count is a [Z]: prices are
      whole rupees and quantities whole units, on which the arithmetic of
      JavaScript doubles is exact.
    - An [ObjectId] is a [nat]; [a.toString() === b.toString()] on two ids is
      equality of the naturals.
    - A collection looked up by key only ([Product.findById],
      [Cart.findOne({user})]) is a [gmap]; the [Order] collection, which is
      also queried by content ([Order.findOne]), is a list in insertion order.
    - [new Date()] and the answers of the payment gateway are read from an
      environment passed to each request.
    - [doc.save()] runs the validators of the schema, which belong to
      Mongoose: they are a parameter ([SchemaValidators]) of the embedding. *)

From Stdlib Require Import ZArith String.
From stdpp Require Import gmap strings list fin_maps.

Local Open Scope Z_scope.

(** ** Documents *)

Module Product.
(** The paths of [productSchema] read or written by the cart and order
    code. [images] is an array of [String]. *)
Record t := mk {
  name : string;
  images : list string;
  price : Z;
  stock : Z;
  inStock : bool
}.

Definition set_stock (p : t) (s : Z) (avail : bool) : t :=
  mk (name p) (images p) (price p) s avail.
End Product.

Module CartItem.
Record t := mk {
  product : nat;
  name : string;
  image : string;
  price : Z;
  quantity : Z
}.

Definition set_quantity (item : t) (q : Z) : t :=
  mk (product item) (name item) (image item) (price item) q.
End CartItem.

Module Cart.
Record t := mk {
  items : list CartItem.t;
  totalPrice : Z;
  totalItems : Z
}.

(** [Cart.create({ user })]: the schema defaults. *)
Definition create : t := mk [] 0 0.

Definition set_items (c : t) (l : list CartItem.t) : t :=
  mk l (totalPrice c) (totalItems c).
End Cart.

Module OrderItem.
Record t := mk {
  product : nat;
  name : string;
  image : string;
  price : Z;
  quantity : Z
}.
End OrderItem.

Module ShippingAddress.
(** A path that is absent from the request body is the empty string here:
    both are falsy. *)
Record t := mk {
  name : string;
  phone : string;
  address : string;
  city : string;
  state : string;
  zipCode : string;
  country : string
}.
End ShippingAddress.

Module PaymentResult.
Record t := mk {
  id : string;
  status : string;
  update_time : option Z;
  email_address : option string
}.
End PaymentResult.

Module Order.
Record t := mk {
  _id : nat;
  user : nat;
  orderItems : list OrderItem.t;
  shippingAddress : ShippingAddress.t;
  paymentMethod : string;
  paymentResult : option PaymentResult.t;
  paymentIntentId : option string;
  itemsPrice : Z;
  shippingPrice : Z;
  taxPrice : Z;
  totalPrice : Z;
  isPaid : bool;
  paidAt : option Z;
  isDelivered : bool;
  deliveredAt : option Z;
  orderStatus : string
}.

Definition set_prices (o : t) (items shipping tax total : Z) : t :=
  mk (_id o) (user o) (orderItems o) (shippingAddress o) (paymentMethod o)
     (paymentResult o) (paymentIntentId o) items shipping tax total
     (isPaid o) (paidAt o) (isDelivered o) (deliveredAt o) (orderStatus o).

Definition set_paid (o : t) (at_ : Z) : t :=
  mk (_id o) (user o) (orderItems o) (shippingAddress o) (paymentMethod o)
     (paymentResult o) (paymentIntentId o) (itemsPrice o) (shippingPrice o)
     (taxPrice o) (totalPrice o) true (Some at_) (isDelivered o)
     (deliveredAt o) (orderStatus o).

Definition set_paymentResult (o : t) (r : PaymentResult.t) : t :=
  mk (_id o) (user o) (orderItems o) (shippingAddress o) (paymentMethod o)
     (Some r) (paymentIntentId o) (itemsPrice o) (shippingPrice o)
     (taxPrice o) (totalPrice o) (isPaid o) (paidAt o) (isDelivered o)
     (deliveredAt o) (orderStatus o).

Definition set_paymentIntentId (o : t) (i : string) : t :=
  mk (_id o) (user o) (orderItems o) (shippingAddress o) (paymentMethod o)
     (paymentResult o) (Some i) (itemsPrice o) (shippingPrice o)
     (taxPrice o) (totalPrice o) (isPaid o) (paidAt o) (isDelivered o)
     (deliveredAt o) (orderStatus o).

Definition set_orderStatus (o : t) (s : string) : t :=
  mk (_id o) (user o) (orderItems o) (shippingAddress o) (paymentMethod o)
     (paymentResult o) (paymentIntentId o) (itemsPrice o) (shippingPrice o)
     (taxPrice o) (totalPrice o) (isPaid o) (paidAt o) (isDelivered o)
     (deliveredAt o) s.

Definition set_delivered (o : t) (at_ : Z) : t :=
  mk (_id o) (user o) (orderItems o) (shippingAddress o) (paymentMethod o)
     (paymentResult o) (paymentIntentId o) (itemsPrice o) (shippingPrice o)
     (taxPrice o) (totalPrice o) (isPaid o) (paidAt o) true (Some at_)
     (orderStatus o).
End Order.

(** ** Exceptions *)

(** What a model method can throw: the [Error]s it raises itself, the
    [TypeError] of the runtime on a property read of [null], and the
    rejection of [save()] by a schema validator. *)
Inductive Thrown :=
| ProductNotFound                 (* Error('Product not found') *)
| ProductOutOfStock               (* Error('Product is out of stock') *)
| OnlyAvailable (stock : Z)       (* Error(`Only ${stock} items available in stock`) *)
| ItemNotInCart                   (* Error('Item not found in cart') *)
| TypeErrorNull (property : string)
                                  (* TypeError: Cannot read properties of null *)
| ValidationError.

Inductive Result (A : Type) :=
| Ok (a : A)
| Throw (e : Thrown).
Arguments Ok {A} a.
Arguments Throw {A} e.

(** The validators [save()] runs, one per schema. *)
Class SchemaValidators := {
  cartValid : Cart.t → bool;
  orderValid : Order.t → bool;
  productValid : Product.t → bool
}.

(** ** The Cart model *)

Module cartSchema.
Section Methods.
Context {V : SchemaValidators}.

(** The [Product] collection as [Product.findById] sees it. *)
Variable products : gmap nat Product.t.

Definition save (c : Cart.t) : Result Cart.t :=
  if cartValid c then Ok c else Throw ValidationError.

Definition calculateTotals (c : Cart.t) : Cart.t :=
  Cart.mk (Cart.items c)
    (fold_left (λ total item, total + CartItem.price item * CartItem.quantity item)
               (Cart.items c) 0)
    (fold_left (λ total item, total + CartItem.quantity item) (Cart.items c) 0).

(** [productDoc.images?.[0]?.url || '']: the first image is a string, and
    a string has no [url] property. *)
Definition url (s : string) : option string := None.

Definition first_image_url (productDoc : Product.t) : string :=
  default EmptyString (head (Product.images productDoc) ≫= url).

Definition addItem (c : Cart.t) (product : nat) (quantity : Z) : Result Cart.t :=
  match products !! product with
  | None => Throw ProductNotFound
  | Some productDoc =>
    if negb (Product.inStock productDoc) then Throw ProductOutOfStock
    else
      match list_find (λ item, CartItem.product item = product) (Cart.items c) with
      | Some (existingItemIndex, existing) =>
        let newQuantity := CartItem.quantity existing + quantity in
        if newQuantity >? Product.stock productDoc
        then Throw (OnlyAvailable (Product.stock productDoc))
        else save (calculateTotals (Cart.set_items c
               (<[existingItemIndex := CartItem.set_quantity existing newQuantity]>
                  (Cart.items c))))
      | None =>
        save (calculateTotals (Cart.set_items c
               (Cart.items c ++
                [CartItem.mk product (Product.name productDoc)
                   (first_image_url productDoc) (Product.price productDoc)
                   quantity])))
      end
  end.

Definition removeItem (c : Cart.t) (productId : nat) : Result Cart.t :=
  save (calculateTotals (Cart.set_items c
          (filter (λ item, CartItem.product item ≠ productId) (Cart.items c)))).

Definition updateItemQuantity (c : Cart.t) (productId : nat) (quantity : Z)
  : Result Cart.t :=
  if quantity <=? 0 then removeItem c productId
  else
    match list_find (λ item, CartItem.product item = productId) (Cart.items c) with
    | None => Throw ItemNotInCart
    | Some (i, item) =>
      match products !! productId with
      | None => Throw (TypeErrorNull "stock")
      | Some productDoc =>
        if quantity >? Product.stock productDoc
        then Throw (OnlyAvailable (Product.stock productDoc))
        else save (calculateTotals (Cart.set_items c
               (<[i := CartItem.set_quantity item quantity]> (Cart.items c))))
      end
    end.

Definition clearCart (c : Cart.t) : Result Cart.t :=
  save (Cart.mk [] 0 0).
End Methods.
End cartSchema.

(** ** The Order model *)

(** [Math.round(p / q)] for integers [p] and [q > 0]: the nearest integer,
    a tie going up. [Math.round(n * 0.1)] is [Math_round n 10] on an integer
    [n]: the double [n * 0.1] is the one nearest to [n / 10], which is
    [n / 10] itself whenever that is half an integer. *)
Definition Math_round (p q : Z) : Z := (2 * p + q) / (2 * q).

Module orderSchema.
Definition calculateTotals (o : Order.t) : Order.t :=
  let itemsPrice :=
    fold_left (λ total item, total + OrderItem.price item * OrderItem.quantity item)
              (Order.orderItems o) 0 in
  let taxPrice := Math_round itemsPrice 10 in
  let shippingPrice := if itemsPrice >? 500 then 0 else 50 in
  Order.set_prices o itemsPrice shippingPrice taxPrice
    (itemsPrice + taxPrice + shippingPrice).
End orderSchema.

(** ** The database and the request environment *)

Record Db := mkDb {
  products : gmap nat Product.t;     (* Product, by _id *)
  carts : gmap nat Cart.t;           (* Cart, by user: one cart per user *)
  orders : list Order.t              (* Order, in insertion order *)
}.

Definition set_products (db : Db) (ps : gmap nat Product.t) : Db :=
  mkDb ps (carts db) (orders db).
Definition set_carts (db : Db) (cs : gmap nat Cart.t) : Db :=
  mkDb (products db) cs (orders db).
Definition set_orders (db : Db) (os : list Order.t) : Db :=
  mkDb (products db) (carts db) os.

Module PaymentIntent.
(** The payment intent object of the gateway. *)
Record t := mk {
  id : string;
  status : string;
  receipt_email : option string
}.
End PaymentIntent.

Module StripeEvent.
(** [event.type] and [event.data.object]. *)
Record t := mk {
  type : string;
  object : PaymentIntent.t
}.
End StripeEvent.

(** What a request reads from outside the database: the clock and the
    gateway. [paymentIntents_create] answers with the client secret and the
    id of the new intent; [None] is a call that throws. *)
Record Env := mkEnv {
  now : Z;
  paymentIntents_create : Z → option (string * string);
  paymentIntents_retrieve : string → option PaymentIntent.t
}.

(** [req.user], set by the authentication middleware. *)
Record User := mkUser {
  user_id : nat;
  user_email : string
}.

(** ** Responses *)

Inductive ErrorBody :=
| Msg (text : string)
| MessageOf (e : Thrown)            (* error: error.message *)
| ProductNamedNotFound (name : string)
                                     (* `Product ${item.name} not found` *)
| ProductNamedUnavailable (name : string)
    (* `Product ${item.name} is out of stock or insufficient quantity available` *)
| PaymentProcessingFailed            (* `Payment processing failed: ${error.message}` *)
| PaymentVerificationFailed.         (* `Payment verification failed: ${error.message}` *)

Inductive Response (A : Type) :=
| Json (status : nat) (data : A)     (* res.status(s).json({ success: true, data }) *)
| JsonError (status : nat) (error : ErrorBody)
                                     (* res.status(s).json({ success: false, error }) *)
| Send (status : nat) (text : string)
| Next (e : Thrown).                 (* next(error): the central error handler *)
Arguments Json {A} status data.
Arguments JsonError {A} status error.
Arguments Send {A} status text.
Arguments Next {A} e.

(** The central error handler: the status and the message it answers an
    exception handed to [next] with. A Mongoose ValidationError is a 400;
    the other exceptions of the model carry no [statusCode] and are a 500. *)
Definition errorHandler (err : Thrown) : nat * ErrorBody :=
  match err with
  | ValidationError => (400%nat, MessageOf err)
  | _ => (500%nat, MessageOf err)
  end.

(** ** Collection helpers *)

Definition findById (id : nat) (os : list Order.t) : option Order.t :=
  snd <$> list_find (λ o, Order._id o = id) os.

(** [new Order(...)] draws an [_id] no stored order has. *)
Definition fresh_id (os : list Order.t) : nat := S (max_list (Order._id <$> os)).

(** [order.save()] on a stored document writes it over the one with its
    [_id]. *)
Definition replaceOrder (o : Order.t) (os : list Order.t) : list Order.t :=
  (λ x, if decide (Order._id x = Order._id o) then o else x) <$> os.

Definition findByIdAndDelete (id : nat) (os : list Order.t) : list Order.t :=
  filter (λ x, Order._id x ≠ id) os.

(** [Order.findOne({ 'paymentResult.id': id })]. *)
Definition findOneByPaymentResultId (id : string) (os : list Order.t)
  : option Order.t :=
  snd <$> list_find
    (λ o, PaymentResult.id <$> Order.paymentResult o = Some id) os.

(** ** Cart controller *)

Section Controllers.
Context {V : SchemaValidators}.

(** [Cart.findOne({ user })], and [Cart.create({ user })] when there is
    none: the cart and the database holding it. *)
Definition findOrCreate (user : User) (db : Db) : Result (Cart.t * Db) :=
  match carts db !! user_id user with
  | Some cart => Ok (cart, db)
  | None =>
    if cartValid Cart.create
    then Ok (Cart.create, set_carts db (<[user_id user := Cart.create]> (carts db)))
    else Throw ValidationError
  end.

Definition getCart (user : User) (db : Db) : Response Cart.t * Db :=
  match findOrCreate user db with
  | Ok (cart, db) => (Json 200 cart, db)
  | Throw e => (Next e, db)
  end.

(** The phrases the cart controller looks for in [error.message]. *)
Definition includes_out_of_stock (e : Thrown) : bool :=
  match e with ProductOutOfStock => true | _ => false end.
Definition includes_available_in_stock (e : Thrown) : bool :=
  match e with OnlyAvailable _ => true | _ => false end.
Definition includes_not_found (e : Thrown) : bool :=
  match e with ProductNotFound | ItemNotInCart => true | _ => false end.

Definition addToCart (user : User) (productId : option nat) (quantity : option Z)
    (db : Db) : Response Cart.t * Db :=
  let quantity := default 1 quantity in
  let catch (e : Thrown) (db : Db) : Response Cart.t * Db :=
    if includes_out_of_stock e || includes_available_in_stock e
    then (JsonError 400 (MessageOf e), db)
    else (Next e, db) in
  match productId with
  | None => (JsonError 400 (Msg "Product ID is required"), db)
  | Some productId =>
    match products db !! productId with
    | None => (JsonError 404 (Msg "Product not found"), db)
    | Some _ =>
      match findOrCreate user db with
      | Throw e => catch e db
      | Ok (cart, db) =>
        match cartSchema.addItem (products db) cart productId quantity with
        | Ok cart' =>
          (Json 200 cart', set_carts db (<[user_id user := cart']> (carts db)))
        | Throw e => catch e db
        end
      end
    end
  end.

(** [!quantity || quantity < 0]: an absent quantity and [0] are falsy. *)
Definition updateCartItem (user : User) (productId : nat) (quantity : option Z)
    (db : Db) : Response Cart.t * Db :=
  match quantity with
  | None => (JsonError 400 (Msg "Valid quantity is required"), db)
  | Some quantity =>
    if (quantity =? 0) || (quantity <? 0)
    then (JsonError 400 (Msg "Valid quantity is required"), db)
    else
      match carts db !! user_id user with
      | None => (JsonError 404 (Msg "Cart not found"), db)
      | Some cart =>
        match cartSchema.updateItemQuantity (products db) cart productId quantity with
        | Ok cart' =>
          (Json 200 cart', set_carts db (<[user_id user := cart']> (carts db)))
        | Throw e =>
          if includes_not_found e || includes_available_in_stock e
          then (JsonError 400 (MessageOf e), db)
          else (Next e, db)
        end
      end
  end.

Definition removeFromCart (user : User) (productId : nat) (db : Db)
  : Response Cart.t * Db :=
  match carts db !! user_id user with
  | None => (JsonError 404 (Msg "Cart not found"), db)
  | Some cart =>
    match cartSchema.removeItem cart productId with
    | Ok cart' =>
      (Json 200 cart', set_carts db (<[user_id user := cart']> (carts db)))
    | Throw e => (Next e, db)
    end
  end.

Definition clearCart (user : User) (db : Db) : Response Cart.t * Db :=
  match carts db !! user_id user with
  | None => (JsonError 404 (Msg "Cart not found"), db)
  | Some cart =>
    match cartSchema.clearCart cart with
    | Ok cart' =>
      (Json 200 cart', set_carts db (<[user_id user := cart']> (carts db)))
    | Throw e => (Next e, db)
    end
  end.
End Controllers.

(** ** Payment gateway adapter *)

(** [createPaymentIntent(amount, 'inr', metadata)]: rejects an amount that
    is falsy or not positive, then asks the gateway for an intent of
    [Math.round(amount * 100)] paise. Every failure is rethrown as one
    [Error]; [None] stands for it. *)
Definition createPaymentIntent (env : Env) (amount : Z) : option (string * string) :=
  if amount <=? 0 then None else paymentIntents_create env (amount * 100).

Definition verifyPaymentIntent (env : Env) (paymentIntentId : string)
  : option PaymentIntent.t :=
  paymentIntents_retrieve env paymentIntentId.

(** ** Order controller *)

(** The stock loop of [updateOrderToPaid] and of the webhook: for each order
    item, the referenced product, when it still exists, is written back by
    [update]; a [product.save()] that throws ends the loop, the products
    saved before it staying saved. *)
Fixpoint decrementStock {V : SchemaValidators}
    (update : Product.t → Z → Product.t)
    (orderItems : list OrderItem.t) (ps : gmap nat Product.t)
  : gmap nat Product.t * Result unit :=
  match orderItems with
  | [] => (ps, Ok tt)
  | item :: rest =>
    match ps !! OrderItem.product item with
    | None => decrementStock update rest ps
    | Some product =>
      let product' := update product (OrderItem.quantity item) in
      if productValid product'
      then decrementStock update rest (<[OrderItem.product item := product']> ps)
      else (ps, Throw ValidationError)
    end
  end.

(** [product.stock -= item.quantity; product.inStock = product.stock > 0]. *)
Definition decrement_paid (product : Product.t) (quantity : Z) : Product.t :=
  let stock := Product.stock product - quantity in
  Product.set_stock product stock (stock >? 0).

(** [product.stock -= item.quantity;
     if (product.stock <= 0) product.inStock = false]. *)
Definition decrement_webhook (product : Product.t) (quantity : Z) : Product.t :=
  let stock := Product.stock product - quantity in
  Product.set_stock product stock
    (if stock <=? 0 then false else Product.inStock product).

Section OrderController.
Context {V : SchemaValidators}.

(** The stock check of checkout: the response of the first cart item that
    fails it, if any. *)
Fixpoint validateStock {A} (ps : gmap nat Product.t) (items : list CartItem.t)
  : option (Response A) :=
  match items with
  | [] => None
  | item :: rest =>
    match ps !! CartItem.product item with
    | None => Some (JsonError 404 (ProductNamedNotFound (CartItem.name item)))
    | Some product =>
      if negb (Product.inStock product)
         || (Product.stock product <? CartItem.quantity item)
      then Some (JsonError 400 (ProductNamedUnavailable (CartItem.name item)))
      else validateStock ps rest
    end
  end.

Definition orderItem_of (item : CartItem.t) : OrderItem.t :=
  OrderItem.mk (CartItem.product item) (CartItem.name item) (CartItem.image item)
    (CartItem.price item) (CartItem.quantity item).

Definition save_order (o : Order.t) (os : list Order.t) : Result (list Order.t) :=
  if orderValid o then Ok (replaceOrder o os) else Throw ValidationError.

(** The data of the 201 response: the order and, for stripe, the client
    secret and the id of the payment intent. *)
Definition Created : Type := Order.t * option (string * string).

(** The order checkout builds before it saves anything: the items
    snapshot the cart, the totals are calculated, and cash on delivery is
    marked paid at once. *)
Definition newOrder (env : Env) (user : User) (shippingAddress : ShippingAddress.t)
    (paymentMethod : string) (cart : Cart.t) (os : list Order.t) : Order.t :=
  let orderItems := orderItem_of <$> Cart.items cart in
  let order :=
    Order.mk (fresh_id os) (user_id user) orderItems
      shippingAddress paymentMethod None None 0 0 0 0
      false None false None "pending" in
  let order := orderSchema.calculateTotals order in
  if bool_decide (paymentMethod = "cod")
  then Order.set_orderStatus (Order.set_paid order (now env)) "processing"
  else order.

Definition createOrder (env : Env) (user : User)
    (shippingAddress : option ShippingAddress.t) (paymentMethod : option string)
    (db : Db) : Response Created * Db :=
  let paymentMethod := default "stripe" paymentMethod in
  match shippingAddress with
  | None => (JsonError 400 (Msg "Shipping address is required"), db)
  | Some shippingAddress =>
    if bool_decide (ShippingAddress.address shippingAddress = EmptyString)
       || bool_decide (ShippingAddress.city shippingAddress = EmptyString)
    then (JsonError 400 (Msg "Shipping address is required"), db)
    else
      match carts db !! user_id user with
      | None => (JsonError 400 (Msg "Cart is empty"), db)
      | Some cart =>
        if bool_decide (length (Cart.items cart) = 0%nat)
        then (JsonError 400 (Msg "Cart is empty"), db)
        else
          match validateStock (products db) (Cart.items cart) with
          | Some response => (response, db)
          | None =>
            let order :=
              newOrder env user shippingAddress paymentMethod cart (orders db) in
            if negb (orderValid order) then (Next ValidationError, db)
            else
              let db := set_orders db (orders db ++ [order]) in
              match cartSchema.clearCart cart with
              | Throw e => (Next e, db)
              | Ok cart' =>
                let db := set_carts db (<[user_id user := cart']> (carts db)) in
                if bool_decide (paymentMethod = "stripe")
                then
                  let rollback :=
                    (JsonError 500 PaymentProcessingFailed,
                     set_orders db (findByIdAndDelete (Order._id order) (orders db))) in
                  match createPaymentIntent env (Order.totalPrice order) with
                  | None => rollback
                  | Some (clientSecret, paymentIntentId) =>
                    let order := Order.set_paymentIntentId order paymentIntentId in
                    match save_order order (orders db) with
                    | Throw _ => rollback
                    | Ok os =>
                      (Json 201 (order, Some (clientSecret, paymentIntentId)),
                       set_orders db os)
                    end
                  end
                else (Json 201 (order, None), db)
              end
          end
      end
  end.

(** [paymentIntent.receipt_email || req.user.email]. *)
Definition receipt_or (receipt_email : option string) (fallback : string) : string :=
  match receipt_email with
  | Some e => if bool_decide (e = EmptyString) then fallback else e
  | None => fallback
  end.

(** The verification step of [updateOrderToPaid]: for a stripe order and
    a payment intent id in the body, the gateway is asked; the answer is
    either the response that ends the request or the order, carrying the
    payment result. Without an id, or for another payment method, the
    order goes on as it is. *)
Definition verifyPayment (env : Env) (user : User) (order : Order.t)
    (paymentIntentId : option string) : Response Order.t + Order.t :=
  match paymentIntentId with
  | Some paymentIntentId =>
    if bool_decide (Order.paymentMethod order = "stripe")
       && negb (bool_decide (paymentIntentId = EmptyString))
    then
      match verifyPaymentIntent env paymentIntentId with
      | None => inl (JsonError 400 PaymentVerificationFailed)
      | Some paymentIntent =>
        if negb (bool_decide (PaymentIntent.status paymentIntent = "succeeded"))
        then inl (JsonError 400 (Msg "Payment not successful"))
        else inr (Order.set_paymentResult order
               (PaymentResult.mk (PaymentIntent.id paymentIntent)
                  (PaymentIntent.status paymentIntent) (Some (now env))
                  (Some (receipt_or (PaymentIntent.receipt_email paymentIntent)
                           (user_email user)))))
      end
    else inr order
  | None => inr order
  end.

Definition updateOrderToPaid (env : Env) (user : User) (id : nat)
    (paymentIntentId : option string) (db : Db) : Response Order.t * Db :=
  match findById id (orders db) with
  | None => (JsonError 404 (Msg "Order not found"), db)
  | Some order =>
    if Order.isPaid order
    then (JsonError 400 (Msg "Order is already paid"), db)
    else
      match verifyPayment env user order paymentIntentId with
      | inl response => (response, db)
      | inr order =>
        let order :=
          Order.set_orderStatus (Order.set_paid order (now env)) "processing" in
        match decrementStock decrement_paid (Order.orderItems order) (products db) with
        | (ps, Throw e) => (Next e, set_products db ps)
        | (ps, Ok _) =>
          let db := set_products db ps in
          match save_order order (orders db) with
          | Throw e => (Next e, db)
          | Ok os => (Json 200 order, set_orders db os)
          end
        end
      end
  end.

Definition validStatuses : list string :=
  ["pending"; "processing"; "shipped"; "delivered"; "cancelled"].

Definition updateOrderStatus (env : Env) (id : nat) (status : string) (db : Db)
  : Response Order.t * Db :=
  if negb (bool_decide (status ∈ validStatuses))
  then (JsonError 400
          (Msg "Invalid status. Must be one of: pending, processing, shipped, delivered, cancelled"),
        db)
  else
    match findById id (orders db) with
    | None => (JsonError 404 (Msg "Order not found"), db)
    | Some order =>
      let order := Order.set_orderStatus order status in
      let order :=
        if bool_decide (status = "delivered")
        then Order.set_delivered order (now env)
        else order in
      match save_order order (orders db) with
      | Throw e => (Next e, db)
      | Ok os => (Json 200 order, set_orders db os)
      end
    end.
End OrderController.

(** ** Product controller: the writes of the catalogue administration *)

Module ProductBody.
(** The paths of the body of [PUT /api/products/:id] that reach the
    modelled paths of a product; [None] is an absent path. *)
Record t := mk {
  name : option string;
  images : option (list string);
  price : option Z;
  stock : option Z;
  inStock : option bool
}.
End ProductBody.

Section ProductController.
Context {V : SchemaValidators}.

(** The document [Product.findByIdAndUpdate(id, body)] stores: the paths of
    the body over those of the product found. *)
Definition findByIdAndUpdate (product : Product.t) (body : ProductBody.t)
  : Product.t :=
  Product.mk
    (default (Product.name product) (ProductBody.name body))
    (default (Product.images product) (ProductBody.images body))
    (default (Product.price product) (ProductBody.price body))
    (default (Product.stock product) (ProductBody.stock body))
    (default (Product.inStock product) (ProductBody.inStock body)).

Definition updateProduct (id : nat) (body : ProductBody.t) (db : Db)
  : Response Product.t * Db :=
  match products db !! id with
  | None => (JsonError 404 (Msg "Product not found"), db)
  | Some product =>
    let body :=
      match ProductBody.stock body with
      | Some stock =>
        ProductBody.mk (ProductBody.name body) (ProductBody.images body)
          (ProductBody.price body) (Some stock) (Some (stock >? 0))
      | None => body
      end in
    let product := findByIdAndUpdate product body in
    if productValid product
    then (Json 200 product, set_products db (<[id := product]> (products db)))
    else (Next ValidationError, db)
  end.

Definition deleteProduct (id : nat) (db : Db) : Response unit * Db :=
  match products db !! id with
  | None => (JsonError 404 (Msg "Product not found"), db)
  | Some _ => (Json 200 tt, set_products db (delete id (products db)))
  end.
End ProductController.

(** ** Stripe webhook *)

Section Webhook.
Context {V : SchemaValidators}.

(** [event] is the answer of [handleWebhook(req.body, sig, webhookSecret)],
    the signature check of the gateway library: [None] when it throws.
    [order.status = 'processing'] sets a property that is no path of
    [orderSchema]; the stored document does not get it. *)
Definition stripeWebhook (env : Env) (webhookSecret : option string)
    (event : option StripeEvent.t) (db : Db) : Response unit * Db :=
  match webhookSecret with
  | None => (Send 500 "Webhook secret not configured", db)
  | Some secret =>
    if bool_decide (secret = EmptyString)
    then (Send 500 "Webhook secret not configured", db)
    else
      match event with
      | None => (Send 400 "Webhook Error", db)
      | Some event =>
        let paymentIntent := StripeEvent.object event in
        if bool_decide (StripeEvent.type event = "payment_intent.succeeded")
        then
          match findOneByPaymentResultId (PaymentIntent.id paymentIntent) (orders db) with
          | Some order =>
            if negb (Order.isPaid order)
            then
              let order := Order.set_paid order (now env) in
              let order :=
                Order.set_paymentResult order
                  (PaymentResult.mk (PaymentIntent.id paymentIntent) "succeeded"
                     (Some (now env)) (PaymentIntent.receipt_email paymentIntent)) in
              match decrementStock decrement_webhook (Order.orderItems order)
                      (products db) with
              | (ps, Throw _) => (Send 400 "Webhook Error", set_products db ps)
              | (ps, Ok _) =>
                let db := set_products db ps in
                match save_order order (orders db) with
                | Throw _ => (Send 400 "Webhook Error", db)
                | Ok os => (Json 200 tt, set_orders db os)
                end
              end
            else (Json 200 tt, db)
          | None => (Json 200 tt, db)
          end
        else if bool_decide (StripeEvent.type event = "payment_intent.payment_failed")
        then
          match findOneByPaymentResultId (PaymentIntent.id paymentIntent) (orders db) with
          | Some failedOrder =>
            let failedOrder :=
              Order.set_paymentResult failedOrder
                (PaymentResult.mk (PaymentIntent.id paymentIntent) "failed" None None) in
            match save_order failedOrder (orders db) with
            | Throw _ => (Send 400 "Webhook Error", db)
            | Ok os => (Json 200 tt, set_orders db os)
            end
          | None => (Json 200 tt, db)
          end
        else (Json 200 tt, db)
      end
  end.
End Webhook.

(** ** The requests of the order lifecycle *)

Inductive Request :=
| GetCart (user : User)
| AddToCart (user : User) (productId : option nat) (quantity : option Z)
| UpdateCartItem (user : User) (productId : nat) (quantity : option Z)
| RemoveFromCart (user : User) (productId : nat)
| ClearCart (user : User)
| CreateOrder (user : User) (shippingAddress : option ShippingAddress.t)
    (paymentMethod : option string)
| UpdateOrderToPaid (user : User) (id : nat) (paymentIntentId : option string)
| UpdateOrderStatus (id : nat) (status : string)
| StripeWebhook (webhookSecret : option string) (event : option StripeEvent.t)
| UpdateProduct (id : nat) (body : ProductBody.t)
| DeleteProduct (id : nat)
| CatalogueWrite (ps : gmap nat Product.t).
    (* any other write of the Product collection: creation, reviews, seeding *)

(** The database after a request. *)
Definition handle {V : SchemaValidators} (env : Env) (r : Request) (db : Db) : Db :=
  match r with
  | GetCart user => (getCart user db).2
  | AddToCart user productId quantity => (addToCart user productId quantity db).2
  | UpdateCartItem user productId quantity =>
    (updateCartItem user productId quantity db).2
  | RemoveFromCart user productId => (removeFromCart user productId db).2
  | ClearCart user => (clearCart user db).2
  | CreateOrder user shippingAddress paymentMethod =>
    (createOrder env user shippingAddress paymentMethod db).2
  | UpdateOrderToPaid user id paymentIntentId =>
    (updateOrderToPaid env user id paymentIntentId db).2
  | UpdateOrderStatus id status => (updateOrderStatus env id status db).2
  | StripeWebhook webhookSecret event => (stripeWebhook env webhookSecret event db).2
  | UpdateProduct id body => (updateProduct id body db).2
  | DeleteProduct id => (deleteProduct id db).2
  | CatalogueWrite ps => set_products db ps
  end.

(** A run: each request with the environment it meets. *)
Definition run {V : SchemaValidators} (trace : list (Env * Request)) (db : Db) : Db :=
  fold_left (λ db er, handle er.1 er.2 db) trace db.

(** ** The validators the schemas declare *)

(** [required] on a [String] path rejects the empty string; [min] bounds a
    [Number] path from below; [enum] lists the values of a path. *)
Definition required (s : string) : bool := negb (bool_decide (s = EmptyString)).

Definition cartItemValid (item : CartItem.t) : bool :=
  required (CartItem.name item) && (0 <=? CartItem.price item)
  && (1 <=? CartItem.quantity item).

Definition orderItemValid (item : OrderItem.t) : bool :=
  required (OrderItem.name item) && required (OrderItem.image item)
  && (1 <=? OrderItem.quantity item).

Definition shippingAddressValid (a : ShippingAddress.t) : bool :=
  required (ShippingAddress.name a) && required (ShippingAddress.phone a)
  && required (ShippingAddress.address a) && required (ShippingAddress.city a)
  && required (ShippingAddress.state a) && required (ShippingAddress.zipCode a)
  && required (ShippingAddress.country a).

Definition declared : SchemaValidators := {|
  cartValid c :=
    forallb cartItemValid (Cart.items c)
    && (0 <=? Cart.totalPrice c) && (0 <=? Cart.totalItems c);
  orderValid o :=
    forallb orderItemValid (Order.orderItems o)
    && shippingAddressValid (Order.shippingAddress o)
    && bool_decide (Order.paymentMethod o ∈ ["stripe"; "cod"])
    && bool_decide (Order.orderStatus o ∈ validStatuses);
  productValid p :=
    required (Product.name p) && forallb required (Product.images p)
    && (0 <=? Product.price p) && (0 <=? Product.stock p)
|}.

(** ** Vocabulary of the specification *)

(** Σ over a list of amounts. *)
Definition sumZ (l : list Z) : Z := foldr Z.add 0 l.

(** totalPrice == Σ(item.price * item.quantity) and
    totalItems == Σ(item.quantity). *)
Definition totals_consistent (c : Cart.t) : Prop :=
  Cart.totalPrice c
    = sumZ ((λ item, CartItem.price item * CartItem.quantity item) <$> Cart.items c)
  ∧ Cart.totalItems c = sumZ (CartItem.quantity <$> Cart.items c).

(** The money fields as the specification relates them. *)
Definition money_fields (o : Order.t) : Prop :=
  Order.itemsPrice o
    = sumZ ((λ item, OrderItem.price item * OrderItem.quantity item)
              <$> Order.orderItems o)
  ∧ Order.taxPrice o = Math_round (Order.itemsPrice o) 10
  ∧ Order.itemsPrice o - 5 < 10 * Order.taxPrice o ≤ Order.itemsPrice o + 5
  ∧ Order.shippingPrice o = (if decide (500 < Order.itemsPrice o) then 0 else 50)
  ∧ Order.totalPrice o
    = Order.itemsPrice o + Order.taxPrice o + Order.shippingPrice o.

(** A cart item checkout cannot serve: its product is gone, is flagged out
    of stock, or has less stock than the item asks for. *)
Definition unservable (ps : gmap nat Product.t) (item : CartItem.t) : Prop :=
  match ps !! CartItem.product item with
  | None => True
  | Some product =>
    Product.inStock product = false
    ∨ Product.stock product < CartItem.quantity item
  end.

(** Two cart items carry the same snapshot of the same product. *)
Definition same_snapshot (a b : CartItem.t) : Prop :=
  CartItem.product a = CartItem.product b ∧ CartItem.name a = CartItem.name b
  ∧ CartItem.image a = CartItem.image b ∧ CartItem.price a = CartItem.price b.

(** An order that needs no payment any more and has none recorded: stored
    under [id], paid, without a payment result. *)
Definition settled_without_payment (id : nat) (os : list Order.t) : Prop :=
  id ∈ Order._id <$> os
  ∧ ∀ o, o ∈ os → Order._id o = id →
      Order.isPaid o = true ∧ Order.paymentResult o = None.

(** No unpaid order carries a payment result. *)
Definition unpaid_without_result (os : list Order.t) : Prop :=
  ∀ o, o ∈ os → Order.isPaid o = false → Order.paymentResult o = None.

(** The mutations of a cart. *)
Inductive CartMutation :=
| Call_addItem (product : nat) (quantity : Z)
| Call_updateItemQuantity (productId : nat) (quantity : Z)
| Call_removeItem (productId : nat)
| Call_clearCart.

Definition call {V : SchemaValidators} (ps : gmap nat Product.t) (c : Cart.t)
    (m : CartMutation) : Result Cart.t :=
  match m with
  | Call_addItem product quantity => cartSchema.addItem ps c product quantity
  | Call_updateItemQuantity productId quantity =>
    cartSchema.updateItemQuantity ps c productId quantity
  | Call_removeItem productId => cartSchema.removeItem c productId
  | Call_clearCart => cartSchema.clearCart c
  end.

(** The carts saved along a sequence of mutations, each meeting the
    catalogue of its moment; a mutation that throws saves nothing and the
    stored cart stays. *)
Fixpoint saved_along {V : SchemaValidators} (c : Cart.t)
    (calls : list (gmap nat Product.t * CartMutation)) : list Cart.t :=
  match calls with
  | [] => []
  | (ps, m) :: rest =>
    match call ps c m with
    | Ok c' => c' :: saved_along c' rest
    | Throw _ => saved_along c rest
    end
  end.

(** The cart in the database after each call of a sequence, the calls that
    throw included. *)
Fixpoint stored_along {V : SchemaValidators} (c : Cart.t)
    (calls : list (gmap nat Product.t * CartMutation)) : list Cart.t :=
  match calls with
  | [] => []
  | (ps, m) :: rest =>
    let c' := match call ps c m with Ok c' => c' | Throw _ => c end in
    c' :: stored_along c' rest
  end.

(** ** Sample data *)

Module Sample.
Definition lipstick : Product.t :=
  Product.mk "Matte Lipstick" ["https://img.example/lipstick.jpg"] 399 5 true.

Definition catalogue : gmap nat Product.t := {[ 1%nat := lipstick ]}.

Definition alice : User := mkUser 7 "alice@example.com".

Definition in_cart (q : Z) : CartItem.t :=
  CartItem.mk 1 "Matte Lipstick" "lipstick.jpg" 399 q.

Definition cart_of (l : list CartItem.t) : Cart.t :=
  cartSchema.calculateTotals (Cart.mk l 0 0).

(** Alice holds two lipsticks in her cart. *)
Definition shop : Db := mkDb catalogue {[ 7%nat := cart_of [in_cart 2] ]} [].

(** The same shop once the administrator has deleted the lipstick. *)
Definition shop_without_lipstick : Db :=
  (deleteProduct 1 shop).2.

Definition serum : Product.t :=
  Product.mk "Night Serum" ["https://img.example/serum.jpg"] 500 10 true.

Definition home : ShippingAddress.t :=
  ShippingAddress.mk "Alice" "9999999999" "12 MG Road" "Pune" "MH" "411001" "India".

(** The clock reads 1000; the gateway grants every intent and reports it
    paid. *)
Definition gateway : Env :=
  mkEnv 1000 (λ _, Some ("secret_1", "pi_1"))
    (λ id, Some (PaymentIntent.mk id "succeeded" None)).

(** Alice holds two serums, 1000 rupees of items. *)
Definition boutique : Db :=
  mkDb {[ 1%nat := lipstick; 2%nat := serum ]}
    {[ 7%nat := cart_of [CartItem.mk 2 "Night Serum" "serum.jpg" 500 2] ]} [].

(** The serum has sold down to one unit since Alice filled her cart. *)
Definition boutique_short : Db :=
  (updateProduct (V:=declared) 2
     (ProductBody.mk None None None (Some 1) None) boutique).2.

(** The serum now costs 650. *)
Definition boutique_repriced : Db :=
  (updateProduct (V:=declared) 2
     (ProductBody.mk None None (Some 650) None None) boutique).2.

(** Alice has checked out with stripe: order 1 waits for its payment,
    intent pi_1. *)
Definition pending : Db :=
  (createOrder (V:=declared) gateway alice (Some home) (Some "stripe") boutique).2.

(** The clock reads 2000, the gateway is the same. *)
Definition later : Env :=
  mkEnv 2000 (paymentIntents_create gateway) (paymentIntents_retrieve gateway).

(** The gateway announces that pi_1 was paid. *)
Definition pi_1_succeeded : StripeEvent.t :=
  StripeEvent.mk "payment_intent.succeeded"
    (PaymentIntent.mk "pi_1" "succeeded" (Some "alice@example.com")).
End Sample.

(** ** The Wishlist model and controller *)

Module Wishlist.
(** The products of the wishlist of a user, an array of product ids. *)
Record t := mk {
  products : list nat
}.

(** [Wishlist.create({ user })]. *)
Definition create : t := mk [].
End Wishlist.

Module wishlistSchema.
Section Methods.
(** The validators [save()] runs on a wishlist. *)
Variable wishlistValid : Wishlist.t → bool.

Definition save (w : Wishlist.t) : Result Wishlist.t :=
  if wishlistValid w then Ok w else Throw ValidationError.

Definition hasProduct (w : Wishlist.t) (productId : nat) : bool :=
  existsb (λ id, bool_decide (id = productId)) (Wishlist.products w).

(** A product the wishlist holds already is not pushed, and the wishlist is
    returned without a save. *)
Definition addProduct (w : Wishlist.t) (productId : nat) : Result Wishlist.t :=
  let exists_ := hasProduct w productId in
  if negb exists_
  then save (Wishlist.mk (Wishlist.products w ++ [productId]))
  else Ok w.

Definition removeProduct (w : Wishlist.t) (productId : nat) : Result Wishlist.t :=
  save (Wishlist.mk (filter (λ id, id ≠ productId) (Wishlist.products w))).

Definition clearWishlist (w : Wishlist.t) : Result Wishlist.t :=
  save (Wishlist.mk []).
End Methods.
End wishlistSchema.

Section WishlistController.
Variable wishlistValid : Wishlist.t → bool.

(** The [Product] collection, read only here, and the [Wishlist]
    collection, by user: one wishlist per user. *)
Variable ps : gmap nat Product.t.

(** The data of [GET /api/wishlist]: the count and the wishlist. *)
Definition getWishlist (user : User) (ws : gmap nat Wishlist.t)
  : Response (nat * Wishlist.t) * gmap nat Wishlist.t :=
  match ws !! user_id user with
  | Some wishlist => (Json 200 (length (Wishlist.products wishlist), wishlist), ws)
  | None =>
    if wishlistValid Wishlist.create
    then (Json 200 (0%nat, Wishlist.create), <[user_id user := Wishlist.create]> ws)
    else (Next ValidationError, ws)
  end.

Definition addToWishlist (user : User) (productId : option nat)
    (ws : gmap nat Wishlist.t) : Response Wishlist.t * gmap nat Wishlist.t :=
  match productId with
  | None => (JsonError 400 (Msg "Product ID is required"), ws)
  | Some productId =>
    match ps !! productId with
    | None => (JsonError 404 (Msg "Product not found"), ws)
    | Some _ =>
      let found :=
        match ws !! user_id user with
        | Some wishlist => Ok (wishlist, ws)
        | None =>
          if wishlistValid Wishlist.create
          then Ok (Wishlist.create, <[user_id user := Wishlist.create]> ws)
          else Throw ValidationError
        end in
      match found with
      | Throw e => (Next e, ws)
      | Ok (wishlist, ws) =>
        let alreadyExists := wishlistSchema.hasProduct wishlist productId in
        if alreadyExists
        then (JsonError 400 (Msg "Product already in wishlist"), ws)
        else
          match wishlistSchema.addProduct wishlistValid wishlist productId with
          | Ok wishlist' => (Json 200 wishlist', <[user_id user := wishlist']> ws)
          | Throw e => (Next e, ws)
          end
      end
    end
  end.

Definition removeFromWishlist (user : User) (productId : nat)
    (ws : gmap nat Wishlist.t) : Response Wishlist.t * gmap nat Wishlist.t :=
  match ws !! user_id user with
  | None => (JsonError 404 (Msg "Wishlist not found"), ws)
  | Some wishlist =>
    match wishlistSchema.removeProduct wishlistValid wishlist productId with
    | Ok wishlist' => (Json 200 wishlist', <[user_id user := wishlist']> ws)
    | Throw e => (Next e, ws)
    end
  end.

(** The data of [GET /api/wishlist/check/:productId]: [isInWishlist]. *)
Definition checkWishlistStatus (user : User) (productId : nat)
    (ws : gmap nat Wishlist.t) : Response bool :=
  match ws !! user_id user with
  | Some wishlist => Json 200 (wishlistSchema.hasProduct wishlist productId)
  | None => Json 200 false
  end.

Definition clearWishlist (user : User) (ws : gmap nat Wishlist.t)
  : Response Wishlist.t * gmap nat Wishlist.t :=
  match ws !! user_id user with
  | None => (JsonError 404 (Msg "Wishlist not found"), ws)
  | Some wishlist =>
    match wishlistSchema.clearWishlist wishlistValid wishlist with
    | Ok wishlist' => (Json 200 wishlist', <[user_id user := wishlist']> ws)
    | Throw e => (Next e, ws)
    end
  end.
End WishlistController.

(** ** Paging of the product list *)

Module Pagination.
Record t := mk {
  page : Z;
  limit : Z;
  skip : Z
}.
End Pagination.

(** [buildPagination(page = 1, limit = 10)].  The query parameters are
    absent or integer numerals; [Number] of any other text is outside this
    model. *)
Definition buildPagination (page limit : option Z) : Pagination.t :=
  let pageNum := Z.max 1 (default 1 page) in
  let limitNum := Z.min 100 (Z.max 1 (default 10 limit)) in
  let skip := (pageNum - 1) * limitNum in
  Pagination.mk pageNum limitNum skip.

Module PaginationMeta.
Record t := mk {
  currentPage : Z;
  itemsPerPage : Z;
  totalItems : Z;
  totalPages : Z;
  hasNextPage : bool;
  hasPrevPage : bool
}.
End PaginationMeta.

(** [Math.ceil(p / q)] for integers [p] and [q], [q] other than zero. *)
Definition Math_ceil (p q : Z) : Z := - ((- p) / q).

Definition createPaginationMeta (page limit total : Z) : PaginationMeta.t :=
  PaginationMeta.mk page limit total
    (Math_ceil total limit) (page * limit <? total) (1 <? page).

Module ProductList.
Record t (A : Type) := mk {
  count : nat;
  pagination : PaginationMeta.t;
  products : list A
}.
Arguments mk {A} count pagination products.
Arguments count {A} t.
Arguments pagination {A} t.
Arguments products {A} t.
End ProductList.

(** [getProducts], from the query on: [found] is what
    [Product.find(filter).sort(sort)] yields, in that order, and
    [countDocuments(filter)] is its length. *)
Definition getProducts {A} (found : list A) (page limit : option Z)
  : ProductList.t A :=
  let p := buildPagination page limit in
  let products :=
    take (Z.to_nat (Pagination.limit p))
         (drop (Z.to_nat (Pagination.skip p)) found) in
  let total := Z.of_nat (length found) in
  let pagination :=
    createPaginationMeta (Pagination.page p) (Pagination.limit p) total in
  ProductList.mk (length products) pagination products.

(** ** Role guard, guarded routes and the reading of orders *)


Section Routes.
Context {V : SchemaValidators}.


End Routes.

(** The data of [GET /api/orders/myorders]: the count and the orders of the
    user, newest first. The stored orders are in the order of their
    creation. *)
Definition getMyOrders (user : User) (db : Db) : Response (nat * list Order.t) :=
  let found := reverse (filter (λ o, Order.user o = user_id user) (orders db)) in
  Json 200 (length found, found).

Definition getOrderById (user : User) (role : string) (id : nat) (db : Db)
  : Response Order.t :=
  match findById id (orders db) with
  | None => JsonError 404 (Msg "Order not found")
  | Some order =>
    if negb (bool_decide (Order.user order = user_id user))
       && negb (bool_decide (role = "admin"))
    then JsonError 403 (Msg "Not authorized to access this order")
    else Json 200 order
  end.

(** ** Admin dashboard *)

Module Stats.
(** The counts and the sum that [getDashboardStats] takes over the products
    and the orders: [overview] but for the users, and [orders]. *)
Record t := mk {
  totalProducts : nat;
  outOfStockProducts : nat;
  totalOrders : nat;
  totalSales : Z;
  pending : nat;
  processing : nat;
  shipped : nat;
  delivered : nat
}.
End Stats.

(** [Order.countDocuments({ orderStatus })]. *)
Definition countByStatus (status : string) (os : list Order.t) : nat :=
  length (filter (λ o, Order.orderStatus o = status) os).

(** [$match: { isPaid: true }] then [$sum: '$totalPrice'], and 0 when no
    order is paid. *)
Definition sumPaid (os : list Order.t) : Z :=
  sumZ (Order.totalPrice <$> filter (λ o, Order.isPaid o = true) os).

Definition getDashboardStats (db : Db) : Response Stats.t :=
  let totalProducts := size (products db) in
  let outOfStockProducts :=
    length (filter (λ kp, Product.inStock kp.2 = false)
              (map_to_list (products db))) in
  let totalOrders := length (orders db) in
  let pendingOrders := countByStatus "pending" (orders db) in
  let processingOrders := countByStatus "processing" (orders db) in
  let shippedOrders := countByStatus "shipped" (orders db) in
  let deliveredOrders := countByStatus "delivered" (orders db) in
  let totalSales := sumPaid (orders db) in
  Json 200
    (Stats.mk totalProducts outOfStockProducts totalOrders totalSales
       pendingOrders processingOrders shippedOrders deliveredOrders).

(** ** Vocabulary of the further properties *)

(** The products of the items of a cart, in order. *)
Definition cart_products (c : Cart.t) : list nat :=
  CartItem.product <$> Cart.items c.

(** [inStock] says what [stock] says. *)
Definition in_sync (p : Product.t) : Prop :=
  Product.inStock p = (Product.stock p >? 0).

(** What an order keeps for good: everything checkout wrote but the payment
    and delivery paths, and of those the flags once they are set. *)
Definition keeps (o o' : Order.t) : Prop :=
  Order._id o' = Order._id o
  ∧ Order.user o' = Order.user o
  ∧ Order.orderItems o' = Order.orderItems o
  ∧ Order.shippingAddress o' = Order.shippingAddress o
  ∧ Order.paymentMethod o' = Order.paymentMethod o
  ∧ Order.paymentIntentId o' = Order.paymentIntentId o
  ∧ Order.itemsPrice o' = Order.itemsPrice o
  ∧ Order.shippingPrice o' = Order.shippingPrice o
  ∧ Order.taxPrice o' = Order.taxPrice o
  ∧ Order.totalPrice o' = Order.totalPrice o
  ∧ (Order.isPaid o = true → Order.isPaid o' = true ∧ Order.paidAt o' = Order.paidAt o)
  ∧ (Order.isDelivered o = true → Order.isDelivered o' = true).

(** The orders are kept: the ids stay distinct and each stored order is
    found again with what it keeps. *)
Definition kept (os os' : list Order.t) : Prop :=
  NoDup (Order._id <$> os')
  ∧ ∀ id o, findById id os = Some o →
      ∃ o', findById id os' = Some o' ∧ keeps o o'.

(** The cart requests of a user. *)
Definition cart_request_of (user : User) (r : Request) : Prop :=
  match r with
  | GetCart u | AddToCart u _ _ | UpdateCartItem u _ _ | RemoveFromCart u _
  | ClearCart u => u = user
  | _ => False
  end.





(** ** More sample data *)

Module Scenario.
(** Order 1 once Alice has confirmed its payment with intent pi_1. *)
Definition confirmed : Db :=
  (updateOrderToPaid (V:=declared) Sample.later Sample.alice 1 (Some "pi_1")
     Sample.pending).2.

(** The gateway announces that the payment of pi_1 failed. *)
Definition pi_1_failed : StripeEvent.t :=
  StripeEvent.mk "payment_intent.payment_failed"
    (PaymentIntent.mk "pi_1" "requires_payment_method" None).
End Scenario.

(** * Properties *)

(** ** Sums *)

Lemma fold_left_add_sumZ {A} (f : A → Z) (l : list A) (a : Z) :
  fold_left (λ total x, total + f x) l a = a + sumZ (f <$> l).
Proof.
  revert a. induction l as [|x l IH]; intros a; cbn.
  - lia.
  - rewrite IH. unfold sumZ. lia.
Qed.

(** ** Cart totals *)

Section CartTotals.
Context {V : SchemaValidators}.

Lemma save_Ok c c' : cartSchema.save c = Ok c' → c' = c.
Proof. unfold cartSchema.save. destruct (cartValid c); congruence. Qed.

Lemma calculateTotals_items c :
  Cart.items (cartSchema.calculateTotals c) = Cart.items c.
Proof. reflexivity. Qed.

Lemma calculateTotals_consistent c :
  totals_consistent (cartSchema.calculateTotals c).
Proof.
  split; simpl; rewrite fold_left_add_sumZ; lia.
Qed.

Lemma cleared_consistent : totals_consistent (Cart.mk [] 0 0).
Proof. split; reflexivity. Qed.

Lemma call_consistent ps c m c' :
  call ps c m = Ok c' → totals_consistent c'.
Proof.
  destruct m as [product quantity|productId quantity|productId|]; simpl.
  - unfold cartSchema.addItem.
    destruct (ps !! product) as [productDoc|]; [|discriminate].
    destruct (negb (Product.inStock productDoc)); [discriminate|].
    destruct (list_find _ (Cart.items c)) as [[i existing]|].
    + destruct (_ >? _); [discriminate|].
      intros ->%save_Ok. apply calculateTotals_consistent.
    + intros ->%save_Ok. apply calculateTotals_consistent.
  - unfold cartSchema.updateItemQuantity, cartSchema.removeItem.
    destruct (quantity <=? 0).
    { intros ->%save_Ok. apply calculateTotals_consistent. }
    destruct (list_find _ (Cart.items c)) as [[i item]|]; [|discriminate].
    destruct (ps !! productId) as [productDoc|]; [|discriminate].
    destruct (_ >? _); [discriminate|].
    intros ->%save_Ok. apply calculateTotals_consistent.
  - unfold cartSchema.removeItem.
    intros ->%save_Ok. apply calculateTotals_consistent.
  - unfold cartSchema.clearCart.
    intros ->%save_Ok. apply cleared_consistent.
Qed.

(** C1. Along every sequence of cart mutations (addItem,
    updateItemQuantity, removeItem, clearCart), from every cart and whatever
    the catalogue is at each call, each cart a mutation stores has
    totalPrice equal to the sum of price * quantity over its items and
    totalItems equal to the sum of quantity over its items; and from a cart
    whose totals are right, such as a new one, the stored cart has them
    right after every call, the calls that throw included. *)
Theorem cart_totals_after_every_mutation
    (c : Cart.t) (calls : list (gmap nat Product.t * CartMutation)) :
  Forall totals_consistent (saved_along c calls)
  ∧ (totals_consistent c → Forall totals_consistent (stored_along c calls)).
Proof.
  split.
  - revert c. induction calls as [|[ps m] rest IH]; intros c; simpl.
    + constructor.
    + destruct (call ps c m) as [c'|e] eqn:E.
      * constructor; [eapply call_consistent; eassumption | apply IH].
      * apply IH.
  - revert c. induction calls as [|[ps m] rest IH]; intros c Hc; simpl.
    + constructor.
    + destruct (call ps c m) as [c'|e] eqn:E.
      * apply call_consistent in E. constructor; [exact E | exact (IH _ E)].
      * constructor; [exact Hc | exact (IH _ Hc)].
Qed.
End CartTotals.

(** A new cart: two lipsticks in, nine asked for (five in stock: refused),
    one more in, then the cart cleared. *)
Lemma cart_totals_after_every_mutation_witness :
  let calls :=
    [(Sample.catalogue, Call_addItem 1 2);
     (Sample.catalogue, Call_updateItemQuantity 1 9);
     (Sample.catalogue, Call_addItem 1 1);
     (Sample.catalogue, Call_clearCart)] in
  (λ c, (Cart.totalPrice c, Cart.totalItems c))
    <$> stored_along (V:=declared) Cart.create calls
  = [(798, 2); (798, 2); (1197, 3); (0, 0)]
  ∧ Forall totals_consistent (stored_along (V:=declared) Cart.create calls).
Proof.
  intros calls. split; [reflexivity|].
  apply (cart_totals_after_every_mutation (V:=declared) Cart.create calls).
  split; reflexivity.
Defined.

(** ** Stock checks of the cart *)

Section CartStock.
Context {V : SchemaValidators}.

(** The branch of [addItem] for a product the cart already holds compares
    the resulting quantity with the stock and throws before any write. *)
Lemma addItem_existing_item_checks_stock ps c product quantity productDoc i existing :
  ps !! product = Some productDoc →
  Product.inStock productDoc = true →
  list_find (λ item, CartItem.product item = product) (Cart.items c)
    = Some (i, existing) →
  Product.stock productDoc < CartItem.quantity existing + quantity →
  cartSchema.addItem ps c product quantity
    = Throw (OnlyAvailable (Product.stock productDoc)).
Proof.
  intros Hp Hin Hfind Hlt. unfold cartSchema.addItem.
  rewrite Hp, Hin, Hfind. simpl.
  destruct (Z.gtb_spec (CartItem.quantity existing + quantity)
              (Product.stock productDoc)); [reflexivity | lia].
Qed.

(** C2, on the code. For a product the cart does not hold yet, [addItem]
    never compares the requested quantity with the stock: a quantity above
    the stock is stored as it is, the totals following it. *)
Theorem addItem_new_item_ignores_stock
    (ps : gmap nat Product.t) (c : Cart.t) (product : nat) (quantity : Z)
    (productDoc : Product.t) :
  ps !! product = Some productDoc →
  Product.inStock productDoc = true →
  list_find (λ item, CartItem.product item = product) (Cart.items c) = None →
  Product.stock productDoc < quantity →
  let c' :=
    cartSchema.calculateTotals (Cart.set_items c
      (Cart.items c ++
       [CartItem.mk product (Product.name productDoc)
          (cartSchema.first_image_url productDoc) (Product.price productDoc)
          quantity])) in
  cartValid c' = true →
  cartSchema.addItem ps c product quantity = Ok c'.
Proof.
  intros Hp Hin Hfind _ c' Hvalid. unfold cartSchema.addItem.
  rewrite Hp, Hin, Hfind. simpl. unfold cartSchema.save.
  fold c'. rewrite Hvalid. reflexivity.
Qed.

(** The sibling guard: [addItem] answers a missing product with its own
    error. *)
Lemma addItem_missing_product ps c product quantity :
  ps !! product = None →
  cartSchema.addItem ps c product quantity = Throw ProductNotFound.
Proof. intros Hp. unfold cartSchema.addItem. rewrite Hp. reflexivity. Qed.

(** C9, on the code. Updating to a positive quantity an item whose product
    has left the catalogue reads [stock] of [null]: the method throws the
    TypeError of the runtime, which the controller hands to the central
    error handler, a 500; the cart is not written. *)
Theorem updateCartItem_deleted_product
    (user : User) (productId : nat) (quantity : Z) (db : Db) (cart : Cart.t)
    (i : nat) (item : CartItem.t) :
  carts db !! user_id user = Some cart →
  list_find (λ item, CartItem.product item = productId) (Cart.items cart)
    = Some (i, item) →
  products db !! productId = None →
  0 < quantity →
  cartSchema.updateItemQuantity (products db) cart productId quantity
    = Throw (TypeErrorNull "stock")
  ∧ updateCartItem user productId (Some quantity) db
    = (Next (TypeErrorNull "stock"), db)
  ∧ errorHandler (TypeErrorNull "stock")
    = (500%nat, MessageOf (TypeErrorNull "stock")).
Proof.
  intros Hcart Hfind Hp Hq.
  assert (Hm : cartSchema.updateItemQuantity (products db) cart productId quantity
               = Throw (TypeErrorNull "stock")).
  { unfold cartSchema.updateItemQuantity.
    destruct (Z.leb_spec quantity 0); [lia|].
    rewrite Hfind, Hp. reflexivity. }
  split; [exact Hm|]. split; [|reflexivity].
  unfold updateCartItem.
  destruct (Z.eqb_spec quantity 0); [lia|].
  destruct (Z.ltb_spec quantity 0); [lia|].
  simpl. rewrite Hcart, Hm. reflexivity.
Qed.
End CartStock.

(** Stock 5, quantity 6, an empty cart: the item is stored with quantity 6. *)
Lemma addItem_new_item_ignores_stock_witness :
  cartSchema.addItem (V:=declared) Sample.catalogue Cart.create 1 6
  = Ok (Cart.mk [CartItem.mk 1 "Matte Lipstick" EmptyString 399 6] 2394 6).
Proof.
  apply (addItem_new_item_ignores_stock (V:=declared)
           Sample.catalogue Cart.create 1 6 Sample.lipstick).
  - reflexivity.
  - reflexivity.
  - reflexivity.
  - simpl. lia.
  - reflexivity.
Defined.

(** The lipstick deleted, Alice sets her two lipsticks to three. *)
Lemma updateCartItem_deleted_product_witness :
  cartSchema.updateItemQuantity (V:=declared)
    (products Sample.shop_without_lipstick) (Sample.cart_of [Sample.in_cart 2]) 1 3
    = Throw (TypeErrorNull "stock")
  ∧ updateCartItem (V:=declared) Sample.alice 1 (Some 3) Sample.shop_without_lipstick
    = (Next (TypeErrorNull "stock"), Sample.shop_without_lipstick)
  ∧ errorHandler (TypeErrorNull "stock")
    = (500%nat, MessageOf (TypeErrorNull "stock")).
Proof.
  apply (updateCartItem_deleted_product (V:=declared) Sample.alice 1 3
           Sample.shop_without_lipstick (Sample.cart_of [Sample.in_cart 2])
           0%nat (Sample.in_cart 2)).
  - reflexivity.
  - reflexivity.
  - reflexivity.
  - lia.
Defined.

(** ** Checkout *)

Section Checkout.
Context {V : SchemaValidators}.

Lemma clearCart_Ok cart cart' :
  cartSchema.clearCart cart = Ok cart' → cart' = Cart.mk [] 0 0.
Proof. unfold cartSchema.clearCart. apply save_Ok. Qed.

Lemma save_order_Ok o os os' :
  save_order o os = Ok os' → os' = replaceOrder o os.
Proof. unfold save_order. destruct (orderValid o); congruence. Qed.

(** What a 2xx answer of [createOrder] tells. *)
Lemma createOrder_Json env user sa pm db status data db' :
  createOrder env user sa pm db = (Json status data, db') →
  ∃ addr cart,
    sa = Some addr
    ∧ carts db !! user_id user = Some cart
    ∧ Cart.items cart ≠ []
    ∧ status = 201%nat
    ∧ products db' = products db
    ∧ carts db' = <[user_id user := Cart.mk [] 0 0]> (carts db)
    ∧ let o := newOrder env user addr (default "stripe" pm) cart (orders db) in
      (default "stripe" pm ≠ "stripe" ∧ data = (o, None)
       ∧ orders db' = orders db ++ [o])
      ∨ (default "stripe" pm = "stripe"
         ∧ ∃ secret intent,
             data = (Order.set_paymentIntentId o intent, Some (secret, intent))
             ∧ orders db'
               = replaceOrder (Order.set_paymentIntentId o intent) (orders db ++ [o])).
Proof.
  unfold createOrder. intros Hc.
  destruct sa as [addr|]; [|discriminate].
  destruct (_ || _); [discriminate|].
  destruct (carts db !! user_id user) as [cart|] eqn:Hcart; [|discriminate].
  destruct (bool_decide _) eqn:Hlen; [discriminate|].
  destruct (validateStock _ _) as [r|] eqn:Hv.
  { exfalso. clear -Hv Hc. simplify_eq.
    induction (Cart.items cart) as [|item rest IH]; simpl in Hv; [discriminate|].
    destruct (products db' !! CartItem.product item); [|discriminate].
    destruct (_ || _); [discriminate|]. auto. }
  destruct (negb _); [discriminate|].
  destruct (cartSchema.clearCart cart) as [cart'|] eqn:Hclear; [|discriminate].
  apply clearCart_Ok in Hclear as ->.
  exists addr, cart. split; [reflexivity|]. split; [reflexivity|].
  split. { apply bool_decide_eq_false in Hlen. by destruct (Cart.items cart). }
  destruct (bool_decide (default "stripe" pm = "stripe")) eqn:Hpm.
  - apply bool_decide_eq_true in Hpm.
    destruct (createPaymentIntent _ _) as [[secret intent]|]; [|discriminate].
    destruct (save_order _ _) as [os|] eqn:Hsave; [|discriminate].
    apply save_order_Ok in Hsave as ->. simplify_eq. simpl.
    repeat split; try reflexivity. right. split; [assumption|].
    exists secret, intent. split; reflexivity.
  - apply bool_decide_eq_false in Hpm. simplify_eq. simpl.
    repeat split; try reflexivity. left. repeat split; assumption.
Qed.
End Checkout.

(** ** Order totals *)

(** [Math_round p q] is the integer nearest to [p / q], the tie going up. *)
Lemma Math_round_nearest (p q : Z) :
  0 < q → 2 * p - q < 2 * q * Math_round p q ≤ 2 * p + q.
Proof.
  intros Hq. unfold Math_round.
  pose proof (Z.mul_div_le (2 * p + q) (2 * q)).
  pose proof (Z.mul_succ_div_gt (2 * p + q) (2 * q)).
  lia.
Qed.

Example Math_round_ties_up :
  Math_round 1000 10 = 100 ∧ Math_round 400 10 = 40 ∧ Math_round 404 10 = 40
  ∧ Math_round 405 10 = 41 ∧ Math_round 5 10 = 1 ∧ Math_round 4 10 = 0.
Proof. repeat split. Qed.

Lemma calculateTotals_itemsPrice o :
  Order.itemsPrice (orderSchema.calculateTotals o)
  = sumZ ((λ item, OrderItem.price item * OrderItem.quantity item)
            <$> Order.orderItems o).
Proof. simpl. rewrite fold_left_add_sumZ. lia. Qed.

Lemma calculateTotals_money_fields o : money_fields (orderSchema.calculateTotals o).
Proof.
  unfold money_fields. rewrite calculateTotals_itemsPrice.
  set (s := sumZ _). 
  assert (Hi : Order.itemsPrice (orderSchema.calculateTotals o) = s)
    by apply calculateTotals_itemsPrice.
  assert (Ht : Order.taxPrice (orderSchema.calculateTotals o) = Math_round s 10).
  { simpl. rewrite fold_left_add_sumZ. f_equal. }
  assert (Hs : Order.shippingPrice (orderSchema.calculateTotals o)
               = if decide (500 < s) then 0 else 50).
  { simpl. rewrite fold_left_add_sumZ. fold s.
    destruct (Z.gtb_spec (0 + s) 500); destruct (decide (500 < s)); lia. }
  assert (Htot : Order.totalPrice (orderSchema.calculateTotals o)
               = s + Math_round s 10 + if decide (500 < s) then 0 else 50).
  { rewrite <- Hs, <- Ht. simpl. rewrite !fold_left_add_sumZ. fold s.
    replace (0 + s) with s by lia. reflexivity. }
  rewrite Ht, Hs, Htot.
  pose proof (Math_round_nearest s 10).
  repeat split; lia.
Qed.

Section CheckoutTotals.
Context {V : SchemaValidators}.

Lemma newOrder_money_fields env user addr pm cart os :
  money_fields (newOrder env user addr pm cart os).
Proof.
  unfold newOrder. destruct (bool_decide _).
  - exact (calculateTotals_money_fields _).
  - apply calculateTotals_money_fields.
Qed.

Lemma newOrder_orderItems env user addr pm cart os :
  Order.orderItems (newOrder env user addr pm cart os)
  = orderItem_of <$> Cart.items cart.
Proof. unfold newOrder. destruct (bool_decide _); reflexivity. Qed.

(** C3. An order that checkout creates from a (non-empty) cart has
    itemsPrice = Σ price * quantity over its items, which are the items of
    the cart; taxPrice = round(itemsPrice * 0.10), the nearest integer with
    the tie going up; shippingPrice = 0 if itemsPrice > 500, else 50; and
    totalPrice = itemsPrice + taxPrice + shippingPrice. With itemsPrice
    1000 that is tax 100, shipping 0, total 1100; with 400 it is tax 40,
    shipping 50, total 490. *)
Theorem checkout_money_fields
    (env : Env) (user : User) (sa : option ShippingAddress.t)
    (pm : option string) (db db' : Db) (status : nat) (order : Order.t)
    (intent : option (string * string)) :
  createOrder env user sa pm db = (Json status (order, intent), db') →
  (∃ cart, carts db !! user_id user = Some cart ∧ Cart.items cart ≠ []
     ∧ Order.itemsPrice order
       = sumZ ((λ item, CartItem.price item * CartItem.quantity item)
                 <$> Cart.items cart))
  ∧ money_fields order
  ∧ (Order.itemsPrice order = 1000 →
     Order.taxPrice order = 100 ∧ Order.shippingPrice order = 0
     ∧ Order.totalPrice order = 1100)
  ∧ (Order.itemsPrice order = 400 →
     Order.taxPrice order = 40 ∧ Order.shippingPrice order = 50
     ∧ Order.totalPrice order = 490).
Proof.
  intros (addr & cart & -> & Hcart & Hne & _ & _ & _ & Hcases)%createOrder_Json.
  set (o := newOrder env user addr (default "stripe" pm) cart (orders db)) in *.
  assert (Hm : money_fields order ∧ Order.orderItems order = orderItem_of <$> Cart.items cart).
  { pose proof (newOrder_money_fields env user addr (default "stripe" pm) cart (orders db)) as Ho.
    pose proof (newOrder_orderItems env user addr (default "stripe" pm) cart (orders db)) as Hi.
    destruct Hcases as [(_ & Heq & _)|(_ & secret & pid & Heq & _)];
      simplify_eq; split; assumption. }
  destruct Hm as [Hm Hitems]. split; [|split; [exact Hm|]].
  - exists cart. split; [assumption|]. split; [assumption|].
    destruct Hm as [-> _]. rewrite Hitems, <- list_fmap_compose. reflexivity.
  - destruct Hm as (_ & _ & Htax & Hship & Htot).
    split; intros Hp; rewrite Hp in *;
      destruct (decide _) in Hship; lia.
Qed.
End CheckoutTotals.

Lemma checkout_money_fields_witness :
  ∃ order intent db',
    createOrder (V:=declared) Sample.gateway Sample.alice (Some Sample.home)
      (Some "stripe") Sample.boutique = (Json 201 (order, intent), db')
    ∧ Order.itemsPrice order = 1000
    ∧ Order.taxPrice order = 100 ∧ Order.shippingPrice order = 0
    ∧ Order.totalPrice order = 1100.
Proof.
  eexists _, _, _. split; [vm_compute; reflexivity|].
  split; [reflexivity|].
  eapply (checkout_money_fields (V:=declared) Sample.gateway Sample.alice
            (Some Sample.home) (Some "stripe") Sample.boutique).
  - vm_compute. reflexivity.
  - reflexivity.
Defined.

(** ** Checkout is all or nothing *)

Section CheckoutStock.
Context {V : SchemaValidators}.

Lemma validateStock_unservable {A} ps items item :
  item ∈ items → unservable ps item →
  ∃ name,
    validateStock (A:=A) ps items = Some (JsonError 404 (ProductNamedNotFound name))
    ∨ validateStock (A:=A) ps items
      = Some (JsonError 400 (ProductNamedUnavailable name)).
Proof.
  intros Hin Hbad. induction Hin as [item rest|item other rest Hin IH]; simpl.
  - unfold unservable in Hbad.
    destruct (ps !! CartItem.product item) as [product|].
    + exists (CartItem.name item). right.
      destruct Hbad as [->| Hlt]; [reflexivity|].
      destruct (Z.ltb_spec (Product.stock product) (CartItem.quantity item)); [|lia].
      rewrite orb_true_r. reflexivity.
    + exists (CartItem.name item). left. reflexivity.
  - destruct (ps !! CartItem.product other) as [product|].
    + destruct (_ || _); [|exact (IH Hbad)].
      exists (CartItem.name other). right. reflexivity.
    + exists (CartItem.name other). left. reflexivity.
Qed.

(** C4. A checkout whose cart holds an item that cannot be served - the
    product missing, not in stock, or with live stock below the quantity -
    fails as a whole: the answer is an error, the database is the one
    before the request (no order created, the cart not cleared), and with
    a valid address the error is the 404 or the 400 of the stock check. *)
Theorem checkout_all_or_nothing
    (env : Env) (user : User) (sa : option ShippingAddress.t)
    (pm : option string) (db : Db) (cart : Cart.t) (item : CartItem.t) :
  carts db !! user_id user = Some cart →
  item ∈ Cart.items cart →
  unservable (products db) item →
  ∃ status error,
    createOrder env user sa pm db = (JsonError status error, db)
    ∧ ∀ addr, sa = Some addr →
        ShippingAddress.address addr ≠ EmptyString → ShippingAddress.city addr ≠ EmptyString →
        ∃ name,
          (status = 404%nat ∧ error = ProductNamedNotFound name)
          ∨ (status = 400%nat ∧ error = ProductNamedUnavailable name).
Proof.
  intros Hcart Hin Hbad. unfold createOrder.
  destruct sa as [addr|]; [|eexists _, _; split; [reflexivity|discriminate]].
  destruct (bool_decide (ShippingAddress.address addr = EmptyString)) eqn:Ha;
    [apply bool_decide_eq_true in Ha; eexists _, _;
       split; [reflexivity|intros ? [= <-] ? ?; contradiction]|].
  destruct (bool_decide (ShippingAddress.city addr = EmptyString)) eqn:Hc;
    [apply bool_decide_eq_true in Hc; eexists _, _;
       split; [reflexivity|intros ? [= <-] ? ?; contradiction]|].
  simpl. rewrite Hcart.
  destruct (bool_decide (length (Cart.items cart) = 0%nat)) eqn:Hlen.
  { apply bool_decide_eq_true in Hlen.
    destruct (Cart.items cart); [by apply elem_of_nil in Hin|discriminate]. }
  destruct (validateStock_unservable (A:=Created) (products db) _ _ Hin Hbad)
    as [name [-> | ->]]; eexists _, _; (split; [reflexivity|]);
    intros; exists name; [left|right]; split; reflexivity.
Qed.
End CheckoutStock.

(** One serum left, two in the cart: checkout answers 400 and writes
    nothing. *)
Lemma checkout_all_or_nothing_witness :
  createOrder (V:=declared) Sample.gateway Sample.alice (Some Sample.home)
    (Some "stripe") Sample.boutique_short
  = (JsonError 400 (ProductNamedUnavailable "Night Serum"), Sample.boutique_short).
Proof.
  destruct (checkout_all_or_nothing (V:=declared) Sample.gateway Sample.alice
              (Some Sample.home) (Some "stripe") Sample.boutique_short
              (Sample.cart_of [CartItem.mk 2 "Night Serum" "serum.jpg" 500 2])
              (CartItem.mk 2 "Night Serum" "serum.jpg" 500 2))
    as (status & error & Hc & _).
  - reflexivity.
  - apply list_elem_of_here.
  - right. vm_compute. reflexivity.
  - rewrite Hc. vm_compute in Hc. congruence.
Defined.

(** ** Price snapshots *)

Lemma elem_of_insert_inv {A} (l : list A) (i : nat) (x y : A) :
  x ∈ <[i:=y]> l → x = y ∨ x ∈ l.
Proof.
  intros (j & Hj)%list_elem_of_lookup.
  apply list_lookup_insert_Some in Hj as [(-> & -> & _)|(_ & Hj)].
  - left. reflexivity.
  - right. apply list_elem_of_lookup. eauto.
Qed.

Section Snapshots.
Context {V : SchemaValidators}.

Lemma updateProduct_carts id body db :
  carts (updateProduct id body db).2 = carts db.
Proof.
  unfold updateProduct. destruct (products db !! id); [|reflexivity].
  destruct (productValid _); reflexivity.
Qed.

Lemma same_snapshot_refl item : same_snapshot item item.
Proof. repeat split. Qed.

Lemma set_quantity_same_snapshot item q :
  same_snapshot (CartItem.set_quantity item q) item.
Proof. repeat split. Qed.

(** Every item of a cart after a mutation carries the snapshot of an item
    of the cart before it, unless it is the item [addItem] has just
    inserted, whose price is the price of the product at that moment. *)
Lemma mutation_keeps_snapshots ps c m c' item' :
  call ps c m = Ok c' → item' ∈ Cart.items c' →
  (∃ item, item ∈ Cart.items c ∧ same_snapshot item' item)
  ∨ (∃ quantity productDoc,
       m = Call_addItem (CartItem.product item') quantity
       ∧ ps !! CartItem.product item' = Some productDoc
       ∧ list_find (λ item, CartItem.product item = CartItem.product item')
           (Cart.items c) = None
       ∧ CartItem.price item' = Product.price productDoc).
Proof.
  destruct m as [product quantity|productId quantity|productId|]; simpl.
  - unfold cartSchema.addItem.
    destruct (ps !! product) as [productDoc|] eqn:Hp; [|discriminate].
    destruct (negb (Product.inStock productDoc)); [discriminate|].
    destruct (list_find _ (Cart.items c)) as [[i existing]|] eqn:Hfind.
    + destruct (_ >? _); [discriminate|].
      intros ->%save_Ok. simpl.
      intros [->|Hin]%elem_of_insert_inv; left.
      * exists existing. split; [|apply set_quantity_same_snapshot].
        apply list_find_Some in Hfind as (Hi & _).
        apply list_elem_of_lookup. eauto.
      * exists item'. split; [assumption|apply same_snapshot_refl].
    + intros ->%save_Ok. simpl.
      intros [Hin| ->%list_elem_of_singleton]%elem_of_app.
      * left. exists item'. split; [assumption|apply same_snapshot_refl].
      * right. exists quantity, productDoc. simpl. auto.
  - unfold cartSchema.updateItemQuantity, cartSchema.removeItem.
    destruct (quantity <=? 0).
    { intros ->%save_Ok. simpl. intros [_ Hin]%list_elem_of_filter.
      left. exists item'. split; [assumption|apply same_snapshot_refl]. }
    destruct (list_find _ (Cart.items c)) as [[i item]|] eqn:Hfind; [|discriminate].
    destruct (ps !! productId) as [productDoc|]; [|discriminate].
    destruct (_ >? _); [discriminate|].
    intros ->%save_Ok. simpl.
    intros [->|Hin]%elem_of_insert_inv; left.
    + exists item. split; [|apply set_quantity_same_snapshot].
      apply list_find_Some in Hfind as (Hi & _).
      apply list_elem_of_lookup. eauto.
    + exists item'. split; [assumption|apply same_snapshot_refl].
  - unfold cartSchema.removeItem.
    intros ->%save_Ok. simpl. intros [_ Hin]%list_elem_of_filter.
    left. exists item'. split; [assumption|apply same_snapshot_refl].
  - unfold cartSchema.clearCart.
    intros ->%save_Ok. simpl. intros Hin. by apply elem_of_nil in Hin.
Qed.

(** C7. A change of a product by the administrator (its price among the
    rest) leaves every cart as it is stored; the mutations of a cart that
    follow keep the snapshot of each item they keep; and the order a
    checkout creates copies its items, prices included, from the cart: the
    live price of the product enters neither. *)
Theorem price_snapshot_is_frozen
    (db : Db) (user : User) (cart : Cart.t) (id : nat) (body : ProductBody.t) :
  carts db !! user_id user = Some cart →
  let db1 := (updateProduct id body db).2 in
  carts db1 !! user_id user = Some cart
  ∧ (∀ m c' item',
       call (products db1) cart m = Ok c' → item' ∈ Cart.items c' →
       (∃ item, item ∈ Cart.items cart ∧ same_snapshot item' item)
       ∨ (∃ productDoc,
            products db1 !! CartItem.product item' = Some productDoc
            ∧ list_find (λ item, CartItem.product item = CartItem.product item')
                (Cart.items cart) = None
            ∧ CartItem.price item' = Product.price productDoc))
  ∧ (∀ env sa pm status order intent db2,
       createOrder env user sa pm db1 = (Json status (order, intent), db2) →
       Order.orderItems order = orderItem_of <$> Cart.items cart
       ∧ OrderItem.price <$> Order.orderItems order
         = CartItem.price <$> Cart.items cart).
Proof.
  intros Hcart db1.
  assert (Hcart1 : carts db1 !! user_id user = Some cart).
  { unfold db1. rewrite updateProduct_carts. exact Hcart. }
  split; [exact Hcart1|]. split.
  - intros m c' item' Hcall Hin.
    destruct (mutation_keeps_snapshots _ _ _ _ _ Hcall Hin)
      as [?|(q & productDoc & _ & ? & ? & ?)]; [left; assumption|].
    right. exists productDoc. auto.
  - intros env sa pm status order intent db2
      (addr & cart' & -> & Hcart' & _ & _ & _ & _ & Hcases)%createOrder_Json.
    rewrite Hcart1 in Hcart'. simplify_eq.
    assert (Hitems : Order.orderItems order = orderItem_of <$> Cart.items cart').
    { destruct Hcases as [(_ & Heq & _)|(_ & secret & pid & Heq & _)];
        simplify_eq; simpl; apply newOrder_orderItems. }
    split; [exact Hitems|].
    rewrite Hitems, <- list_fmap_compose. reflexivity.
Qed.
End Snapshots.

(** The serum repriced from 500 to 650 with two of them in Alice's cart: the
    cart still says 500, and so does the order of her checkout. *)
Lemma price_snapshot_is_frozen_witness :
  Product.price <$> (products Sample.boutique_repriced !! 2%nat) = Some 650
  ∧ (λ c, CartItem.price <$> Cart.items c)
      <$> (carts Sample.boutique_repriced !! 7%nat) = Some [500]
  ∧ ∃ order intent db2,
      createOrder (V:=declared) Sample.gateway Sample.alice (Some Sample.home)
        (Some "cod") Sample.boutique_repriced = (Json 201 (order, intent), db2)
      ∧ OrderItem.price <$> (Order.orderItems order) = [500].
Proof.
  pose proof (price_snapshot_is_frozen (V:=declared) Sample.boutique Sample.alice
    (Sample.cart_of [CartItem.mk 2 "Night Serum" "serum.jpg" 500 2]) 2
    (ProductBody.mk None None (Some 650) None None) eq_refl) as (Hcart & _ & Horder).
  split; [reflexivity|]. split.
  - change ((updateProduct (V:=declared) 2 (ProductBody.mk None None (Some 650) None None)
       Sample.boutique).2) with Sample.boutique_repriced in Hcart.
    change (user_id Sample.alice) with 7%nat in Hcart.
    rewrite Hcart. reflexivity.
  - eexists _, _, _. split; [vm_compute; reflexivity|].
    eapply (proj2 (Horder Sample.gateway (Some Sample.home) (Some "cod") _ _ _ _ _)).
    Unshelve. all: try (vm_compute; reflexivity).
Defined.

(** ** The Order collection *)

Lemma findById_Some id os o :
  findById id os = Some o → Order._id o = id ∧ o ∈ os.
Proof.
  unfold findById. intros ([i o'] & Hfind & ->)%fmap_Some. simpl.
  apply list_find_Some in Hfind as (Hi & Hid & _).
  split; [exact Hid|]. apply list_elem_of_lookup. eauto.
Qed.

Lemma findById_replaceOrder id os o0 o :
  findById id os = Some o0 → Order._id o = id →
  findById id (replaceOrder o os) = Some o.
Proof.
  unfold findById, replaceOrder. intros Hfind Hid.
  rewrite list_find_fmap.
  rewrite (list_find_ext _ (λ x, Order._id x = id)).
  2:{ intros x. simpl. destruct (decide _); split; congruence. }
  destruct (list_find _ os) as [[i y]|] eqn:E; [|discriminate].
  apply list_find_Some in E as (_ & Hy & _). simpl.
  rewrite decide_True by congruence. reflexivity.
Qed.

Lemma replaceOrder_ids o os : Order._id <$> replaceOrder o os = Order._id <$> os.
Proof.
  unfold replaceOrder. rewrite <- list_fmap_compose.
  apply list_fmap_ext. intros i x _. simpl.
  destruct (decide _); congruence.
Qed.

(** ** Payment confirmation *)

Section StockLoop.
Context {V : SchemaValidators}.
Variable update : Product.t → Z → Product.t.

Lemma decrementStock_other items ps id :
  id ∉ OrderItem.product <$> items →
  (decrementStock update items ps).1 !! id = ps !! id.
Proof.
  revert ps. induction items as [|item rest IH]; intros ps Hid; [reflexivity|].
  cbn in Hid. apply not_elem_of_cons in Hid as [Hne Hrest]. simpl.
  destruct (ps !! OrderItem.product item) as [product|]; [|auto].
  destruct (productValid _); [|reflexivity].
  rewrite IH by assumption. apply lookup_insert_ne. congruence.
Qed.

(** When the loop ends well and no two items share a product, each item
    has taken its quantity off its product, once. *)
Lemma decrementStock_each_once items ps ps' item product :
  decrementStock update items ps = (ps', Ok tt) →
  NoDup (OrderItem.product <$> items) →
  item ∈ items → ps !! OrderItem.product item = Some product →
  ps' !! OrderItem.product item = Some (update product (OrderItem.quantity item)).
Proof.
  revert ps. induction items as [|item0 rest IH]; intros ps Hloop Hnd Hin Hp.
  { by apply elem_of_nil in Hin. }
  cbn in Hnd. apply NoDup_cons in Hnd as [Hfresh Hnd]. simpl in Hloop.
  apply elem_of_cons in Hin as [->|Hin].
  - rewrite Hp in Hloop. destruct (productValid _); [|discriminate].
    pose proof (decrementStock_other rest
      (<[OrderItem.product item0 := update product (OrderItem.quantity item0)]> ps)
      _ Hfresh) as Hsame.
    rewrite Hloop in Hsame. simpl in Hsame.
    rewrite Hsame. apply lookup_insert_eq.
  - assert (Hne : OrderItem.product item0 ≠ OrderItem.product item).
    { intros Heq. apply Hfresh. rewrite Heq. by apply list_elem_of_fmap_2. }
    destruct (ps !! OrderItem.product item0) as [product0|]; [|eauto].
    destruct (productValid _); [|discriminate].
    eapply IH; [exact Hloop|assumption..|].
    rewrite lookup_insert_ne by assumption. exact Hp.
Qed.
End StockLoop.

Section MarkPaid.
Context {V : SchemaValidators}.

Lemma verifyPayment_inl env user order pi r :
  verifyPayment env user order pi = inl r → ∃ status error, r = JsonError status error.
Proof.
  unfold verifyPayment. destruct pi as [pi|]; [|discriminate].
  destruct (_ && _); [|discriminate].
  destruct (verifyPaymentIntent env pi) as [intent|]; [|intros [= <-]; eauto].
  destruct (negb _); [intros [= <-]; eauto|discriminate].
Qed.

Lemma verifyPayment_inr env user order pi o :
  verifyPayment env user order pi = inr o →
  Order._id o = Order._id order
  ∧ Order.orderItems o = Order.orderItems order
  ∧ Order.isPaid o = Order.isPaid order.
Proof.
  unfold verifyPayment. destruct pi as [pi|]; [|intros [= <-]; auto].
  destruct (_ && _); [|intros [= <-]; auto].
  destruct (verifyPaymentIntent env pi) as [intent|]; [|discriminate].
  destruct (negb _); [discriminate|]. intros [= <-]. auto.
Qed.

(** What a 2xx answer of [updateOrderToPaid] tells. *)
Lemma updateOrderToPaid_Json env user id pi db status order db1 :
  updateOrderToPaid env user id pi db = (Json status order, db1) →
  ∃ order0,
    findById id (orders db) = Some order0
    ∧ Order.isPaid order0 = false
    ∧ Order._id order = id
    ∧ Order.orderItems order = Order.orderItems order0
    ∧ Order.isPaid order = true
    ∧ Order.paidAt order = Some (now env)
    ∧ Order.orderStatus order = "processing"
    ∧ decrementStock decrement_paid (Order.orderItems order) (products db)
      = (products db1, Ok tt)
    ∧ carts db1 = carts db
    ∧ orders db1 = replaceOrder order (orders db).
Proof.
  unfold updateOrderToPaid. intros Hc.
  destruct (findById id (orders db)) as [order0|] eqn:Hfind; [|discriminate].
  destruct (Order.isPaid order0) eqn:Hpaid; [discriminate|].
  exists order0. split; [reflexivity|]. split; [exact Hpaid|].
  apply findById_Some in Hfind as [Hid _].
  destruct (verifyPayment env user order0 pi) as [r|o] eqn:Hv.
  { exfalso. apply verifyPayment_inl in Hv as (s & e & ->). discriminate. }
  apply verifyPayment_inr in Hv as (Hoid & Hitems & _).
  rewrite Hid in Hoid.
  destruct (decrementStock _ _ _) as [ps [[]|e]] eqn:Hloop; [|discriminate].
  destruct (save_order _ _) as [os|] eqn:Hsave; [|discriminate].
  apply save_order_Ok in Hsave as ->. simplify_eq. simpl in *.
  repeat split; try assumption. 
Qed.

(** C5. After a confirmation that succeeded, every further confirmation
    of the same order is answered "Order is already paid" and leaves the
    database as it is. Across the two calls the stock has gone through the
    decrement loop once: each product an item of the order refers to has
    lost that item's quantity, one time. *)
Theorem markPaid_twice
    (env : Env) (user : User) (id : nat) (pi : option string)
    (db db1 : Db) (status : nat) (order : Order.t) :
  updateOrderToPaid env user id pi db = (Json status order, db1) →
  (∀ env' user' pi',
     updateOrderToPaid env' user' id pi' db1
     = (JsonError 400 (Msg "Order is already paid"), db1))
  ∧ decrementStock decrement_paid (Order.orderItems order) (products db)
    = (products db1, Ok tt)
  ∧ (NoDup (OrderItem.product <$> Order.orderItems order) →
     ∀ item product,
       item ∈ Order.orderItems order →
       products db !! OrderItem.product item = Some product →
       products db1 !! OrderItem.product item
       = Some (Product.set_stock product
                 (Product.stock product - OrderItem.quantity item)
                 (Product.stock product - OrderItem.quantity item >? 0))).
Proof.
  intros (order0 & Hfind & _ & Hid & _ & Hpaid & _ & _ & Hloop & _ & Hos)%updateOrderToPaid_Json.
  split; [|split; [exact Hloop|]].
  - intros env' user' pi'. unfold updateOrderToPaid.
    rewrite Hos, (findById_replaceOrder id _ order0 order Hfind Hid), Hpaid.
    reflexivity.
  - intros Hnd item product Hin Hp.
    exact (decrementStock_each_once decrement_paid _ _ _ item product
             Hloop Hnd Hin Hp).
Qed.
End MarkPaid.

(** Alice confirms the payment of her order of two serums twice: the stock
    goes from 10 to 8 at the first call and stays there at the second. *)
Lemma markPaid_twice_witness :
  let r := updateOrderToPaid (V:=declared) Sample.gateway Sample.alice 1
             (Some "pi_1") Sample.pending in
  (∃ order, r = (Json 200 order, r.2))
  ∧ updateOrderToPaid (V:=declared) Sample.later Sample.alice 1 (Some "pi_1") r.2
    = (JsonError 400 (Msg "Order is already paid"), r.2)
  ∧ Product.stock <$> (products Sample.pending !! 2%nat) = Some 10
  ∧ Product.stock <$> (products r.2 !! 2%nat) = Some 8.
Proof.
  intros r.
  assert (E : ∃ order, r = (Json 200 order, r.2))
    by (eexists; vm_compute; reflexivity).
  split; [exact E|]. destruct E as [order E].
  split; [|split; reflexivity].
  exact (proj1 (markPaid_twice (V:=declared) Sample.gateway Sample.alice 1
                  (Some "pi_1") Sample.pending r.2 200%nat order E)
           Sample.later Sample.alice (Some "pi_1")).
Defined.

(** ** Lookup by payment result *)

Lemma findOneByPaymentResultId_Some id os o :
  findOneByPaymentResultId id os = Some o →
  o ∈ os ∧ PaymentResult.id <$> Order.paymentResult o = Some id.
Proof.
  unfold findOneByPaymentResultId. intros ([i o'] & Hfind & ->)%fmap_Some. simpl.
  apply list_find_Some in Hfind as (Hi & Hid & _).
  split; [|exact Hid]. apply list_elem_of_lookup. eauto.
Qed.

(** ** Delivery *)

Section Delivery.
Context {V : SchemaValidators}.

(** What a 2xx answer of [updateOrderStatus] with ['delivered'] tells. *)
Lemma updateOrderStatus_delivered env id db status order db1 :
  updateOrderStatus env id "delivered" db = (Json status order, db1) →
  Order.orderStatus order = "delivered"
  ∧ Order.isDelivered order = true
  ∧ Order.deliveredAt order = Some (now env)
  ∧ findById id (orders db1) = Some order.
Proof.
  unfold updateOrderStatus. simpl.
  destruct (findById id (orders db)) as [order0|] eqn:Hfind; [|discriminate].
  destruct (save_order _ _) as [os|] eqn:Hsave; [|discriminate].
  apply save_order_Ok in Hsave as ->. intros [= <- <- <-]. simpl.
  repeat split.
  apply findById_Some in Hfind as Hid. destruct Hid as [Hid _].
  eapply findById_replaceOrder; [exact Hfind|exact Hid].
Qed.

(** C8, amended. Each call of setStatus with 'delivered' that succeeds
    sets isDelivered and records the time of that call in deliveredAt: the
    second call stores the time of the second call. *)
Theorem delivered_records_each_call
    (env1 env2 : Env) (id : nat) (db db1 db2 : Db) (s1 s2 : nat)
    (o1 o2 : Order.t) :
  updateOrderStatus env1 id "delivered" db = (Json s1 o1, db1) →
  updateOrderStatus env2 id "delivered" db1 = (Json s2 o2, db2) →
  (Order.isDelivered o1 = true ∧ Order.deliveredAt o1 = Some (now env1)
   ∧ findById id (orders db1) = Some o1)
  ∧ (Order.isDelivered o2 = true ∧ Order.deliveredAt o2 = Some (now env2)
     ∧ findById id (orders db2) = Some o2).
Proof.
  intros (_ & ? & ? & ?)%updateOrderStatus_delivered
         (_ & ? & ? & ?)%updateOrderStatus_delivered.
  auto.
Qed.
End Delivery.

(** Order 1 set to delivered at time 1000 and again at time 2000: the
    stored deliveredAt is 1000 after the first call and 2000 after the
    second. *)
Lemma deliveredAt_is_overwritten :
  let first := updateOrderStatus (V:=declared) Sample.gateway 1 "delivered"
                 Sample.pending in
  let second := updateOrderStatus (V:=declared) Sample.later 1 "delivered" first.2 in
  Order.deliveredAt <$> findById 1 (orders first.2) = Some (Some 1000)
  ∧ Order.deliveredAt <$> findById 1 (orders second.2) = Some (Some 2000)
  ∧ Order.deliveredAt <$> findById 1 (orders second.2)
    ≠ Order.deliveredAt <$> findById 1 (orders first.2).
Proof. repeat split. discriminate. Qed.

Lemma delivered_records_each_call_witness :
  let first := updateOrderStatus (V:=declared) Sample.gateway 1 "delivered"
                 Sample.pending in
  let second := updateOrderStatus (V:=declared) Sample.later 1 "delivered" first.2 in
  ∃ o1 o2,
    first.1 = Json 200 o1 ∧ second.1 = Json 200 o2
    ∧ (Order.isDelivered o1 = true ∧ Order.deliveredAt o1 = Some 1000
       ∧ findById 1 (orders first.2) = Some o1)
    ∧ (Order.isDelivered o2 = true ∧ Order.deliveredAt o2 = Some 2000
       ∧ findById 1 (orders second.2) = Some o2).
Proof.
  intros first second.
  assert (E1 : ∃ o1, first = (Json 200 o1, first.2))
    by (eexists; vm_compute; reflexivity).
  assert (E2 : ∃ o2, second = (Json 200 o2, second.2))
    by (eexists; vm_compute; reflexivity).
  destruct E1 as [o1 E1], E2 as [o2 E2]. exists o1, o2.
  split; [rewrite E1; reflexivity|]. split; [rewrite E2; reflexivity|].
  exact (delivered_records_each_call (V:=declared) Sample.gateway Sample.later 1
           Sample.pending first.2 second.2 200%nat 200%nat o1 o2 E1 E2).
Defined.

(** ** Cash on delivery *)

Lemma fresh_id_fresh os o : o ∈ os → Order._id o ≠ fresh_id os.
Proof.
  intros Hin. unfold fresh_id.
  pose proof (max_list_elem_of_le (Order._id o) (Order._id <$> os)
                (list_elem_of_fmap_2 _ _ _ Hin)).
  lia.
Qed.

Lemma findById_fresh os o :
  Order._id o = fresh_id os → findById (fresh_id os) (os ++ [o]) = Some o.
Proof.
  intros Hid. unfold findById. rewrite list_find_app_r.
  - cbn. rewrite decide_True by assumption. reflexivity.
  - apply list_find_None, Forall_forall. intros x Hx. by apply fresh_id_fresh.
Qed.

Section Settled.
Variable id : nat.

Lemma settled_findById os :
  settled_without_payment id os →
  ∃ o, findById id os = Some o
       ∧ Order.isPaid o = true ∧ Order.paymentResult o = None.
Proof.
  intros [Hin Hall].
  apply list_elem_of_fmap in Hin as (o & Hid & Ho).
  destruct (list_find_elem_of (λ o, Order._id o = id) os o Ho (eq_sym Hid))
    as [[i o'] Hfind].
  exists o'. unfold findById. rewrite Hfind. split; [reflexivity|].
  apply list_find_Some in Hfind as (Hi & Hid' & _).
  apply Hall; [|exact Hid']. apply list_elem_of_lookup. eauto.
Qed.

Lemma settled_app os o :
  settled_without_payment id os → Order._id o ≠ id →
  settled_without_payment id (os ++ [o]).
Proof.
  intros [Hin Hall] Hne. split.
  - rewrite fmap_app. apply elem_of_app. left. exact Hin.
  - intros x [Hx| ->%list_elem_of_singleton]%elem_of_app Hid; [auto|contradiction].
Qed.

Lemma settled_replace os o :
  settled_without_payment id os →
  (Order._id o = id → Order.isPaid o = true ∧ Order.paymentResult o = None) →
  settled_without_payment id (replaceOrder o os).
Proof.
  intros [Hin Hall] Ho. split.
  - rewrite replaceOrder_ids. exact Hin.
  - intros x (y & -> & Hy)%list_elem_of_fmap.
    destruct (decide _); [exact Ho|auto].
Qed.

Lemma settled_delete os id' :
  settled_without_payment id os → id' ≠ id →
  settled_without_payment id (findByIdAndDelete id' os).
Proof.
  intros [Hin Hall] Hne. unfold findByIdAndDelete. split.
  - apply list_elem_of_fmap in Hin as (o & Hid & Ho).
    apply list_elem_of_fmap. exists o. split; [exact Hid|].
    apply list_elem_of_filter. split; [congruence|exact Ho].
  - intros x [_ Hx]%list_elem_of_filter. auto.
Qed.

Lemma settled_fresh os : settled_without_payment id os → fresh_id os ≠ id.
Proof.
  intros [Hin _] Heq.
  apply list_elem_of_fmap in Hin as (o & Hid & Ho).
  apply (fresh_id_fresh os o Ho). congruence.
Qed.
End Settled.

Section CashOnDelivery.
Context {V : SchemaValidators}.

Lemma newOrder_id env user addr pm cart os :
  Order._id (newOrder env user addr pm cart os) = fresh_id os.
Proof. unfold newOrder. destruct (bool_decide _); reflexivity. Qed.

Lemma newOrder_cod env user addr cart os :
  let o := newOrder env user addr "cod" cart os in
  Order.isPaid o = true ∧ Order.paidAt o = Some (now env)
  ∧ Order.orderStatus o = "processing" ∧ Order.paymentResult o = None.
Proof. repeat split. Qed.

Ltac orders_kept := repeat case_match; simplify_eq; reflexivity.

Lemma cart_and_catalogue_keep_orders env r db :
  match r with
  | CreateOrder _ _ _ | UpdateOrderToPaid _ _ _ | UpdateOrderStatus _ _
  | StripeWebhook _ _ => True
  | _ => orders (handle env r db) = orders db
  end.
Proof.
  destruct r; simpl; try exact I.
  - unfold getCart, findOrCreate. orders_kept.
  - unfold addToCart, findOrCreate. orders_kept.
  - unfold updateCartItem. orders_kept.
  - unfold removeFromCart. orders_kept.
  - unfold clearCart. orders_kept.
  - unfold updateProduct. orders_kept.
  - unfold deleteProduct. orders_kept.
  - reflexivity.
Qed.

Lemma createOrder_settled id env user sa pm db :
  settled_without_payment id (orders db) →
  settled_without_payment id (orders (createOrder env user sa pm db).2).
Proof.
  intros Hs. unfold createOrder.
  destruct sa as [addr|]; [|exact Hs].
  destruct (_ || _); [exact Hs|].
  destruct (carts db !! user_id user) as [cart|]; [|exact Hs].
  destruct (bool_decide (length _ = _)); [exact Hs|].
  destruct (validateStock _ _); [exact Hs|].
  set (o := newOrder _ _ _ _ _ _).
  assert (Hne : Order._id o ≠ id).
  { unfold o. rewrite newOrder_id. by apply settled_fresh. }
  destruct (negb _); [exact Hs|].
  pose proof (settled_app id _ o Hs Hne) as Hs'.
  destruct (cartSchema.clearCart cart); [|exact Hs'].
  destruct (bool_decide (_ = "stripe")); [|exact Hs'].
  destruct (createPaymentIntent _ _) as [[secret intent]|].
  - destruct (save_order _ _) as [os|] eqn:Hsave.
    + apply save_order_Ok in Hsave as ->. simpl.
      apply settled_replace; [exact Hs'|]. intros Hid. contradiction.
    + simpl. by apply settled_delete.
  - simpl. by apply settled_delete.
Qed.

Lemma updateOrderToPaid_settled id env user id' pi db :
  settled_without_payment id (orders db) →
  settled_without_payment id (orders (updateOrderToPaid env user id' pi db).2).
Proof.
  intros Hs. unfold updateOrderToPaid.
  destruct (findById id' (orders db)) as [order0|] eqn:Hfind; [|exact Hs].
  destruct (Order.isPaid order0) eqn:Hpaid; [exact Hs|].
  destruct (verifyPayment _ _ _ _) as [r|o] eqn:Hv; [exact Hs|].
  apply verifyPayment_inr in Hv as (Hid & _ & _).
  destruct (decrementStock _ _ _) as [ps [[]|e]]; [|exact Hs].
  destruct (save_order _ _) as [os|] eqn:Hsave; [|exact Hs].
  apply save_order_Ok in Hsave as ->. simpl.
  apply settled_replace; [exact Hs|]. simpl. intros Ho.
  apply findById_Some in Hfind as [Hid0 Hin].
  destruct Hs as [_ Hall].
  destruct (Hall order0 Hin) as [Hp _]; congruence.
Qed.

Lemma updateOrderStatus_settled id env id' status db :
  settled_without_payment id (orders db) →
  settled_without_payment id (orders (updateOrderStatus env id' status db).2).
Proof.
  intros Hs. unfold updateOrderStatus.
  destruct (negb _); [exact Hs|].
  destruct (findById id' (orders db)) as [order0|] eqn:Hfind; [|exact Hs].
  destruct (save_order _ _) as [os|] eqn:Hsave; [|exact Hs].
  apply save_order_Ok in Hsave as ->. simpl.
  apply findById_Some in Hfind as [Hid0 Hin].
  apply settled_replace; [exact Hs|].
  destruct Hs as [_ Hall].
  destruct (bool_decide (status = "delivered")); simpl; intros Ho;
    exact (Hall order0 Hin Ho).
Qed.

Lemma stripeWebhook_settled id env secret event db :
  settled_without_payment id (orders db) →
  settled_without_payment id (orders (stripeWebhook env secret event db).2).
Proof.
  intros Hs. unfold stripeWebhook.
  destruct secret as [secret|]; [|exact Hs].
  destruct (bool_decide (secret = EmptyString)); [exact Hs|].
  destruct event as [event|]; [|exact Hs].
  assert (Hother : ∀ o, findOneByPaymentResultId
               (PaymentIntent.id (StripeEvent.object event)) (orders db) = Some o →
             Order._id o ≠ id).
  { intros o [Hin Hid]%findOneByPaymentResultId_Some Ho.
    destruct Hs as [_ Hall]. destruct (Hall o Hin Ho) as [_ Hnone].
    rewrite Hnone in Hid. discriminate. }
  destruct (bool_decide (_ = "payment_intent.succeeded")).
  - destruct (findOneByPaymentResultId _ _) as [order|]; [|exact Hs].
    specialize (Hother order eq_refl).
    destruct (negb _); [|exact Hs].
    destruct (decrementStock _ _ _) as [ps [[]|e]]; [|exact Hs].
    destruct (save_order _ _) as [os|] eqn:Hsave; [|exact Hs].
    apply save_order_Ok in Hsave as ->. simpl.
    apply settled_replace; [exact Hs|]. simpl. intros; contradiction.
  - destruct (bool_decide (_ = "payment_intent.payment_failed")); [|exact Hs].
    destruct (findOneByPaymentResultId _ _) as [order|]; [|exact Hs].
    specialize (Hother order eq_refl).
    destruct (save_order _ _) as [os|] eqn:Hsave; [|exact Hs].
    apply save_order_Ok in Hsave as ->. simpl.
    apply settled_replace; [exact Hs|]. simpl. intros; contradiction.
Qed.

Lemma handle_settled id env r db :
  settled_without_payment id (orders db) →
  settled_without_payment id (orders (handle env r db)).
Proof.
  intros Hs.
  pose proof (cart_and_catalogue_keep_orders env r db) as Hkeep.
  destruct r; try (rewrite Hkeep; exact Hs); simpl.
  - by apply createOrder_settled.
  - by apply updateOrderToPaid_settled.
  - by apply updateOrderStatus_settled.
  - by apply stripeWebhook_settled.
Qed.

Lemma run_settled id trace db :
  settled_without_payment id (orders db) →
  settled_without_payment id (orders (run trace db)).
Proof.
  revert db. induction trace as [|[env r] rest IH]; intros db Hs; [exact Hs|].
  simpl. apply IH. by apply handle_settled.
Qed.

(** C10. An order that checkout creates with payment method 'cod' is
    stored paid, with paidAt set and status 'processing'. Whatever
    requests follow, it stays stored, paid and without a payment result;
    so every confirmation of it is answered "Order is already paid" and
    writes nothing, and the order the webhook looks up by payment result
    is never this one: no stock is taken on its behalf. *)
Theorem cod_order_never_takes_stock
    (env : Env) (user : User) (sa : option ShippingAddress.t) (db db1 : Db)
    (status : nat) (order : Order.t) (intent : option (string * string)) :
  createOrder env user sa (Some "cod") db = (Json status (order, intent), db1) →
  (Order.isPaid order = true ∧ Order.paidAt order = Some (now env)
   ∧ Order.orderStatus order = "processing"
   ∧ findById (Order._id order) (orders db1) = Some order
   ∧ products db1 = products db)
  ∧ ∀ trace,
      let db2 := run trace db1 in
      (∃ o, findById (Order._id order) (orders db2) = Some o
            ∧ Order.isPaid o = true ∧ Order.paymentResult o = None)
      ∧ (∀ env' user' pi',
           updateOrderToPaid env' user' (Order._id order) pi' db2
           = (JsonError 400 (Msg "Order is already paid"), db2))
      ∧ (∀ id o, findOneByPaymentResultId id (orders db2) = Some o →
                 Order._id o ≠ Order._id order).
Proof.
  intros (addr & cart & -> & Hcart & _ & _ & Hps & _ & Hcases)%createOrder_Json.
  simpl in Hcases.
  destruct Hcases as [(_ & [= -> ->] & Hos)|(Hpm & _)]; [|discriminate].
  set (o := newOrder env user addr "cod" cart (orders db)) in *.
  destruct (newOrder_cod env user addr cart (orders db)) as (Hpaid & Hat & Hst & Hres).
  fold o in Hpaid, Hat, Hst, Hres.
  assert (Hid : Order._id o = fresh_id (orders db)) by apply newOrder_id.
  assert (Hfind : findById (Order._id o) (orders db1) = Some o).
  { rewrite Hos, Hid. by apply findById_fresh. }
  split; [auto 6|].
  assert (Hs : settled_without_payment (Order._id o) (orders db1)).
  { rewrite Hos. split.
    - rewrite fmap_app. apply elem_of_app. right. by apply list_elem_of_singleton.
    - intros x [Hx| ->%list_elem_of_singleton]%elem_of_app Hx'; [|auto].
      exfalso. apply (fresh_id_fresh _ _ Hx). congruence. }
  intros trace db2.
  pose proof (run_settled _ trace db1 Hs) as Hs2. fold db2 in Hs2.
  destruct (settled_findById _ _ Hs2) as (o2 & Hfind2 & Hpaid2 & Hres2).
  split; [eauto|]. split.
  - intros env' user' pi'. unfold updateOrderToPaid.
    rewrite Hfind2, Hpaid2. reflexivity.
  - intros id x [Hin Hx]%findOneByPaymentResultId_Some Heq.
    destruct Hs2 as [_ Hall]. destruct (Hall x Hin Heq) as [_ Hnone].
    rewrite Hnone in Hx. discriminate.
Qed.
End CashOnDelivery.

(** Alice checks out cash on delivery; then a confirmation with pi_1 and the
    webhook announcing pi_1 arrive. The order stays as checkout stored it
    and the ten serums stay in stock. *)
Lemma cod_order_never_takes_stock_witness :
  let r := createOrder (V:=declared) Sample.gateway Sample.alice (Some Sample.home)
             (Some "cod") Sample.boutique in
  let db2 :=
    run (V:=declared)
      [(Sample.later, UpdateOrderToPaid Sample.alice 1 (Some "pi_1"));
       (Sample.later, StripeWebhook (Some "whsec") (Some Sample.pi_1_succeeded))]
      r.2 in
  (∃ order, r = (Json 201 (order, None), r.2) ∧ Order._id order = 1%nat
            ∧ Order.isPaid order = true ∧ Order.orderStatus order = "processing")
  ∧ updateOrderToPaid (V:=declared) Sample.later Sample.alice 1 None db2
    = (JsonError 400 (Msg "Order is already paid"), db2)
  ∧ Product.stock <$> (products db2 !! 2%nat) = Some 10.
Proof.
  intros r db2.
  assert (E : ∃ order, r = (Json 201 (order, None), r.2) ∧ Order._id order = 1%nat)
    by (eexists; split; [vm_compute; reflexivity|reflexivity]).
  destruct E as (order & E & Hid).
  destruct (cod_order_never_takes_stock (V:=declared) Sample.gateway Sample.alice
              (Some Sample.home) Sample.boutique r.2 201%nat order None E)
    as ((Hpaid & _ & Hstatus & _) & Hlater).
  split; [exists order; auto|].
  split; [|reflexivity].
  destruct (Hlater
    [(Sample.later, UpdateOrderToPaid Sample.alice 1 (Some "pi_1"));
     (Sample.later, StripeWebhook (Some "whsec") (Some Sample.pi_1_succeeded))])
    as (_ & Hagain & _).
  rewrite Hid in Hagain. exact (Hagain Sample.later Sample.alice None).
Defined.

(** ** The webhook path *)

Lemma unpaid_without_result_app os o :
  unpaid_without_result os →
  (Order.isPaid o = false → Order.paymentResult o = None) →
  unpaid_without_result (os ++ [o]).
Proof.
  intros Hu Ho x [Hx| ->%list_elem_of_singleton]%elem_of_app; [by apply Hu|exact Ho].
Qed.

Lemma unpaid_without_result_replace os o :
  unpaid_without_result os →
  (Order.isPaid o = false → Order.paymentResult o = None) →
  unpaid_without_result (replaceOrder o os).
Proof.
  intros Hu Ho x (y & -> & Hy)%list_elem_of_fmap.
  destruct (decide _); [exact Ho|by apply Hu].
Qed.

Lemma unpaid_without_result_delete os id :
  unpaid_without_result os → unpaid_without_result (findByIdAndDelete id os).
Proof. intros Hu x [_ Hx]%list_elem_of_filter. by apply Hu. Qed.

Section WebhookPath.
Context {V : SchemaValidators}.

(** Where no unpaid order carries a payment result, an announced
    payment_intent.succeeded finds no unpaid order: the webhook changes
    nothing. *)
Lemma stripeWebhook_succeeded_noop env webhookSecret intent db :
  unpaid_without_result (orders db) →
  (stripeWebhook env webhookSecret
     (Some (StripeEvent.mk "payment_intent.succeeded" intent)) db).2 = db.
Proof.
  intros Hunpaid. unfold stripeWebhook.
  destruct webhookSecret as [secret|]; [|reflexivity].
  destruct (bool_decide (secret = EmptyString)); [reflexivity|]. simpl.
  destruct (findOneByPaymentResultId _ _) as [order|] eqn:Hfind; [|reflexivity].
  apply findOneByPaymentResultId_Some in Hfind as [Hin Hid].
  destruct (Order.isPaid order) eqn:Hpaid; [reflexivity|].
  rewrite (Hunpaid order Hin Hpaid) in Hid. discriminate.
Qed.

Lemma newOrder_unpaid_without_result env user addr pm cart os :
  Order.paymentResult (newOrder env user addr pm cart os) = None.
Proof. unfold newOrder. destruct (bool_decide _); reflexivity. Qed.

Lemma createOrder_unpaid_without_result env user sa pm db :
  unpaid_without_result (orders db) →
  unpaid_without_result (orders (createOrder env user sa pm db).2).
Proof.
  intros Hu. unfold createOrder.
  destruct sa as [addr|]; [|exact Hu].
  destruct (_ || _); [exact Hu|].
  destruct (carts db !! user_id user) as [cart|]; [|exact Hu].
  destruct (bool_decide (length _ = _)); [exact Hu|].
  destruct (validateStock _ _); [exact Hu|].
  set (o := newOrder _ _ _ _ _ _).
  assert (Ho : Order.paymentResult o = None)
    by apply newOrder_unpaid_without_result.
  destruct (negb _); [exact Hu|].
  pose proof (unpaid_without_result_app _ o Hu (λ _, Ho)) as Hu'.
  destruct (cartSchema.clearCart cart); [|exact Hu'].
  destruct (bool_decide (_ = "stripe")); [|exact Hu'].
  destruct (createPaymentIntent _ _) as [[secret intent]|].
  - destruct (save_order _ _) as [os|] eqn:Hsave.
    + apply save_order_Ok in Hsave as ->. simpl.
      apply unpaid_without_result_replace; [exact Hu'|]. intros _. exact Ho.
    + simpl. by apply unpaid_without_result_delete.
  - simpl. by apply unpaid_without_result_delete.
Qed.

Lemma updateOrderToPaid_unpaid_without_result env user id pi db :
  unpaid_without_result (orders db) →
  unpaid_without_result (orders (updateOrderToPaid env user id pi db).2).
Proof.
  intros Hu. unfold updateOrderToPaid.
  destruct (findById id (orders db)) as [order0|]; [|exact Hu].
  destruct (Order.isPaid order0); [exact Hu|].
  destruct (verifyPayment _ _ _ _) as [r|o]; [exact Hu|].
  destruct (decrementStock _ _ _) as [ps [[]|e]]; [|exact Hu].
  destruct (save_order _ _) as [os|] eqn:Hsave; [|exact Hu].
  apply save_order_Ok in Hsave as ->. simpl.
  apply unpaid_without_result_replace; [exact Hu|]. discriminate.
Qed.

Lemma updateOrderStatus_unpaid_without_result env id status db :
  unpaid_without_result (orders db) →
  unpaid_without_result (orders (updateOrderStatus env id status db).2).
Proof.
  intros Hu. unfold updateOrderStatus.
  destruct (negb _); [exact Hu|].
  destruct (findById id (orders db)) as [order0|] eqn:Hfind; [|exact Hu].
  destruct (save_order _ _) as [os|] eqn:Hsave; [|exact Hu].
  apply save_order_Ok in Hsave as ->. simpl.
  apply findById_Some in Hfind as [_ Hin].
  apply unpaid_without_result_replace; [exact Hu|].
  destruct (bool_decide (status = "delivered")); simpl; by apply Hu.
Qed.

Lemma stripeWebhook_unpaid_without_result env secret event db :
  unpaid_without_result (orders db) →
  unpaid_without_result (orders (stripeWebhook env secret event db).2).
Proof.
  intros Hu. unfold stripeWebhook.
  destruct secret as [secret|]; [|exact Hu].
  destruct (bool_decide (secret = EmptyString)); [exact Hu|].
  destruct event as [event|]; [|exact Hu].
  destruct (bool_decide (_ = "payment_intent.succeeded")).
  - destruct (findOneByPaymentResultId _ _) as [order|]; [|exact Hu].
    destruct (negb _); [|exact Hu].
    destruct (decrementStock _ _ _) as [ps [[]|e]]; [|exact Hu].
    destruct (save_order _ _) as [os|] eqn:Hsave; [|exact Hu].
    apply save_order_Ok in Hsave as ->. simpl.
    apply unpaid_without_result_replace; [exact Hu|]. discriminate.
  - destruct (bool_decide (_ = "payment_intent.payment_failed")); [|exact Hu].
    destruct (findOneByPaymentResultId _ _) as [order|] eqn:Hfind; [|exact Hu].
    apply findOneByPaymentResultId_Some in Hfind as [Hin Hid].
    destruct (save_order _ _) as [os|] eqn:Hsave; [|exact Hu].
    apply save_order_Ok in Hsave as ->. simpl.
    apply unpaid_without_result_replace; [exact Hu|]. simpl. intros Hpaid.
    rewrite (Hu order Hin Hpaid) in Hid. discriminate.
Qed.

Lemma handle_unpaid_without_result env r db :
  unpaid_without_result (orders db) →
  unpaid_without_result (orders (handle env r db)).
Proof.
  intros Hu.
  pose proof (cart_and_catalogue_keep_orders env r db) as Hkeep.
  destruct r; try (rewrite Hkeep; exact Hu); simpl.
  - by apply createOrder_unpaid_without_result.
  - by apply updateOrderToPaid_unpaid_without_result.
  - by apply updateOrderStatus_unpaid_without_result.
  - by apply stripeWebhook_unpaid_without_result.
Qed.

Lemma run_unpaid_without_result trace db :
  unpaid_without_result (orders db) →
  unpaid_without_result (orders (run trace db)).
Proof.
  revert db. induction trace as [|[env r] rest IH]; intros db Hu; [exact Hu|].
  simpl. apply IH. by apply handle_unpaid_without_result.
Qed.

(** When the webhook does meet an unpaid order with a payment result (none
    of the requests stores one), the order it saves keeps its orderStatus:
    the assignment goes to [status]. *)
Lemma stripeWebhook_keeps_orderStatus env secret intent db order os ps :
  secret ≠ EmptyString →
  findOneByPaymentResultId (PaymentIntent.id intent) (orders db) = Some order →
  Order.isPaid order = false →
  decrementStock decrement_webhook (Order.orderItems order) (products db)
    = (ps, Ok tt) →
  let paid :=
    Order.set_paymentResult (Order.set_paid order (now env))
      (PaymentResult.mk (PaymentIntent.id intent) "succeeded" (Some (now env))
         (PaymentIntent.receipt_email intent)) in
  save_order paid (orders db) = Ok os →
  stripeWebhook env (Some secret)
    (Some (StripeEvent.mk "payment_intent.succeeded" intent)) db
  = (Json 200 tt, mkDb ps (carts db) os)
  ∧ Order.orderStatus paid = Order.orderStatus order.
Proof.
  intros Hsecret Hfind Hpaid Hloop paid Hsave. split; [|reflexivity].
  unfold stripeWebhook. rewrite bool_decide_eq_false_2 by assumption.
  simpl. rewrite Hfind, Hpaid. simpl. rewrite Hloop. simpl.
  fold paid. rewrite Hsave. reflexivity.
Qed.

(** C6, on the code. The webhook looks the order up by
    ['paymentResult.id'], a path that only a confirmed payment fills in; the
    intent id checkout stores is in [paymentIntentId]. Starting from a
    database whose unpaid orders carry no payment result (an empty one, for
    instance), no sequence of requests stores an unpaid order with one, and
    so an announced payment_intent.succeeded never finds the unpaid order it
    is about: the webhook leaves the database as it is - no paid transition,
    no stock decrement. *)
Theorem webhook_succeeded_finds_no_unpaid_order
    (db0 : Db) (trace : list (Env * Request)) (env : Env)
    (webhookSecret : option string) (intent : PaymentIntent.t) :
  unpaid_without_result (orders db0) →
  let db := run trace db0 in
  unpaid_without_result (orders db)
  ∧ (stripeWebhook env webhookSecret
       (Some (StripeEvent.mk "payment_intent.succeeded" intent)) db).2 = db.
Proof.
  intros Hu db.
  assert (Hu' : unpaid_without_result (orders db)) by by apply run_unpaid_without_result.
  split; [exact Hu'|]. by apply stripeWebhook_succeeded_noop.
Qed.
End WebhookPath.

(** Alice checks out with stripe: order 1 waits for the payment of intent
    pi_1. The webhook announcing pi_1 paid leaves the database as it is; the
    explicit confirmation with the same intent marks the order paid and
    takes the two serums off the stock. *)
Lemma webhook_succeeded_finds_no_unpaid_order_witness :
  let db :=
    run (V:=declared)
      [(Sample.gateway,
        CreateOrder Sample.alice (Some Sample.home) (Some "stripe"))]
      Sample.boutique in
  (Order.paymentIntentId <$> findById 1 (orders db) = Some (Some "pi_1")
   ∧ Order.isPaid <$> findById 1 (orders db) = Some false)
  ∧ (stripeWebhook (V:=declared) Sample.later (Some "whsec")
       (Some Sample.pi_1_succeeded) db).2 = db
  ∧ let confirmed :=
      (updateOrderToPaid (V:=declared) Sample.later Sample.alice 1 (Some "pi_1")
         db).2 in
    Order.isPaid <$> findById 1 (orders confirmed) = Some true
    ∧ Order.orderStatus <$> findById 1 (orders confirmed) = Some "processing"
    ∧ Product.stock <$> (products confirmed !! 2%nat) = Some 8.
Proof.
  intros db. split; [split; reflexivity|]. split; [|repeat split].
  refine (proj2 (webhook_succeeded_finds_no_unpaid_order (V:=declared)
           Sample.boutique
           [(Sample.gateway,
             CreateOrder Sample.alice (Some Sample.home) (Some "stripe"))]
           Sample.later (Some "whsec")
           (PaymentIntent.mk "pi_1" "succeeded" (Some "alice@example.com")) _)).
  intros o Hin. by apply elem_of_nil in Hin.
Defined.

(** * Further properties of the code *)

(** ** The cart model *)

Lemma list_find_snoc_new {A} (P : A → Prop) `{!∀ x, Decision (P x)} (l : list A) (x : A) :
  list_find P l = None → P x → list_find P (l ++ [x]) = Some (length l, x).
Proof.
  intros Hnone Hx. rewrite list_find_app_r by assumption.
  cbn. rewrite decide_True by assumption. reflexivity.
Qed.

Lemma cart_products_insert_quantity (l : list CartItem.t) (i : nat) item q :
  l !! i = Some item →
  CartItem.product <$> <[i := CartItem.set_quantity item q]> l = CartItem.product <$> l.
Proof.
  intros Hi. rewrite list_fmap_insert. apply list_insert_id.
  rewrite list_lookup_fmap, Hi. reflexivity.
Qed.

Lemma NoDup_fmap_filter {A B} (f : A → B) (P : A → Prop) `{!∀ x, Decision (P x)}
    (l : list A) :
  NoDup (f <$> l) → NoDup (f <$> filter P l).
Proof.
  induction l as [|x l IH]; [done|]. rewrite fmap_cons.
  intros [Hx Hl]%NoDup_cons.
  rewrite filter_cons. destruct (decide (P x)); [|auto].
  rewrite fmap_cons. apply NoDup_cons. split; [|auto].
  intros (y & Hy & [_ Hin]%list_elem_of_filter)%list_elem_of_fmap.
  apply Hx. apply list_elem_of_fmap. eauto.
Qed.

Lemma filter_all {A} (P : A → Prop) `{!∀ x, Decision (P x)} (l : list A) :
  Forall P l → filter P l = l.
Proof.
  induction 1 as [|x l Hx Hl IH]; [done|].
  rewrite filter_cons_True by assumption. by rewrite IH.
Qed.

Section CartModelMore.
Context {V : SchemaValidators}.

(** X1. Adding a product twice gives one item, not two: after [addItem]
    with quantity q1 on a cart without the product, [addItem] with q2 (the
    sum within the stock) stores the same items with the one item of the
    product at quantity q1 + q2. *)
Theorem addItem_twice_merges
    (ps : gmap nat Product.t) (c : Cart.t) (product : nat) (q1 q2 : Z)
    (productDoc : Product.t) :
  ps !! product = Some productDoc →
  Product.inStock productDoc = true →
  list_find (λ item, CartItem.product item = product) (Cart.items c) = None →
  q1 + q2 ≤ Product.stock productDoc →
  let item q :=
    CartItem.mk product (Product.name productDoc)
      (cartSchema.first_image_url productDoc) (Product.price productDoc) q in
  let c1 := cartSchema.calculateTotals (Cart.set_items c (Cart.items c ++ [item q1])) in
  let c2 :=
    cartSchema.calculateTotals (Cart.set_items c (Cart.items c ++ [item (q1 + q2)])) in
  cartValid c1 = true → cartValid c2 = true →
  cartSchema.addItem ps c product q1 = Ok c1
  ∧ cartSchema.addItem ps c1 product q2 = Ok c2
  ∧ length (Cart.items c2) = S (length (Cart.items c)).
Proof.
  intros Hp Hin Hfind Hq item c1 c2 Hv1 Hv2.
  split; [|split].
  - unfold cartSchema.addItem. rewrite Hp, Hin, Hfind. simpl.
    unfold cartSchema.save. fold (item q1). fold c1. rewrite Hv1. reflexivity.
  - unfold cartSchema.addItem. rewrite Hp, Hin. simpl.
    rewrite (list_find_snoc_new _ (Cart.items c) (item q1) Hfind eq_refl).
    change (CartItem.quantity (item q1)) with q1.
    destruct (Z.gtb_spec (q1 + q2) (Product.stock productDoc)); [lia|].
    replace (length (Cart.items c)) with (length (Cart.items c) + 0)%nat by lia.
    rewrite insert_app_r. simpl.
    change (CartItem.set_quantity (item q1) (q1 + q2)) with (item (q1 + q2)).
    unfold cartSchema.save.
    replace (cartSchema.calculateTotals _) with c2 by reflexivity.
    rewrite Hv2. reflexivity.
  - simpl. rewrite length_app. simpl. lia.
Qed.

Lemma call_cart_products ps c m c' :
  call ps c m = Ok c' →
  cart_products c' = cart_products c
  ∨ (∃ product quantity,
       m = Call_addItem product quantity ∧ (product ∉ cart_products c)
       ∧ cart_products c' = cart_products c ++ [product])
  ∨ (∃ productId,
       cart_products c'
       = CartItem.product <$> filter (λ item, CartItem.product item ≠ productId)
                                (Cart.items c))
  ∨ cart_products c' = [].
Proof.
  unfold cart_products.
  destruct m as [product quantity|productId quantity|productId|]; simpl.
  - unfold cartSchema.addItem.
    destruct (ps !! product) as [productDoc|] eqn:Hp; [|discriminate].
    destruct (negb (Product.inStock productDoc)); [discriminate|].
    destruct (list_find _ (Cart.items c)) as [[i existing]|] eqn:Hfind.
    + destruct (_ >? _); [discriminate|].
      intros ->%save_Ok. left. simpl.
      apply list_find_Some in Hfind as (Hi & _).
      by apply cart_products_insert_quantity.
    + intros ->%save_Ok. right. left. exists product, quantity.
      split; [reflexivity|]. split.
      * apply list_find_None in Hfind.
        intros (item & Heq & Hitem)%list_elem_of_fmap.
        rewrite Forall_forall in Hfind. by apply (Hfind item Hitem).
      * simpl. rewrite fmap_app. reflexivity.
  - unfold cartSchema.updateItemQuantity, cartSchema.removeItem.
    destruct (quantity <=? 0).
    { intros ->%save_Ok. right. right. left. exists productId. reflexivity. }
    destruct (list_find _ (Cart.items c)) as [[i item]|] eqn:Hfind; [|discriminate].
    destruct (ps !! productId) as [productDoc|]; [|discriminate].
    destruct (_ >? _); [discriminate|].
    intros ->%save_Ok. left. simpl.
    apply list_find_Some in Hfind as (Hi & _).
    by apply cart_products_insert_quantity.
  - unfold cartSchema.removeItem.
    intros ->%save_Ok. right. right. left. exists productId. reflexivity.
  - unfold cartSchema.clearCart.
    intros ->%save_Ok. right. right. right. reflexivity.
Qed.

(** X2. A cart holds at most one item per product, and every mutation
    keeps it so: from a cart whose items are of distinct products, the cart
    stored after each call of a sequence has items of distinct products. *)
Theorem cart_items_stay_unique
    (c : Cart.t) (calls : list (gmap nat Product.t * CartMutation)) :
  NoDup (cart_products c) →
  Forall (λ c', NoDup (cart_products c')) (stored_along c calls).
Proof.
  revert c. induction calls as [|[ps m] rest IH]; intros c Hc; simpl.
  { constructor. }
  assert (Hc' : NoDup (cart_products
            (match call ps c m with Ok c' => c' | Throw _ => c end))).
  { destruct (call ps c m) as [c'|e] eqn:E; [|exact Hc].
    destruct (call_cart_products _ _ _ _ E)
      as [->|[(p & q & _ & Hnew & ->)|[(p & ->)| ->]]].
    - exact Hc.
    - apply NoDup_app. split; [exact Hc|]. split; [|apply NoDup_singleton].
      intros x Hx ->%list_elem_of_singleton. contradiction.
    - by apply NoDup_fmap_filter.
    - constructor. }
  constructor; [exact Hc'|exact (IH _ Hc')].
Qed.

(** X3. [removeItem] takes every item of the product out and nothing else;
    a product the cart does not hold leaves the items as they are; and
    removing again changes nothing. *)
Theorem removeItem_removes_only_the_product
    (c c' : Cart.t) (productId : nat) :
  cartSchema.removeItem c productId = Ok c' →
  (productId ∉ cart_products c')
  ∧ (∀ item, CartItem.product item ≠ productId →
       item ∈ Cart.items c' ↔ item ∈ Cart.items c)
  ∧ (productId ∉ cart_products c → Cart.items c' = Cart.items c)
  ∧ cartSchema.removeItem c' productId = Ok c'.
Proof.
  unfold cartSchema.removeItem. intros Hsave.
  pose proof Hsave as Hvalid. unfold cartSchema.save in Hvalid.
  destruct (cartValid _) eqn:Hv in Hvalid; [|discriminate].
  apply save_Ok in Hsave as ->. simpl. unfold cart_products. simpl.
  split; [|split; [|split]].
  - intros (item & Heq & [Hne _]%list_elem_of_filter)%list_elem_of_fmap.
    by apply Hne.
  - intros item Hne. rewrite list_elem_of_filter. tauto.
  - intros Hnot. apply filter_all, Forall_forall.
    intros item Hitem Heq. apply Hnot. apply list_elem_of_fmap. eauto.
  - rewrite list_filter_filter_l by auto.
    unfold cartSchema.save.
    replace (cartSchema.calculateTotals (Cart.set_items _ _))
      with (cartSchema.calculateTotals (Cart.set_items c
              (filter (λ item, CartItem.product item ≠ productId) (Cart.items c))))
      by reflexivity.
    rewrite Hv. reflexivity.
Qed.


(** X4. A quantity update that succeeds with a positive quantity has found
    the product alive and stores a quantity within its live stock, on the
    item it found and on no other; the products of the items stay. *)
Theorem updateItemQuantity_within_stock
    (ps : gmap nat Product.t) (c c' : Cart.t) (productId : nat) (quantity : Z) :
  0 < quantity →
  cartSchema.updateItemQuantity ps c productId quantity = Ok c' →
  ∃ productDoc i item,
    ps !! productId = Some productDoc
    ∧ quantity ≤ Product.stock productDoc
    ∧ Cart.items c !! i = Some item
    ∧ CartItem.product item = productId
    ∧ Cart.items c' = <[i := CartItem.set_quantity item quantity]> (Cart.items c)
    ∧ cart_products c' = cart_products c.
Proof.
  intros Hq. unfold cartSchema.updateItemQuantity.
  destruct (Z.leb_spec quantity 0); [lia|].
  destruct (list_find _ (Cart.items c)) as [[i item]|] eqn:Hfind; [|discriminate].
  destruct (ps !! productId) as [productDoc|]; [|discriminate].
  destruct (Z.gtb_spec quantity (Product.stock productDoc)); [discriminate|].
  intros ->%save_Ok. apply list_find_Some in Hfind as (Hi & Hid & _).
  exists productDoc, i, item. simpl. repeat split; try assumption.
  unfold cart_products. simpl. by apply cart_products_insert_quantity.
Qed.
End CartModelMore.

(** Two lipsticks, then three more, five in stock: one item of five. *)
Lemma addItem_twice_merges_witness :
  ∃ c1,
    cartSchema.addItem (V:=declared) Sample.catalogue Cart.create 1 2 = Ok c1
    ∧ cartSchema.addItem (V:=declared) Sample.catalogue c1 1 3
      = Ok (Cart.mk [CartItem.mk 1 "Matte Lipstick" EmptyString 399 5] 1995 5).
Proof.
  destruct (addItem_twice_merges (V:=declared) Sample.catalogue Cart.create 1 2 3
              Sample.lipstick) as (H1 & H2 & _).
  - reflexivity.
  - reflexivity.
  - reflexivity.
  - simpl. lia.
  - reflexivity.
  - reflexivity.
  - eexists. split; [exact H1|exact H2].
Defined.

Lemma cart_items_stay_unique_witness :
  Forall (λ c', NoDup (cart_products c'))
    (stored_along (V:=declared) Cart.create
       [(Sample.catalogue, Call_addItem 1 2);
        (Sample.catalogue, Call_addItem 1 1);
        (Sample.catalogue, Call_removeItem 1)]).
Proof.
  apply (cart_items_stay_unique (V:=declared) Cart.create). constructor.
Defined.

Lemma removeItem_removes_only_the_product_witness :
  cartSchema.removeItem (V:=declared) (Sample.cart_of [Sample.in_cart 2]) 1
    = Ok (Cart.mk [] 0 0)
  ∧ cartSchema.removeItem (V:=declared) (Cart.mk [] 0 0) 1 = Ok (Cart.mk [] 0 0).
Proof.
  split; [reflexivity|].
  apply (removeItem_removes_only_the_product (V:=declared)
           (Sample.cart_of [Sample.in_cart 2]) (Cart.mk [] 0 0) 1).
  reflexivity.
Defined.

Lemma updateItemQuantity_within_stock_witness :
  ∃ productDoc i item,
    Sample.catalogue !! 1%nat = Some productDoc
    ∧ 4 ≤ Product.stock productDoc
    ∧ Cart.items (Sample.cart_of [Sample.in_cart 2]) !! i = Some item
    ∧ CartItem.product item = 1%nat
    ∧ Cart.items (Sample.cart_of [Sample.in_cart 4])
      = <[i := CartItem.set_quantity item 4]>
          (Cart.items (Sample.cart_of [Sample.in_cart 2]))
    ∧ cart_products (Sample.cart_of [Sample.in_cart 4])
      = cart_products (Sample.cart_of [Sample.in_cart 2]).
Proof.
  apply (updateItemQuantity_within_stock (V:=declared) Sample.catalogue
           (Sample.cart_of [Sample.in_cart 2]) (Sample.cart_of [Sample.in_cart 4]) 1 4).
  - lia.
  - reflexivity.
Defined.

(** ** The cart controller *)

Section CartControllerMore.
Context {V : SchemaValidators}.


(** X6. The cart requests of a user write the cart of that user and
    nothing else: the products, the orders and the carts of the other users
    are as before. *)
Theorem cart_requests_touch_one_cart
    (env : Env) (user : User) (r : Request) (db : Db) :
  cart_request_of user r →
  let db' := handle env r db in
  products db' = products db ∧ orders db' = orders db
  ∧ ∀ u, u ≠ user_id user → carts db' !! u = carts db !! u.
Proof.
  intros Hr.
  assert (Hins : ∀ (c : Cart.t) u, u ≠ user_id user →
            <[user_id user := c]> (carts db) !! u = carts db !! u).
  { intros c u Hu. by apply lookup_insert_ne. }
  destruct r; simpl in Hr; try contradiction; subst; simpl.
  - unfold getCart, findOrCreate.
    destruct (carts db !! user_id user); [done|].
    destruct (cartValid _); simpl; auto.
  - unfold addToCart, findOrCreate.
    destruct productId as [productId|]; [|done].
    destruct (products db !! productId); [|done].
    destruct (carts db !! user_id user) as [cart|].
    + destruct (cartSchema.addItem _ _ _ _) as [cart'|e]; simpl; [auto|].
      destruct (_ || _); done.
    + destruct (cartValid _); [|destruct (_ || _); done]. simpl.
      destruct (cartSchema.addItem _ _ _ _) as [cart'|e]; simpl.
      * repeat split. intros u Hu. rewrite !lookup_insert_ne by done. done.
      * destruct (_ || _); simpl; auto.
  - unfold updateCartItem.
    destruct quantity as [quantity|]; [|done].
    destruct (_ || _); [done|].
    destruct (carts db !! user_id user) as [cart|]; [|done].
    destruct (cartSchema.updateItemQuantity _ _ _ _); simpl; [auto|].
    destruct (_ || _); done.
  - unfold removeFromCart.
    destruct (carts db !! user_id user) as [cart|]; [|done].
    destruct (cartSchema.removeItem _ _); simpl; auto.
  - unfold clearCart.
    destruct (carts db !! user_id user) as [cart|]; [|done].
    destruct (cartSchema.clearCart _); simpl; auto.
Qed.
End CartControllerMore.

Lemma cart_requests_touch_one_cart_witness :
  let db' := handle (V:=declared) Sample.gateway
               (AddToCart Sample.alice (Some 1%nat) (Some 2)) Sample.boutique in
  (cart_products <$> (carts db' !! 7%nat) = Some [2%nat; 1%nat])
  ∧ products db' = products Sample.boutique ∧ orders db' = orders Sample.boutique
  ∧ ∀ u, u ≠ 7%nat → carts db' !! u = carts Sample.boutique !! u.
Proof.
  intros db'. split; [reflexivity|].
  apply (cart_requests_touch_one_cart (V:=declared) Sample.gateway Sample.alice
           (AddToCart Sample.alice (Some 1%nat) (Some 2)) Sample.boutique).
  reflexivity.
Defined.

(** ** Checkout *)

Lemma findById_app id os l o :
  findById id os = Some o → findById id (os ++ l) = Some o.
Proof.
  unfold findById. intros ([i o'] & Hfind & ->)%fmap_Some.
  rewrite (list_find_app_l _ _ _ _ _ Hfind). reflexivity.
Qed.

Lemma findById_replaceOrder_ne id os n :
  Order._id n ≠ id → findById id (replaceOrder n os) = findById id os.
Proof.
  unfold findById, replaceOrder. intros Hne.
  rewrite list_find_fmap.
  rewrite (list_find_ext _ (λ x, Order._id x = id)).
  2:{ intros x. simpl. destruct (decide _); split; congruence. }
  destruct (list_find _ os) as [[i y]|] eqn:E; [|reflexivity].
  apply list_find_Some in E as (_ & Hy & _). simpl.
  rewrite decide_False by congruence. reflexivity.
Qed.

Lemma findByIdAndDelete_fresh os n :
  Order._id n = fresh_id os → findByIdAndDelete (Order._id n) (os ++ [n]) = os.
Proof.
  intros Hid. unfold findByIdAndDelete. rewrite filter_app.
  rewrite filter_all.
  - rewrite filter_cons_False by (intros H; by apply H). by rewrite app_nil_r.
  - apply Forall_forall. intros x Hx. rewrite Hid. by apply fresh_id_fresh.
Qed.

Lemma replaceOrder_snoc os n n' :
  Order._id n = fresh_id os → Order._id n' = Order._id n →
  replaceOrder n' (os ++ [n]) = os ++ [n'].
Proof.
  intros Hid Hid'. unfold replaceOrder. rewrite fmap_app. f_equal.
  - rewrite <- (list_fmap_id os) at 2. apply list_fmap_ext.
    intros i x Hx. simpl. rewrite decide_False; [done|].
    rewrite Hid', Hid. apply fresh_id_fresh. apply list_elem_of_lookup. eauto.
  - cbn. rewrite decide_True by done. reflexivity.
Qed.

Section CheckoutMore.
Context {V : SchemaValidators}.

(** X7. A checkout that succeeds stores exactly one new order, under an id
    no stored order has, and leaves every stored order as it is; it empties
    the cart of the user and zeroes its totals; and it takes nothing off
    the stock: the products are as before. *)
Theorem checkout_effects
    (env : Env) (user : User) (sa : option ShippingAddress.t)
    (pm : option string) (db db' : Db) (status : nat) (order : Order.t)
    (intent : option (string * string)) :
  createOrder env user sa pm db = (Json status (order, intent), db') →
  orders db' = orders db ++ [order]
  ∧ (∀ o, o ∈ orders db → Order._id o ≠ Order._id order)
  ∧ carts db' = <[user_id user := Cart.mk [] 0 0]> (carts db)
  ∧ products db' = products db.
Proof.
  intros (addr & cart & -> & Hcart & _ & _ & Hps & Hcarts & Hcases)%createOrder_Json.
  set (o := newOrder env user addr (default "stripe" pm) cart (orders db)) in *.
  assert (Hid : Order._id o = fresh_id (orders db)) by apply newOrder_id.
  assert (Hos : orders db' = orders db ++ [order] ∧ Order._id order = Order._id o).
  { destruct Hcases as [(_ & [= -> ->] & Hos)|(_ & secret & pid & [= -> ->] & Hos)].
    - split; [exact Hos|reflexivity].
    - split; [|reflexivity]. rewrite Hos. by apply replaceOrder_snoc. }
  destruct Hos as [Hos Hid']. repeat split; try assumption.
  intros x Hx. rewrite Hid', Hid. by apply fresh_id_fresh.
Qed.

(** X8. When the gateway refuses the payment intent (or the order cannot
    be saved with it), checkout answers 500 and takes the order it had
    stored out again - the orders are as before - but the cart it had
    cleared stays cleared. *)
Theorem checkout_rollback_keeps_cart_cleared
    (env : Env) (user : User) (sa : option ShippingAddress.t)
    (pm : option string) (db db' : Db) :
  createOrder env user sa pm db = (JsonError 500 PaymentProcessingFailed, db') →
  orders db' = orders db
  ∧ products db' = products db
  ∧ carts db' = <[user_id user := Cart.mk [] 0 0]> (carts db)
  ∧ ∃ cart, carts db !! user_id user = Some cart ∧ Cart.items cart ≠ [].
Proof.
  unfold createOrder.
  destruct sa as [addr|]; [|discriminate].
  destruct (_ || _); [discriminate|].
  destruct (carts db !! user_id user) as [cart|] eqn:Hcart; [|discriminate].
  destruct (bool_decide (length _ = _)) eqn:Hlen; [discriminate|].
  destruct (validateStock _ _) as [r|] eqn:Hv.
  { intros [= -> <-]. exfalso. clear -Hv.
    induction (Cart.items cart) as [|item rest IH]; simpl in Hv; [discriminate|].
    destruct (products db !! CartItem.product item); [|discriminate].
    destruct (_ || _); [discriminate|]. auto. }
  set (o := newOrder _ _ _ _ _ _).
  assert (Hid : Order._id o = fresh_id (orders db)) by apply newOrder_id.
  destruct (negb _); [discriminate|].
  destruct (cartSchema.clearCart cart) as [cart'|] eqn:Hclear; [|discriminate].
  apply clearCart_Ok in Hclear as ->.
  destruct (bool_decide (_ = "stripe")); [|discriminate].
  assert (Hgoal : ∀ db'',
    (JsonError 500 PaymentProcessingFailed : Response Created,
     set_orders (set_carts (set_orders db (orders db ++ [o]))
                  (<[user_id user := Cart.mk [] 0 0]> (carts db)))
       (findByIdAndDelete (Order._id o) (orders db ++ [o])))
    = (JsonError 500 PaymentProcessingFailed, db'') →
    orders db'' = orders db ∧ products db'' = products db
    ∧ carts db'' = <[user_id user := Cart.mk [] 0 0]> (carts db)
    ∧ ∃ cart0, Some cart = Some cart0 ∧ Cart.items cart0 ≠ []).
  { intros db'' [= <-]. simpl. rewrite findByIdAndDelete_fresh by exact Hid.
    repeat split. exists cart. split; [reflexivity|].
    apply bool_decide_eq_false in Hlen. by destruct (Cart.items cart). }
  destruct (createPaymentIntent _ _) as [[secret intent]|]; [|apply Hgoal].
  destruct (save_order _ _); [discriminate|apply Hgoal].
Qed.

(** X9. The order checkout builds from a cart whose prices and quantities
    are not negative totals at least 50 rupees, the shipping of a small
    order: the payment adapter never turns it down as an invalid amount and
    asks the gateway for the total in paise. *)
Theorem checkout_amount_is_positive
    (env env' : Env) (user : User) (addr : ShippingAddress.t) (pm : string)
    (cart : Cart.t) (os : list Order.t) :
  (∀ item, item ∈ Cart.items cart →
     0 ≤ CartItem.price item ∧ 0 ≤ CartItem.quantity item) →
  let order := newOrder env user addr pm cart os in
  50 ≤ Order.totalPrice order
  ∧ createPaymentIntent env' (Order.totalPrice order)
    = paymentIntents_create env' (Order.totalPrice order * 100).
Proof.
  intros Hitems order.
  destruct (newOrder_money_fields env user addr pm cart os)
    as (Hsum & _ & Htax & Hship & Htot).
  fold order in Hsum, Htax, Hship, Htot.
  assert (Hnonneg : 0 ≤ Order.itemsPrice order).
  { rewrite Hsum. unfold order. rewrite newOrder_orderItems.
    clear -Hitems. induction (Cart.items cart) as [|item rest IH]; [done|].
    cbn. assert (0 ≤ CartItem.price item ∧ 0 ≤ CartItem.quantity item) as [??]
      by (apply Hitems; left).
    assert (0 ≤ sumZ ((λ i, OrderItem.price i * OrderItem.quantity i)
                        <$> (orderItem_of <$> rest)))
      by (apply IH; intros; apply Hitems; by right).
    unfold sumZ in *. nia. }
  assert (H50 : 50 ≤ Order.totalPrice order).
  { rewrite Htot, Hship. destruct (decide _); lia. }
  split; [exact H50|].
  unfold createPaymentIntent.
  destruct (Z.leb_spec (Order.totalPrice order) 0); [lia|reflexivity].
Qed.
End CheckoutMore.

Lemma checkout_effects_witness :
  let r := createOrder (V:=declared) Sample.gateway Sample.alice (Some Sample.home)
             (Some "stripe") Sample.boutique in
  (∃ order, r.1 = Json 201 (order, Some ("secret_1", "pi_1"))
            ∧ orders r.2 = [order])
  ∧ carts r.2 !! 7%nat = Some (Cart.mk [] 0 0)
  ∧ products r.2 = products Sample.boutique.
Proof.
  intros r.
  assert (E : ∃ order, r = (Json 201 (order, Some ("secret_1", "pi_1")), r.2))
    by (eexists; vm_compute; reflexivity).
  destruct E as [order E].
  destruct (checkout_effects (V:=declared) _ _ _ _ _ _ _ _ _ E)
    as (Hos & _ & Hcarts & Hps).
  split; [exists order; split; [by rewrite E|exact Hos]|].
  split; [by rewrite Hcarts|exact Hps].
Defined.

(** The gateway is down: Alice's stripe checkout answers 500; no order is
    stored and her cart is empty. *)
Lemma checkout_rollback_keeps_cart_cleared_witness :
  let down := mkEnv 1000 (λ _, None) (λ _, None) in
  let r := createOrder (V:=declared) down Sample.alice (Some Sample.home)
             (Some "stripe") Sample.boutique in
  r.1 = JsonError 500 PaymentProcessingFailed
  ∧ orders r.2 = []
  ∧ carts r.2 !! 7%nat = Some (Cart.mk [] 0 0)
  ∧ cart_products <$> (carts Sample.boutique !! 7%nat) = Some [2%nat].
Proof.
  intros down r.
  assert (E : r = (JsonError 500 PaymentProcessingFailed, r.2)) by reflexivity.
  destruct (checkout_rollback_keeps_cart_cleared (V:=declared) _ _ _ _ _ _ E)
    as (Hos & _ & Hcarts & _).
  split; [reflexivity|]. split; [exact Hos|].
  split; [by rewrite Hcarts|reflexivity].
Defined.

Lemma checkout_amount_is_positive_witness :
  let order := newOrder Sample.gateway Sample.alice Sample.home "stripe"
                 (Sample.cart_of [CartItem.mk 2 "Night Serum" "serum.jpg" 500 2]) [] in
  Order.totalPrice order = 1100
  ∧ 50 ≤ Order.totalPrice order
  ∧ createPaymentIntent Sample.gateway (Order.totalPrice order)
    = paymentIntents_create Sample.gateway (Order.totalPrice order * 100).
Proof.
  intros order. split; [reflexivity|].
  apply (checkout_amount_is_positive Sample.gateway Sample.gateway Sample.alice
           Sample.home "stripe").
  intros item ->%list_elem_of_singleton. simpl. lia.
Defined.

(** ** Payment confirmation *)

Lemma decrementStock_in_sync {V : SchemaValidators} items ps id p' :
  (decrementStock decrement_paid items ps).1 !! id = Some p' →
  ps !! id = Some p' ∨ in_sync p'.
Proof.
  revert ps. induction items as [|item rest IH]; intros ps; simpl; [auto|].
  destruct (ps !! OrderItem.product item) as [product|] eqn:Hp; [|apply IH].
  destruct (productValid _); [|auto].
  intros [Hin|Hsync]%IH; [|auto].
  destruct (decide (OrderItem.product item = id)) as [Heq|Hne].
  - subst id. rewrite lookup_insert_eq in Hin. injection Hin as <-.
    right. reflexivity.
  - rewrite lookup_insert_ne in Hin by done. auto.
Qed.

Section MarkPaidMore.
Context {V : SchemaValidators}.

(** X10. A confirmation that carries no payment intent id (or an empty
    one) is never checked with the gateway: whatever the gateway would
    answer, an unpaid order - a stripe order too - is marked paid at the
    clock of the request, set to 'processing', and its items are taken off
    the stock. *)
Theorem markPaid_without_intent_is_not_verified
    (env : Env) (user : User) (id : nat) (pi : option string) (db : Db)
    (order : Order.t) (ps : gmap nat Product.t) :
  pi = None ∨ pi = Some EmptyString →
  findById id (orders db) = Some order →
  Order.isPaid order = false →
  let paid := Order.set_orderStatus (Order.set_paid order (now env)) "processing" in
  decrementStock decrement_paid (Order.orderItems order) (products db) = (ps, Ok tt) →
  orderValid paid = true →
  updateOrderToPaid env user id pi db
  = (Json 200 paid, mkDb ps (carts db) (replaceOrder paid (orders db))).
Proof.
  intros Hpi Hfind Hunpaid paid Hloop Hvalid. unfold updateOrderToPaid.
  rewrite Hfind, Hunpaid.
  assert (Hv : verifyPayment env user order pi = inr order).
  { destruct Hpi as [-> | ->]; [reflexivity|].
    unfold verifyPayment.
    rewrite (bool_decide_eq_true_2 (EmptyString = EmptyString)) by reflexivity.
    simpl. rewrite andb_false_r. reflexivity. }
  rewrite Hv. simpl. rewrite Hloop. simpl.
  unfold save_order. fold paid. rewrite Hvalid. reflexivity.
Qed.

(** X11. A confirmation never writes a cart. Answered with an error
    response (order not found, already paid, payment not successful,
    verification failed) it has written nothing at all; and an order is
    written only by the 200 answer - when the stock loop or the save of the
    order throws, the orders are as before, though products the loop had
    saved stay saved. *)
Theorem markPaid_writes
    (env : Env) (user : User) (id : nat) (pi : option string) (db : Db) :
  let r := updateOrderToPaid env user id pi db in
  carts r.2 = carts db
  ∧ (∀ status error, r.1 = JsonError status error → r.2 = db)
  ∧ ((∀ status order, r.1 ≠ Json status order) → orders r.2 = orders db)
  ∧ (∀ i p, products r.2 !! i = Some p → products db !! i = Some p ∨ in_sync p).
Proof.
  unfold updateOrderToPaid.
  destruct (findById id (orders db)) as [order0|]; [|simpl; auto 6].
  destruct (Order.isPaid order0); [simpl; auto 6|].
  destruct (verifyPayment _ _ _ _) as [r|o] eqn:Hv.
  { apply verifyPayment_inl in Hv as (s & e & ->). simpl. auto 6. }
  destruct (decrementStock _ _ _) as [ps res] eqn:Hloop.
  assert (Hsync : ∀ i p, ps !! i = Some p → products db !! i = Some p ∨ in_sync p).
  { intros i p Hp. apply (decrementStock_in_sync
      (Order.orderItems (Order.set_orderStatus (Order.set_paid o (now env)) "processing"))).
    rewrite Hloop. exact Hp. }
  destruct res as [[]|e]; simpl.
  - destruct (save_order _ _) as [os|]; simpl.
    + split; [reflexivity|]. split; [discriminate|]. split; [|exact Hsync].
      intros Hne. exfalso. by eapply Hne.
    + split; [reflexivity|]. split; [discriminate|]. split; [reflexivity|exact Hsync].
  - split; [reflexivity|]. split; [discriminate|]. split; [reflexivity|exact Hsync].
Qed.
End MarkPaidMore.

(** The gateway is down and the body has no payment intent id: order 1, a
    stripe order, is marked paid all the same. *)
Lemma markPaid_without_intent_is_not_verified_witness :
  let down := mkEnv 3000 (λ _, None) (λ _, None) in
  ∃ order ps,
    findById 1 (orders Sample.pending) = Some order
    ∧ Order.paymentMethod order = "stripe"
    ∧ updateOrderToPaid (V:=declared) down Sample.alice 1 None Sample.pending
      = (Json 200 (Order.set_orderStatus (Order.set_paid order 3000) "processing"),
         mkDb ps (carts Sample.pending)
           (replaceOrder (Order.set_orderStatus (Order.set_paid order 3000) "processing")
              (orders Sample.pending)))
    ∧ Product.stock <$> (ps !! 2%nat) = Some 8.
Proof.
  intros down. eexists _, _.
  split; [vm_compute; reflexivity|]. split; [reflexivity|]. split.
  - apply (markPaid_without_intent_is_not_verified (V:=declared) down Sample.alice
             1 None Sample.pending).
    + left. reflexivity.
    + vm_compute. reflexivity.
    + reflexivity.
    + vm_compute. reflexivity.
    + reflexivity.
  - reflexivity.
Defined.

(** The gateway reports pi_1 unpaid: the confirmation answers 400 and the
    database is as before. *)
Lemma markPaid_writes_witness :
  let unpaid := mkEnv 3000 (λ _, None)
                  (λ id, Some (PaymentIntent.mk id "requires_payment_method" None)) in
  let r := updateOrderToPaid (V:=declared) unpaid Sample.alice 1 (Some "pi_1")
             Sample.pending in
  r.1 = JsonError 400 (Msg "Payment not successful") ∧ r.2 = Sample.pending.
Proof.
  intros unpaid r. split; [reflexivity|].
  destruct (markPaid_writes (V:=declared) unpaid Sample.alice 1 (Some "pi_1")
              Sample.pending) as (_ & Herr & _).
  apply (Herr 400%nat (Msg "Payment not successful")). reflexivity.
Defined.

(** ** Stored orders *)

Lemma keeps_refl o : keeps o o.
Proof. unfold keeps. repeat split; auto. Qed.

Lemma keeps_trans o1 o2 o3 : keeps o1 o2 → keeps o2 o3 → keeps o1 o3.
Proof.
  unfold keeps.
  intros (? & ? & ? & ? & ? & ? & ? & ? & ? & ? & Hp1 & Hd1)
         (? & ? & ? & ? & ? & ? & ? & ? & ? & ? & Hp2 & Hd2).
  split_and!; try congruence.
  - intros Hp. destruct (Hp1 Hp) as [Hp' Hat]. destruct (Hp2 Hp') as [? Hat'].
    split; congruence.
  - auto.
Qed.

Lemma NoDup_fmap_eq {A B} (f : A → B) (l : list A) (x y : A) :
  NoDup (f <$> l) → x ∈ l → y ∈ l → f x = f y → x = y.
Proof.
  induction l as [|z l IH]; [by intros _ ?%elem_of_nil|].
  rewrite fmap_cons. intros [Hz Hl]%NoDup_cons.
  intros [->|Hx]%elem_of_cons [->|Hy]%elem_of_cons Heq; auto.
  - exfalso. apply Hz. rewrite Heq. by apply list_elem_of_fmap_2.
  - exfalso. apply Hz. rewrite <- Heq. by apply list_elem_of_fmap_2.
Qed.

Lemma kept_same os : NoDup (Order._id <$> os) → kept os os.
Proof. intros Hnd. split; [exact Hnd|]. eauto using keeps_refl. Qed.

Lemma kept_snoc os n :
  NoDup (Order._id <$> os) → Order._id n = fresh_id os → kept os (os ++ [n]).
Proof.
  intros Hnd Hid. split.
  - rewrite fmap_app. apply NoDup_app. split; [exact Hnd|].
    split; [|apply NoDup_singleton].
    intros i (o & -> & Ho)%list_elem_of_fmap Hi%list_elem_of_singleton.
    simpl in Hi. apply (fresh_id_fresh os o Ho). congruence.
  - intros id o Hfind. exists o. split; [by apply findById_app|apply keeps_refl].
Qed.

Lemma kept_replace os x n :
  NoDup (Order._id <$> os) → x ∈ os → keeps x n → kept os (replaceOrder n os).
Proof.
  intros Hnd Hx Hkeep. split; [by rewrite replaceOrder_ids|].
  intros id o Hfind.
  destruct (decide (Order._id n = id)) as [Heq|Hne].
  - exists n. split; [by eapply findById_replaceOrder|].
    apply findById_Some in Hfind as [Hid Ho].
    assert (o = x) as ->; [|exact Hkeep].
    apply (NoDup_fmap_eq Order._id os); try assumption.
    destruct Hkeep as [Hn _]. congruence.
  - exists o. split; [|apply keeps_refl].
    rewrite findById_replaceOrder_ne by assumption. exact Hfind.
Qed.

Section StoredOrders.
Context {V : SchemaValidators}.

Lemma createOrder_kept env user sa pm db :
  NoDup (Order._id <$> orders db) →
  kept (orders db) (orders (createOrder env user sa pm db).2).
Proof.
  intros Hnd. pose proof (kept_same _ Hnd) as Hsame. unfold createOrder.
  destruct sa as [addr|]; [|exact Hsame].
  destruct (_ || _); [exact Hsame|].
  destruct (carts db !! user_id user) as [cart|]; [|exact Hsame].
  destruct (bool_decide (length _ = _)); [exact Hsame|].
  destruct (validateStock _ _); [exact Hsame|].
  set (o := newOrder _ _ _ _ _ _).
  assert (Hid : Order._id o = fresh_id (orders db)) by apply newOrder_id.
  destruct (negb _); [exact Hsame|].
  pose proof (kept_snoc _ o Hnd Hid) as Hsnoc.
  destruct (cartSchema.clearCart cart); [|exact Hsnoc].
  destruct (bool_decide (_ = "stripe")); [|exact Hsnoc].
  assert (Hback : kept (orders db) (findByIdAndDelete (Order._id o) (orders db ++ [o])))
    by (by rewrite findByIdAndDelete_fresh).
  destruct (createPaymentIntent _ _) as [[secret intent]|]; [|exact Hback].
  destruct (save_order _ _) as [os|] eqn:Hsave; [|exact Hback].
  apply save_order_Ok in Hsave as ->. simpl.
  rewrite replaceOrder_snoc by done. by apply kept_snoc.
Qed.

Lemma updateOrderToPaid_kept env user id pi db :
  NoDup (Order._id <$> orders db) →
  kept (orders db) (orders (updateOrderToPaid env user id pi db).2).
Proof.
  intros Hnd. pose proof (kept_same _ Hnd) as Hsame. unfold updateOrderToPaid.
  destruct (findById id (orders db)) as [order0|] eqn:Hfind; [|exact Hsame].
  destruct (Order.isPaid order0) eqn:Hpaid; [exact Hsame|].
  destruct (verifyPayment _ _ _ _) as [r|o] eqn:Hv; [exact Hsame|].
  destruct (decrementStock _ _ _) as [ps [[]|e]]; [|exact Hsame].
  destruct (save_order _ _) as [os|] eqn:Hsave; [|exact Hsame].
  apply save_order_Ok in Hsave as ->. simpl.
  apply findById_Some in Hfind as [_ Hin].
  apply (kept_replace _ order0); [assumption..|].
  unfold verifyPayment in Hv.
  assert (Ho : o = order0 ∨ ∃ r, o = Order.set_paymentResult order0 r).
  { destruct pi as [pi|]; [|left; congruence].
    destruct (_ && _); [|left; congruence].
    destruct (verifyPaymentIntent env pi); [|discriminate].
    destruct (negb _); [discriminate|]. injection Hv as <-.
    right. eexists. reflexivity. }
  unfold keeps.
  destruct Ho as [->|[r ->]]; simpl; rewrite Hpaid; repeat split; auto; discriminate.
Qed.

Lemma updateOrderStatus_kept env id status db :
  NoDup (Order._id <$> orders db) →
  kept (orders db) (orders (updateOrderStatus env id status db).2).
Proof.
  intros Hnd. pose proof (kept_same _ Hnd) as Hsame. unfold updateOrderStatus.
  destruct (negb _); [exact Hsame|].
  destruct (findById id (orders db)) as [order0|] eqn:Hfind; [|exact Hsame].
  destruct (save_order _ _) as [os|] eqn:Hsave; [|exact Hsame].
  apply save_order_Ok in Hsave as ->. simpl.
  apply findById_Some in Hfind as [_ Hin].
  apply (kept_replace _ order0); [assumption..|].
  unfold keeps. destruct (bool_decide (status = "delivered")); simpl;
    repeat split; auto.
Qed.

Lemma stripeWebhook_kept env secret event db :
  NoDup (Order._id <$> orders db) →
  kept (orders db) (orders (stripeWebhook env secret event db).2).
Proof.
  intros Hnd. pose proof (kept_same _ Hnd) as Hsame. unfold stripeWebhook.
  destruct secret as [secret|]; [|exact Hsame].
  destruct (bool_decide (secret = EmptyString)); [exact Hsame|].
  destruct event as [event|]; [|exact Hsame].
  destruct (bool_decide (_ = "payment_intent.succeeded")).
  - destruct (findOneByPaymentResultId _ _) as [order|] eqn:Hfind; [|exact Hsame].
    destruct (Order.isPaid order) eqn:Hpaid; [exact Hsame|]. simpl.
    destruct (decrementStock _ _ _) as [ps [[]|e]]; [|exact Hsame].
    destruct (save_order _ _) as [os|] eqn:Hsave; [|exact Hsame].
    apply save_order_Ok in Hsave as ->. simpl.
    apply findOneByPaymentResultId_Some in Hfind as [Hin _].
    apply (kept_replace _ order); [assumption..|].
    unfold keeps. simpl. rewrite Hpaid. repeat split; auto; discriminate.
  - destruct (bool_decide (_ = "payment_intent.payment_failed")); [|exact Hsame].
    destruct (findOneByPaymentResultId _ _) as [order|] eqn:Hfind; [|exact Hsame].
    destruct (save_order _ _) as [os|] eqn:Hsave; [|exact Hsame].
    apply save_order_Ok in Hsave as ->. simpl.
    apply findOneByPaymentResultId_Some in Hfind as [Hin _].
    apply (kept_replace _ order); [assumption..|].
    unfold keeps. simpl. repeat split; auto.
Qed.

Lemma handle_kept env r db :
  NoDup (Order._id <$> orders db) → kept (orders db) (orders (handle env r db)).
Proof.
  intros Hnd.
  pose proof (cart_and_catalogue_keep_orders env r db) as Hkeep.
  destruct r; try (rewrite Hkeep; by apply kept_same); simpl.
  - by apply createOrder_kept.
  - by apply updateOrderToPaid_kept.
  - by apply updateOrderStatus_kept.
  - by apply stripeWebhook_kept.
Qed.

(** X12. Orders are immutable once placed, but for payment and delivery.
    Where the stored orders have distinct ids, no sequence of requests
    deletes or replaces one: the ids stay distinct, and each order is found
    again under its id, with the same user, items, shipping address,
    payment method, payment intent id and money fields; once paid it stays
    paid with its paidAt, and once delivered it stays delivered. *)
Theorem stored_orders_are_kept
    (trace : list (Env * Request)) (db : Db) :
  NoDup (Order._id <$> orders db) →
  NoDup (Order._id <$> orders (run trace db))
  ∧ ∀ id o, findById id (orders db) = Some o →
      ∃ o', findById id (orders (run trace db)) = Some o' ∧ keeps o o'.
Proof.
  revert db. induction trace as [|[env r] rest IH]; intros db Hnd.
  { split; [exact Hnd|]. eauto using keeps_refl. }
  simpl. destruct (handle_kept env r db Hnd) as [Hnd' Hstep].
  destruct (IH _ Hnd') as [Hnd'' Hrest]. split; [exact Hnd''|].
  intros id o Hfind.
  destruct (Hstep id o Hfind) as (o1 & Hfind1 & Hk1).
  destruct (Hrest id o1 Hfind1) as (o2 & Hfind2 & Hk2).
  exists o2. split; [exact Hfind2|]. by eapply keeps_trans.
Qed.
End StoredOrders.

(** Order 1 is confirmed, shipped and set back to pending: it is still
    order 1 of Alice, two serums for 1100 rupees, and it is still paid. *)
Lemma stored_orders_are_kept_witness :
  let trace :=
    [(Sample.later, UpdateOrderToPaid Sample.alice 1 (Some "pi_1"));
     (Sample.later, UpdateOrderStatus 1 "shipped");
     (Sample.later, UpdateOrderStatus 1 "pending")] in
  ∃ o o',
    findById 1 (orders Sample.pending) = Some o
    ∧ findById 1 (orders (run (V:=declared) trace Sample.pending)) = Some o'
    ∧ keeps o o'
    ∧ Order.totalPrice o' = 1100 ∧ Order.isPaid o' = true
    ∧ Order.orderStatus o' = "pending".
Proof.
  intros trace.
  assert (E : ∃ o, findById 1 (orders Sample.pending) = Some o)
    by (eexists; vm_compute; reflexivity).
  destruct E as [o E].
  destruct (stored_orders_are_kept (V:=declared) trace Sample.pending) as [_ Hkept].
  { vm_compute. apply NoDup_singleton. }
  destruct (Hkept 1%nat o E) as (o' & Hfind & Hkeeps).
  exists o, o'. split; [exact E|]. split; [exact Hfind|]. split; [exact Hkeeps|].
  vm_compute in Hfind. injection Hfind as <-. repeat split.
Defined.

(** ** Status updates *)

Section StatusMore.
Context {V : SchemaValidators}.

Lemma updateOrderStatus_Json env id status db s o db' :
  updateOrderStatus env id status db = (Json s o, db') →
  ∃ order0,
    findById id (orders db) = Some order0
    ∧ o = (if bool_decide (status = "delivered")
           then Order.set_delivered (Order.set_orderStatus order0 status) (now env)
           else Order.set_orderStatus order0 status)
    ∧ findById id (orders db') = Some o.
Proof.
  unfold updateOrderStatus.
  destruct (negb _); [discriminate|].
  destruct (findById id (orders db)) as [order0|] eqn:Hfind; [|discriminate].
  destruct (save_order _ _) as [os|] eqn:Hsave; [|discriminate].
  apply save_order_Ok in Hsave as ->. intros [= <- <- <-].
  exists order0. split; [reflexivity|]. split; [reflexivity|].
  apply findById_Some in Hfind as Hid. destruct Hid as [Hid _]. simpl.
  eapply findById_replaceOrder; [exact Hfind|].
  destruct (bool_decide _); exact Hid.
Qed.

(** X13. The status of an order can be set to any of the five values from
    any other - there is no order among them - and the record of a delivery
    outlives it: an order set to 'delivered' and then to another status
    carries the new status, but is still flagged delivered, with the
    deliveredAt of the delivery. *)
Theorem delivery_record_outlives_the_status
    (env1 env2 : Env) (id : nat) (status : string) (db db1 db2 : Db)
    (s1 s2 : nat) (o1 o2 : Order.t) :
  status ≠ "delivered" →
  updateOrderStatus env1 id "delivered" db = (Json s1 o1, db1) →
  updateOrderStatus env2 id status db1 = (Json s2 o2, db2) →
  findById id (orders db2) = Some o2
  ∧ Order.orderStatus o2 = status
  ∧ Order.isDelivered o2 = true
  ∧ Order.deliveredAt o2 = Some (now env1).
Proof.
  intros Hstatus (order0 & _ & -> & Hfind1)%updateOrderStatus_Json
         (order1 & Hfind1' & -> & Hfind2)%updateOrderStatus_Json.
  rewrite Hfind1 in Hfind1'. injection Hfind1' as <-.
  rewrite (bool_decide_eq_false_2 (status = "delivered")) in * by assumption.
  split; [exact Hfind2|]. repeat split.
Qed.
End StatusMore.

Lemma delivery_record_outlives_the_status_witness :
  let first := updateOrderStatus (V:=declared) Sample.gateway 1 "delivered"
                 Sample.pending in
  let second := updateOrderStatus (V:=declared) Sample.later 1 "cancelled" first.2 in
  ∃ o2,
    findById 1 (orders second.2) = Some o2
    ∧ Order.orderStatus o2 = "cancelled"
    ∧ Order.isDelivered o2 = true
    ∧ Order.deliveredAt o2 = Some 1000.
Proof.
  intros first second.
  assert (E1 : ∃ o1, first = (Json 200 o1, first.2))
    by (eexists; vm_compute; reflexivity).
  assert (E2 : ∃ o2, second = (Json 200 o2, second.2))
    by (eexists; vm_compute; reflexivity).
  destruct E1 as [o1 E1], E2 as [o2 E2]. exists o2.
  apply (delivery_record_outlives_the_status (V:=declared) Sample.gateway
           Sample.later 1 "cancelled" Sample.pending first.2 second.2
           200%nat 200%nat o1 o2); [discriminate|exact E1|exact E2].
Defined.

(** ** Catalogue administration *)

Section CatalogueMore.
Context {V : SchemaValidators}.

(** X14. An update of a product that carries a stock re-derives inStock
    from it, whatever inStock the body carries; an update without a stock
    leaves the stock as it is and stores the inStock of the body as sent,
    in sync or not. *)
Theorem updateProduct_derives_inStock
    (id : nat) (body : ProductBody.t) (db db' : Db) (status : nat)
    (product : Product.t) :
  updateProduct id body db = (Json status product, db') →
  products db' !! id = Some product
  ∧ (∀ stock, ProductBody.stock body = Some stock →
       Product.stock product = stock ∧ in_sync product)
  ∧ (ProductBody.stock body = None →
     ∃ old, products db !! id = Some old
            ∧ Product.stock product = Product.stock old
            ∧ Product.inStock product
              = default (Product.inStock old) (ProductBody.inStock body)).
Proof.
  unfold updateProduct.
  destruct (products db !! id) as [old|]; [|discriminate].
  destruct (productValid _); [|discriminate].
  intros [= <- <- <-]. simpl. split; [apply lookup_insert_eq|].
  split.
  - intros stock Hstock. rewrite Hstock. simpl. split; reflexivity.
  - intros Hnone. rewrite Hnone. exists old. simpl. rewrite Hnone.
    repeat split.
Qed.

Lemma validateStock_missing {A} ps items item :
  item ∈ items → ps !! CartItem.product item = None →
  ∃ status error, validateStock (A:=A) ps items = Some (JsonError status error).
Proof.
  intros Hin Hmiss. induction Hin as [item rest|item other rest Hin IH]; simpl.
  - rewrite Hmiss. eauto.
  - destruct (ps !! CartItem.product other) as [product|]; [|eauto].
    destruct (_ || _); eauto.
Qed.

(** X15. Deleting a product cleans no cart: the carts and the orders are
    as before, the items of the product staying in the carts that hold it,
    and a second deletion answers 404. The checkout of a cart that holds
    such an item is answered with an error and writes nothing. *)
Theorem deleteProduct_leaves_the_carts
    (id : nat) (db db1 : Db) (status : nat) (env : Env) (user : User)
    (sa : option ShippingAddress.t) (pm : option string) (cart : Cart.t) :
  deleteProduct id db = (Json status tt, db1) →
  carts db !! user_id user = Some cart →
  id ∈ cart_products cart →
  products db1 !! id = None
  ∧ carts db1 = carts db ∧ orders db1 = orders db
  ∧ deleteProduct id db1 = (JsonError 404 (Msg "Product not found"), db1)
  ∧ ∃ status' error, createOrder env user sa pm db1 = (JsonError status' error, db1).
Proof.
  unfold deleteProduct at 1.
  destruct (products db !! id) as [p|] eqn:Hp; [|discriminate].
  intros [= _ <-] Hcart Hin. simpl.
  assert (Hgone : delete id (products db) !! id = None) by apply lookup_delete_eq.
  split; [exact Hgone|]. split; [reflexivity|]. split; [reflexivity|]. split.
  { unfold deleteProduct. simpl. rewrite Hgone. reflexivity. }
  unfold createOrder. simpl.
  destruct sa as [addr|]; [|eauto].
  destruct (_ || _); [eauto|].
  rewrite Hcart.
  destruct (bool_decide _); [eauto|].
  apply list_elem_of_fmap in Hin as (item & -> & Hitem).
  destruct (validateStock_missing (A:=Created) (delete (CartItem.product item) (products db))
              _ item Hitem Hgone) as (s & e & ->).
  eauto.
Qed.
End CatalogueMore.

Lemma updateProduct_derives_inStock_witness :
  ∃ product,
    products Sample.boutique_short !! 2%nat = Some product
    ∧ Product.stock product = 1 ∧ Product.inStock product = true.
Proof.
  assert (E : ∃ product,
    updateProduct (V:=declared) 2 (ProductBody.mk None None None (Some 1) None)
      Sample.boutique = (Json 200 product, Sample.boutique_short))
    by (eexists; reflexivity).
  destruct E as [product E]. exists product.
  destruct (updateProduct_derives_inStock (V:=declared) _ _ _ _ _ _ E)
    as (Hp & Hstock & _).
  split; [exact Hp|]. destruct (Hstock 1 eq_refl) as [H1 H2].
  split; [exact H1|]. rewrite H2, H1. reflexivity.
Defined.

(** The lipstick deleted with two of them in Alice's cart: her cart still
    holds them and her checkout is refused. *)
Lemma deleteProduct_leaves_the_carts_witness :
  cart_products <$> (carts Sample.shop_without_lipstick !! 7%nat) = Some [1%nat]
  ∧ ∃ status error,
      createOrder (V:=declared) Sample.gateway Sample.alice (Some Sample.home)
        (Some "cod") Sample.shop_without_lipstick
      = (JsonError status error, Sample.shop_without_lipstick).
Proof.
  split; [reflexivity|].
  apply (deleteProduct_leaves_the_carts (V:=declared) 1 Sample.shop
           Sample.shop_without_lipstick 200%nat Sample.gateway Sample.alice
           (Some Sample.home) (Some "cod") (Sample.cart_of [Sample.in_cart 2]));
    [reflexivity|reflexivity|].
  apply list_elem_of_here.
Defined.

(** ** The webhook, payment failed *)

Section WebhookMore.
Context {V : SchemaValidators}.

Ltac unchanged H :=
  split; [reflexivity|]; split; [reflexivity|]; split; [auto|];
  split; [intros o Ho; first [discriminate | by apply H]|auto].

(** X16. An announced payment_intent.payment_failed is never recorded on
    the unpaid order it is about. The webhook finds orders by payment
    result, which only paid orders carry: where that holds and the ids are
    distinct, every unpaid order is stored after the request exactly as
    before, the order the event is written on - status 'failed' in its
    payment result - is a paid one and stays paid, and neither products nor
    carts are written. *)
Theorem webhook_failed_reaches_paid_orders_only
    (env : Env) (webhookSecret : option string) (intent : PaymentIntent.t)
    (db : Db) :
  unpaid_without_result (orders db) →
  NoDup (Order._id <$> orders db) →
  let r := stripeWebhook env webhookSecret
             (Some (StripeEvent.mk "payment_intent.payment_failed" intent)) db in
  products r.2 = products db ∧ carts r.2 = carts db
  ∧ (∀ o, o ∈ orders db → Order.isPaid o = false → o ∈ orders r.2)
  ∧ (∀ o, findOneByPaymentResultId (PaymentIntent.id intent) (orders db) = Some o →
       Order.isPaid o = true)
  ∧ (∀ o, o ∈ orders r.2 → o ∈ orders db ∨
       (Order.isPaid o = true
        ∧ PaymentResult.status <$> Order.paymentResult o = Some "failed")).
Proof.
  intros Hu Hnd.
  assert (Hfound : ∀ o, findOneByPaymentResultId (PaymentIntent.id intent) (orders db)
                     = Some o → o ∈ orders db ∧ Order.isPaid o = true).
  { intros o [Hin Hid]%findOneByPaymentResultId_Some. split; [exact Hin|].
    destruct (Order.isPaid o) eqn:Hpaid; [reflexivity|].
    rewrite (Hu o Hin Hpaid) in Hid. discriminate. }
  unfold stripeWebhook.
  destruct webhookSecret as [secret|]; [|simpl; unchanged Hfound].
  destruct (bool_decide (secret = EmptyString)); [simpl; unchanged Hfound|].
  simpl.
  destruct (findOneByPaymentResultId _ _) as [x|] eqn:Hfind; [|simpl; unchanged Hfound].
  destruct (Hfound x eq_refl) as [Hx Hxpaid].
  destruct (save_order _ _) as [os|] eqn:Hsave; [|simpl; unchanged Hfound].
  apply save_order_Ok in Hsave as ->. simpl.
  split; [reflexivity|]. split; [reflexivity|]. split; [|split].
  - intros o Ho Hunpaid. unfold replaceOrder.
    apply list_elem_of_fmap. exists o. split; [|exact Ho].
    simpl. rewrite decide_False; [reflexivity|].
    intros Heq. assert (o = x) by (by apply (NoDup_fmap_eq Order._id (orders db))).
    congruence.
  - intros o [= <-]. exact Hxpaid.
  - intros o (y & -> & Hy)%list_elem_of_fmap. simpl.
    destruct (decide _); [right|left; exact Hy].
    simpl. split; [exact Hxpaid|reflexivity].
Qed.
End WebhookMore.

(** Order 1 is paid with pi_1 when the gateway announces that pi_1 failed:
    the order stays paid, its payment result now says 'failed'. *)
Lemma webhook_failed_reaches_paid_orders_only_witness :
  let r := stripeWebhook (V:=declared) Sample.later (Some "whsec")
             (Some Scenario.pi_1_failed) Scenario.confirmed in
  (Order.isPaid <$> findById 1 (orders r.2) = Some true
   ∧ (λ o, PaymentResult.status <$> Order.paymentResult o)
       <$> findById 1 (orders r.2) = Some (Some "failed"))
  ∧ products r.2 = products Scenario.confirmed ∧ carts r.2 = carts Scenario.confirmed.
Proof.
  intros r. split; [split; reflexivity|].
  destruct (webhook_failed_reaches_paid_orders_only (V:=declared) Sample.later
              (Some "whsec") (PaymentIntent.mk "pi_1" "requires_payment_method" None)
              Scenario.confirmed) as (Hps & Hcs & _).
  - intros o Hin. vm_compute in Hin.
    apply list_elem_of_singleton in Hin as ->. discriminate.
  - vm_compute. apply NoDup_singleton.
  - split; [exact Hps|exact Hcs].
Defined.

(** ** The wishlist *)

Section WishlistProperties.
Variable wishlistValid : Wishlist.t → bool.
Variable ps : gmap nat Product.t.

Lemma hasProduct_elem_of (w : Wishlist.t) (p : nat) :
  wishlistSchema.hasProduct w p = true ↔ p ∈ Wishlist.products w.
Proof.
  unfold wishlistSchema.hasProduct. rewrite existsb_exists. split.
  - intros (x & Hin & Hx). apply bool_decide_eq_true_1 in Hx. subst x.
    by apply list_elem_of_In.
  - intros Hin. exists p. split; [by apply list_elem_of_In|].
    by apply bool_decide_eq_true_2.
Qed.

Lemma hasProduct_ext (w w' : Wishlist.t) (p : nat) :
  (p ∈ Wishlist.products w' ↔ p ∈ Wishlist.products w) →
  wishlistSchema.hasProduct w' p = wishlistSchema.hasProduct w p.
Proof.
  intros Hiff.
  destruct (wishlistSchema.hasProduct w p) eqn:Hw.
  - apply hasProduct_elem_of, Hiff, hasProduct_elem_of, Hw.
  - destruct (wishlistSchema.hasProduct w' p) eqn:Hw'; [|reflexivity].
    apply hasProduct_elem_of, Hiff, hasProduct_elem_of in Hw'. congruence.
Qed.

Lemma wishlist_save_Ok (w w' : Wishlist.t) :
  wishlistSchema.save wishlistValid w = Ok w' → w' = w.
Proof. unfold wishlistSchema.save. case_match; congruence. Qed.

Lemma filter_ne_absent (p : nat) (l : list nat) :
  p ∉ l → filter (λ id, id ≠ p) l = l.
Proof.
  induction l as [|x l IH]; [reflexivity|].
  rewrite not_elem_of_cons. intros [Hne Hnin].
  rewrite filter_cons_True by congruence. by rewrite IH.
Qed.

(** X17. Adding a product to a wishlist that accepts it leaves the product
    in the wishlist and changes the membership of no other product; a list
    without repetition stays without repetition; and adding the same
    product again returns the same wishlist. *)
Theorem wishlist_addProduct_is_idempotent (w w' : Wishlist.t) (p : nat)
    (Hadd : wishlistSchema.addProduct wishlistValid w p = Ok w') :
  wishlistSchema.hasProduct w' p = true
  ∧ (∀ q, q ≠ p → wishlistSchema.hasProduct w' q = wishlistSchema.hasProduct w q)
  ∧ (NoDup (Wishlist.products w) → NoDup (Wishlist.products w'))
  ∧ wishlistSchema.addProduct wishlistValid w' p = Ok w'.
Proof.
  unfold wishlistSchema.addProduct in Hadd.
  destruct (wishlistSchema.hasProduct w p) eqn:Hhas; simpl in Hadd.
  - injection Hadd as <-. split_and!; auto.
    unfold wishlistSchema.addProduct. by rewrite Hhas.
  - apply wishlist_save_Ok in Hadd. subst w'.
    assert (Hnin : p ∉ Wishlist.products w).
    { intros Hin. apply hasProduct_elem_of in Hin. congruence. }
    assert (Hnow : wishlistSchema.hasProduct
                     (Wishlist.mk (Wishlist.products w ++ [p])) p = true).
    { apply hasProduct_elem_of. simpl. rewrite elem_of_app, list_elem_of_singleton.
      by right. }
    split_and!.
    + exact Hnow.
    + intros q Hq. apply hasProduct_ext. simpl.
      rewrite elem_of_app, list_elem_of_singleton. tauto.
    + simpl. intros Hnd. apply NoDup_app. split_and!; [done| |apply NoDup_singleton].
      intros x Hx ->%list_elem_of_singleton. done.
    + unfold wishlistSchema.addProduct. by rewrite Hnow.
Qed.

(** X18. Removing a product from a wishlist that accepts the result takes
    the product out and changes the membership of no other product; a list
    without repetition stays without repetition; and nothing changes when
    the product was not there. *)
Theorem wishlist_removeProduct_removes_it (w w' : Wishlist.t) (p : nat)
    (Hremove : wishlistSchema.removeProduct wishlistValid w p = Ok w') :
  wishlistSchema.hasProduct w' p = false
  ∧ (∀ q, q ≠ p → wishlistSchema.hasProduct w' q = wishlistSchema.hasProduct w q)
  ∧ (NoDup (Wishlist.products w) → NoDup (Wishlist.products w'))
  ∧ (wishlistSchema.hasProduct w p = false →
     Wishlist.products w' = Wishlist.products w).
Proof.
  unfold wishlistSchema.removeProduct in Hremove.
  apply wishlist_save_Ok in Hremove. subst w'. split_and!.
  - destruct (wishlistSchema.hasProduct _ p) eqn:Hhas; [|reflexivity].
    apply hasProduct_elem_of in Hhas. simpl in Hhas.
    apply list_elem_of_filter in Hhas as [Hne _]. done.
  - intros q Hq. apply hasProduct_ext. simpl.
    rewrite list_elem_of_filter. tauto.
  - simpl. apply NoDup_filter.
  - intros Hhas. simpl. apply filter_ne_absent.
    intros Hin. apply hasProduct_elem_of in Hin. congruence.
Qed.

(** X19. For a product of the catalogue, [addToWishlist] answers 400 and
    stores nothing when the stored wishlist of the user holds the product;
    otherwise it either answers 200 with the product appended to the stored
    list (the empty list when the user had no wishlist), stored as the
    wishlist of the user, or hands a failed save to the error handler. *)
Theorem addToWishlist_refuses_duplicates (user : User) (p : nat)
    (product : Product.t) (ws : gmap nat Wishlist.t)
    (Hproduct : ps !! p = Some product) :
  let old := default [] (Wishlist.products <$> ws !! user_id user) in
  let r := addToWishlist wishlistValid ps user (Some p) ws in
  if bool_decide (p ∈ old)
  then r = (JsonError 400 (Msg "Product already in wishlist"), ws)
  else (∃ w', r = (Json 200 w', <[user_id user := w']> ws)
              ∧ Wishlist.products w' = old ++ [p])
       ∨ (∃ e, r.1 = Next e).
Proof.
  intros old r. unfold r, addToWishlist. rewrite Hproduct.
  subst old. destruct (ws !! user_id user) as [w|] eqn:Hw; simpl.
  - destruct (wishlistSchema.hasProduct w p) eqn:Hhas.
    + rewrite bool_decide_eq_true_2 by by apply hasProduct_elem_of.
      reflexivity.
    + rewrite bool_decide_eq_false_2.
      2:{ intros Hin. apply hasProduct_elem_of in Hin. congruence. }
      unfold wishlistSchema.addProduct. rewrite Hhas. simpl.
      unfold wishlistSchema.save.
      destruct (wishlistValid _); [left|right; by eexists].
      eexists. split; reflexivity.
  - rewrite ?bool_decide_eq_false_2 by apply not_elem_of_nil.
    destruct (wishlistValid Wishlist.create) eqn:Hcreate;
      [|right; by eexists].
    simpl. unfold wishlistSchema.addProduct. simpl.
    unfold wishlistSchema.save.
    destruct (wishlistValid (Wishlist.mk _)); [left|right; by eexists].
    exists (Wishlist.mk [p]). split; [|reflexivity]. by rewrite insert_insert_eq.
Qed.

(** X20. A product that [addToWishlist] has added is reported as in the
    wishlist by [checkWishlistStatus]; when [removeFromWishlist] then
    removes it, it is reported as absent, the stored list is again what it
    was before the two requests, and the wishlist of no other user has
    changed. *)
Theorem wishlist_add_then_remove (user : User) (p : nat)
    (ws ws1 ws2 : gmap nat Wishlist.t) (w1 w2 : Wishlist.t) (c1 c2 : nat)
    (Hadd : addToWishlist wishlistValid ps user (Some p) ws = (Json c1 w1, ws1))
    (Hremove : removeFromWishlist wishlistValid user p ws1 = (Json c2 w2, ws2)) :
  checkWishlistStatus user p ws1 = Json 200 true
  ∧ checkWishlistStatus user p ws2 = Json 200 false
  ∧ Wishlist.products w2
    = default [] (Wishlist.products <$> ws !! user_id user)
  ∧ ws2 !! user_id user = Some w2
  ∧ ∀ other, other ≠ user_id user → ws2 !! other = ws !! other.
Proof.
  assert (Hws1 : ws1 = <[user_id user := w1]> ws
                 ∧ Wishlist.products w1
                   = default [] (Wishlist.products <$> ws !! user_id user) ++ [p]
                 ∧ p ∉ default [] (Wishlist.products <$> ws !! user_id user)).
  { unfold addToWishlist in Hadd.
    destruct (ps !! p); [|discriminate].
    destruct (ws !! user_id user) as [w|] eqn:Hw; simpl in *.
    - destruct (wishlistSchema.hasProduct w p) eqn:Hhas; [discriminate|].
      unfold wishlistSchema.addProduct in Hadd. rewrite Hhas in Hadd.
      simpl in Hadd. unfold wishlistSchema.save in Hadd.
      destruct (wishlistValid (Wishlist.mk _)); [|discriminate]. injection Hadd as _ <- <-.
      split_and!; [reflexivity..|].
      intros Hin. apply hasProduct_elem_of in Hin. congruence.
    - destruct (wishlistValid Wishlist.create); [|discriminate].
      simpl in Hadd. unfold wishlistSchema.addProduct in Hadd. simpl in Hadd.
      unfold wishlistSchema.save in Hadd.
      destruct (wishlistValid (Wishlist.mk _)); [|discriminate]. injection Hadd as _ <- <-.
      split_and!; [by rewrite insert_insert_eq|reflexivity|apply not_elem_of_nil]. }
  destruct Hws1 as (-> & Hw1 & Hnin).
  unfold removeFromWishlist in Hremove. rewrite lookup_insert_eq in Hremove.
  unfold wishlistSchema.removeProduct, wishlistSchema.save in Hremove.
  destruct (wishlistValid (Wishlist.mk _)); [|discriminate]. injection Hremove as _ <- <-.
  assert (Hback : filter (λ id, id ≠ p) (Wishlist.products w1)
                  = default [] (Wishlist.products <$> ws !! user_id user)).
  { rewrite Hw1, filter_app, filter_ne_absent by done.
    rewrite filter_cons_False, filter_nil by (intros Hne; by apply Hne).
    apply app_nil_r. }
  unfold checkWishlistStatus. rewrite !lookup_insert_eq. split_and!.
  - f_equal. apply hasProduct_elem_of. rewrite Hw1.
    rewrite elem_of_app, list_elem_of_singleton. by right.
  - f_equal. destruct (wishlistSchema.hasProduct _ p) eqn:Hhas; [|reflexivity].
    apply hasProduct_elem_of in Hhas. simpl in Hhas. rewrite Hback in Hhas. done.
  - simpl. exact Hback.
  - reflexivity.
  - intros other Hother. by rewrite !lookup_insert_ne.
Qed.
End WishlistProperties.

Lemma wishlist_addProduct_is_idempotent_witness :
  let w := Wishlist.mk [4; 9]%nat in
  let w' := Wishlist.mk [4; 9; 5]%nat in
  wishlistSchema.addProduct (λ _, true) w 5 = Ok w'
  ∧ wishlistSchema.hasProduct w' 5 = true
  ∧ wishlistSchema.addProduct (λ _, true) w' 5 = Ok w'.
Proof.
  intros w w'.
  assert (E : wishlistSchema.addProduct (λ _, true) w 5 = Ok w') by reflexivity.
  destruct (wishlist_addProduct_is_idempotent (λ _, true) w w' 5 E)
    as (H1 & _ & _ & H4).
  exact (conj E (conj H1 H4)).
Defined.

Lemma wishlist_removeProduct_removes_it_witness :
  let w := Wishlist.mk [4; 9; 5]%nat in
  let w' := Wishlist.mk [4; 5]%nat in
  wishlistSchema.removeProduct (λ _, true) w 9 = Ok w'
  ∧ wishlistSchema.hasProduct w' 9 = false.
Proof.
  intros w w'.
  assert (E : wishlistSchema.removeProduct (λ _, true) w 9 = Ok w')
    by reflexivity.
  destruct (wishlist_removeProduct_removes_it (λ _, true) w w' 9 E)
    as (H1 & _).
  exact (conj E H1).
Defined.

Lemma addToWishlist_refuses_duplicates_witness :
  let ws : gmap nat Wishlist.t := {[ 7%nat := Wishlist.mk [1%nat] ]} in
  Sample.catalogue !! 1%nat = Some Sample.lipstick
  ∧ addToWishlist (λ _, true) Sample.catalogue Sample.alice (Some 1%nat) ws
    = (JsonError 400 (Msg "Product already in wishlist"), ws).
Proof.
  intros ws.
  assert (E : Sample.catalogue !! 1%nat = Some Sample.lipstick)
    by (vm_compute; reflexivity).
  split; [exact E|].
  exact (addToWishlist_refuses_duplicates (λ _, true) Sample.catalogue
           Sample.alice 1%nat Sample.lipstick ws E).
Defined.

Lemma wishlist_add_then_remove_witness :
  let ws : gmap nat Wishlist.t := {[ 7%nat := Wishlist.mk [4%nat] ]} in
  let r1 := addToWishlist (λ _, true) Sample.catalogue Sample.alice (Some 1%nat) ws in
  let r2 := removeFromWishlist (λ _, true) Sample.alice 1%nat r1.2 in
  r1.1 = Json 200 (Wishlist.mk [4; 1]%nat)
  ∧ r2.1 = Json 200 (Wishlist.mk [4%nat])
  ∧ checkWishlistStatus Sample.alice 1%nat r1.2 = Json 200 true
  ∧ checkWishlistStatus Sample.alice 1%nat r2.2 = Json 200 false.
Proof.
  intros ws r1 r2.
  assert (E1 : r1 = (Json 200 (Wishlist.mk [4; 1]%nat), r1.2))
    by (vm_compute; reflexivity).
  assert (E2 : r2 = (Json 200 (Wishlist.mk [4%nat]), r2.2))
    by (vm_compute; reflexivity).
  destruct (wishlist_add_then_remove (λ _, true) Sample.catalogue Sample.alice
              1%nat ws r1.2 r2.2 _ _ 200 200 E1 E2) as (H1 & H2 & _).
  split; [by rewrite E1|]. split; [by rewrite E2|]. exact (conj H1 H2).
Defined.

(** ** The product list, page by page *)

Lemma Math_ceil_least (p q : Z) :
  0 < q → p ≤ Math_ceil p q * q ∧ (Math_ceil p q - 1) * q < p.
Proof.
  intros Hq. unfold Math_ceil.
  pose proof (Z.div_mod (- p) q ltac:(lia)) as Hdiv.
  pose proof (Z.mod_pos_bound (- p) q Hq) as Hmod.
  nia.
Qed.

Lemma buildPagination_bounds (page limit : option Z) :
  let p := buildPagination page limit in
  1 ≤ Pagination.page p ∧ 1 ≤ Pagination.limit p ≤ 100
  ∧ Pagination.skip p = (Pagination.page p - 1) * Pagination.limit p
  ∧ 0 ≤ Pagination.skip p.
Proof. unfold buildPagination. simpl. nia. Qed.

Lemma take_plus {A} (a b : nat) (l : list A) :
  take (a + b) l = take a l ++ take b (drop a l).
Proof.
  revert l. induction a as [|a IH]; intros [|x l]; simpl;
    rewrite ?take_nil; try reflexivity.
  by rewrite IH.
Qed.

Lemma concat_pages {A} (L m : nat) (l : list A) :
  concat ((λ k, take L (drop ((k - 1) * L) l)) <$> seq 1 m) = take (m * L) l.
Proof.
  induction m as [|m IH]; [reflexivity|].
  rewrite seq_S, fmap_app, concat_app, IH. simpl.
  rewrite app_nil_r, Nat.sub_0_r.
  replace (L + m * L)%nat with (m * L + L)%nat by lia.
  by rewrite take_plus.
Qed.

(** X21. Whatever page and limit are asked, [getProducts] serves a page
    numbered from 1 of 1 to 100 products: the count of the response is the
    number of products in it and is at most the page size, which is the
    limit asked when that is between 1 and 100. *)
Theorem getProducts_page_size_is_bounded {A} (found : list A)
    (page limit : option Z) :
  let r := getProducts found page limit in
  let m := ProductList.pagination r in
  1 ≤ PaginationMeta.currentPage m
  ∧ 1 ≤ PaginationMeta.itemsPerPage m ≤ 100
  ∧ ProductList.count r = length (ProductList.products r)
  ∧ Z.of_nat (ProductList.count r) ≤ PaginationMeta.itemsPerPage m
  ∧ (∀ n, limit = Some n → 1 ≤ n ≤ 100 → PaginationMeta.itemsPerPage m = n)
  ∧ ∀ x, x ∈ ProductList.products r → x ∈ found.
Proof.
  intros r m. unfold r, m, getProducts. simpl.
  pose proof (buildPagination_bounds page limit) as (Hp & Hl & Hs & Hs0).
  simpl in *. split_and!; try lia; try reflexivity.
  - rewrite length_take. lia.
  - intros n -> Hn. simpl. lia.
  - intros x Hx. eapply elem_of_sublist; [exact Hx|].
    etrans; [apply sublist_take|apply sublist_drop].
Qed.

(** X22. The paging data of a [getProducts] response agree with the page
    it carries: [totalPages] is the least number of pages of that size that
    hold all matching products, [hasNextPage] says that the page is before
    the last one, which is when matching products lie after those of the
    response, and [hasPrevPage] says that products were skipped. *)
Theorem getProducts_paging_is_consistent {A} (found : list A)
    (page limit : option Z) :
  let r := getProducts found page limit in
  let m := ProductList.pagination r in
  let p := buildPagination page limit in
  let total := Z.of_nat (length found) in
  PaginationMeta.totalItems m = total
  ∧ total ≤ PaginationMeta.totalPages m * PaginationMeta.itemsPerPage m
  ∧ (PaginationMeta.totalPages m - 1) * PaginationMeta.itemsPerPage m < total
  ∧ (PaginationMeta.hasNextPage m = true
     ↔ PaginationMeta.currentPage m < PaginationMeta.totalPages m)
  ∧ (PaginationMeta.hasNextPage m = true
     ↔ Pagination.skip p + Z.of_nat (ProductList.count r) < total)
  ∧ (PaginationMeta.hasPrevPage m = true ↔ 0 < Pagination.skip p)
  ∧ (PaginationMeta.totalPages m < PaginationMeta.currentPage m →
     ProductList.products r = []).
Proof.
  intros r m p total.
  pose proof (buildPagination_bounds page limit) as (Hp & Hl & Hs & Hs0).
  fold p in Hp, Hl, Hs, Hs0.
  pose proof (Math_ceil_least total (Pagination.limit p) ltac:(lia))
    as [Hup Hlow].
  unfold m, r, getProducts, createPaginationMeta.
  cbn [ProductList.count ProductList.pagination ProductList.products
       PaginationMeta.currentPage PaginationMeta.itemsPerPage
       PaginationMeta.totalItems PaginationMeta.totalPages
       PaginationMeta.hasNextPage PaginationMeta.hasPrevPage].
  fold p. fold total.
  rewrite length_take, length_drop, !Z.ltb_lt.
  assert (Hcount : Z.of_nat (Z.to_nat (Pagination.limit p)
                             `min` (length found - Z.to_nat (Pagination.skip p)))
                   = Z.min (Pagination.limit p)
                           (Z.max 0 (total - Pagination.skip p)))
    by (unfold total; lia).
  rewrite Hcount. split_and!.
  - reflexivity.
  - exact Hup.
  - exact Hlow.
  - nia.
  - nia.
  - nia.
  - intros Hbeyond. apply nil_length_inv. rewrite length_take, length_drop.
    unfold total in *. nia.
Qed.

(** X23. The pages of [getProducts] for one page size, from page 1 to the
    [totalPages] of the response, put one after the other are the matching
    products, each once and in their order. *)
Theorem getProducts_pages_cover_the_result {A} (found : list A)
    (limit : option Z) :
  let totalPages :=
    PaginationMeta.totalPages (ProductList.pagination (getProducts found None limit)) in
  concat ((λ k, ProductList.products
                  (getProducts found (Some (Z.of_nat k)) limit))
          <$> seq 1 (Z.to_nat totalPages))
  = found.
Proof.
  intros totalPages.
  set (L := Z.min 100 (Z.max 1 (default 10 limit))).
  assert (HL : 1 ≤ L ≤ 100) by (unfold L; lia).
  pose proof (Math_ceil_least (Z.of_nat (length found)) L ltac:(lia))
    as [Hup _].
  assert (HT : totalPages = Math_ceil (Z.of_nat (length found)) L)
    by reflexivity.
  rewrite <- HT in Hup.
  transitivity (concat ((λ k, take (Z.to_nat L) (drop ((k - 1) * Z.to_nat L) found))
                        <$> seq 1 (Z.to_nat totalPages))).
  - f_equal. apply list_fmap_ext. intros i k Hk.
    apply lookup_seq in Hk as [-> _].
    unfold getProducts, buildPagination. simpl. fold L.
    do 2 f_equal. rewrite Z2Nat.inj_mul by lia. f_equal; lia.
  - rewrite concat_pages. apply take_ge. nia.
Qed.

(** ** Who reads and who writes *)

Lemma findById_NoDup (os : list Order.t) (o : Order.t) :
  NoDup (Order._id <$> os) → o ∈ os → findById (Order._id o) os = Some o.
Proof.
  intros Hnd Ho. unfold findById.
  destruct (list_find (λ x, Order._id x = Order._id o) os) as [[i x]|] eqn:E.
  - apply list_find_Some in E as (Hi & Hx & _). simpl. f_equal.
    apply (NoDup_fmap_eq Order._id os); auto.
    apply list_elem_of_lookup. eauto.
  - exfalso. apply list_find_None in E.
    rewrite Forall_forall in E. by apply (E o).
Qed.

(** X24. Where the stored orders have distinct ids, the orders that
    [getMyOrders] lists for a user who is no admin are the orders that
    [getOrderById] lets that user read: the stored orders placed by the
    user, and no other. *)
Theorem orders_are_read_by_their_owner
    (user : User) (role : string) (db : Db)
    (Hids : NoDup (Order._id <$> orders db)) (Hrole : role ≠ "admin") :
  ∃ mine,
    getMyOrders user db = Json 200 (length mine, mine)
    ∧ (∀ o, o ∈ mine ↔ o ∈ orders db ∧ Order.user o = user_id user)
    ∧ (∀ o, o ∈ mine ↔ getOrderById user role (Order._id o) db = Json 200 o).
Proof.
  eexists. split; [reflexivity|].
  assert (Hmine : ∀ o,
            o ∈ reverse (filter (λ o, Order.user o = user_id user) (orders db))
            ↔ o ∈ orders db ∧ Order.user o = user_id user).
  { intros o. rewrite elem_of_reverse, list_elem_of_filter. tauto. }
  split; [exact Hmine|].
  intros o. rewrite Hmine. unfold getOrderById. split.
  - intros [Ho Hu]. rewrite (findById_NoDup _ _ Hids Ho).
    rewrite (bool_decide_eq_true_2 _ Hu). reflexivity.
  - destruct (findById _ _) as [o'|] eqn:Hfind; [|discriminate].
    apply findById_Some in Hfind as [_ Ho'].
    destruct (bool_decide (Order.user o' = user_id user)) eqn:Hu; simpl.
    + intros [= ->]. by apply bool_decide_eq_true_1 in Hu.
    + rewrite (bool_decide_eq_false_2 _ Hrole). discriminate.
Qed.

(** Alice reads her order 1 in the shop where it waits for its payment. *)
Lemma orders_are_read_by_their_owner_witness :
  NoDup (Order._id <$> orders Sample.pending)
  ∧ ∃ mine,
      getMyOrders Sample.alice Sample.pending = Json 200 (length mine, mine)
      ∧ length mine = 1%nat
      ∧ ∀ o, o ∈ mine
             ↔ getOrderById Sample.alice "user" (Order._id o) Sample.pending
               = Json 200 o.
Proof.
  assert (Hids : NoDup (Order._id <$> orders Sample.pending)).
  { vm_compute. apply NoDup_singleton. }
  assert (Hrole : "user" ≠ "admin") by discriminate.
  split; [exact Hids|].
  destruct (orders_are_read_by_their_owner Sample.alice "user" Sample.pending
              Hids Hrole) as (mine & Hmine & _ & Hread).
  exists mine. split; [exact Hmine|]. split; [|exact Hread].
  unfold getMyOrders in Hmine. injection Hmine as Hlen _.
  rewrite <- Hlen. vm_compute. reflexivity.
Defined.







Section Customers.
Context {V : SchemaValidators}.



End Customers.


Section WhoPays.
Context {V : SchemaValidators}.

(** X26. [updateOrderToPaid] matches neither the user nor the payment
    intent against the order. For a stored stripe order that is unpaid, any
    user - the one who placed it or another - who names any payment intent
    the gateway reports as succeeded - the one made at checkout or another -
    has the order marked paid, with that intent as its payment result. *)
Theorem markPaid_matches_neither_user_nor_intent
    (env : Env) (user : User) (id : nat) (pi : string)
    (intent : PaymentIntent.t) (db : Db) (order : Order.t)
    (ps : gmap nat Product.t)
    (Hfind : findById id (orders db) = Some order)
    (Hstripe : Order.paymentMethod order = "stripe")
    (Hunpaid : Order.isPaid order = false)
    (Hpi : pi ≠ EmptyString)
    (Hintent : verifyPaymentIntent env pi = Some intent)
    (Hsucceeded : PaymentIntent.status intent = "succeeded") :
  let result :=
    PaymentResult.mk (PaymentIntent.id intent) "succeeded" (Some (now env))
      (Some (receipt_or (PaymentIntent.receipt_email intent) (user_email user))) in
  let paid :=
    Order.set_orderStatus
      (Order.set_paid (Order.set_paymentResult order result) (now env))
      "processing" in
  decrementStock decrement_paid (Order.orderItems order) (products db) = (ps, Ok tt) →
  orderValid paid = true →
  updateOrderToPaid env user id (Some pi) db
  = (Json 200 paid, mkDb ps (carts db) (replaceOrder paid (orders db))).
Proof.
  intros result paid Hloop Hvalid. unfold updateOrderToPaid.
  rewrite Hfind, Hunpaid.
  assert (Hv : verifyPayment env user order (Some pi)
               = inr (Order.set_paymentResult order result)).
  { unfold verifyPayment. rewrite Hintent.
    rewrite (bool_decide_eq_true_2 _ Hstripe).
    rewrite (bool_decide_eq_false_2 _ Hpi). simpl.
    rewrite (bool_decide_eq_true_2 _ Hsucceeded). simpl.
    unfold result. by rewrite Hsucceeded. }
  rewrite Hv. simpl. rewrite Hloop. simpl.
  unfold save_order. fold result. fold paid. rewrite Hvalid. reflexivity.
Qed.
End WhoPays.

(** Bob confirms order 1, which Alice placed with intent pi_1, by naming
    pi_9, an intent that succeeded for someone else. *)
Lemma markPaid_matches_neither_user_nor_intent_witness :
  let pi_9 := PaymentIntent.mk "pi_9" "succeeded" None in
  let env :=
    mkEnv 3000 (λ _, None)
      (λ id, if bool_decide (id = "pi_9") then Some pi_9 else None) in
  let bob := mkUser 8 "bob@example.com" in
  let r := updateOrderToPaid (V:=declared) env bob 1 (Some "pi_9") Sample.pending in
  ∃ order paid,
    findById 1 (orders Sample.pending) = Some order
    ∧ Order.user order = 7%nat
    ∧ Order.paymentIntentId order = Some "pi_1"
    ∧ r = (Json 200 paid, r.2)
    ∧ Order.isPaid paid = true
    ∧ PaymentResult.id <$> Order.paymentResult paid = Some "pi_9".
Proof.
  intros pi_9 env bob r.
  assert (E : ∃ order, findById 1 (orders Sample.pending) = Some order
                       ∧ Order.user order = 7%nat
                       ∧ Order.paymentIntentId order = Some "pi_1"
                       ∧ Order.paymentMethod order = "stripe"
                       ∧ Order.isPaid order = false)
    by (eexists; vm_compute; repeat split; reflexivity).
  destruct E as (order & Hfind & Huser & Hpid & Hstripe & Hunpaid).
  assert (Hpi : "pi_9" ≠ EmptyString) by discriminate.
  assert (Hintent : verifyPaymentIntent env "pi_9" = Some pi_9) by reflexivity.
  assert (L : ∃ ps, decrementStock (V:=declared) decrement_paid
                      (Order.orderItems order) (products Sample.pending)
                    = (ps, Ok tt)).
  { assert (Ho : Some order = findById 1 (orders Sample.pending)) by done.
    vm_compute in Ho. injection Ho as ->. eexists. vm_compute. reflexivity. }
  destruct L as [ps Hloop].
  eexists order, _. split; [exact Hfind|]. split; [exact Huser|].
  split; [exact Hpid|].
  assert (Hvalid : orderValid (SchemaValidators:=declared)
            (Order.set_orderStatus
               (Order.set_paid
                  (Order.set_paymentResult order
                     (PaymentResult.mk (PaymentIntent.id pi_9) "succeeded"
                        (Some (now env))
                        (Some (receipt_or (PaymentIntent.receipt_email pi_9)
                                 (user_email bob)))))
                  (now env)) "processing") = true).
  { assert (Ho : Some order = findById 1 (orders Sample.pending)) by done.
    vm_compute in Ho. injection Ho as ->. vm_compute. reflexivity. }
  pose proof (markPaid_matches_neither_user_nor_intent (V:=declared) env bob 1
                "pi_9" pi_9 Sample.pending order ps Hfind Hstripe Hunpaid Hpi
                Hintent eq_refl Hloop Hvalid) as H.
  unfold r. rewrite H. simpl. repeat split.
Defined.

(** ** The figures of the dashboard *)

(** X27. The dashboard gives no count of the cancelled orders: where every
    stored order has one of the five statuses, the total of the orders is
    the sum of the four counts given and of the number of cancelled orders,
    so the four counts add up to the total only when no order is
    cancelled. *)
Theorem dashboard_counts_leave_out_cancelled (db : Db)
    (Hstatuses : Forall (λ o, Order.orderStatus o ∈ validStatuses) (orders db)) :
  ∃ stats,
    getDashboardStats db = Json 200 stats
    ∧ Stats.totalOrders stats
      = (Stats.pending stats + Stats.processing stats + Stats.shipped stats
         + Stats.delivered stats + countByStatus "cancelled" (orders db))%nat.
Proof.
  eexists. split; [reflexivity|]. simpl. unfold countByStatus.
  induction Hstatuses as [|o os Ho _ IH]; [reflexivity|].
  unfold validStatuses in Ho.
  repeat (apply elem_of_cons in Ho as [Ho|Ho]);
    [..|by apply elem_of_nil in Ho];
    repeat (first [rewrite filter_cons_True by exact Ho
                  |rewrite filter_cons_False by (rewrite Ho; discriminate)]);
    simpl; lia.
Qed.

Lemma dashboard_counts_leave_out_cancelled_witness :
  let cancelled :=
    (updateOrderStatus (V:=declared) Sample.later 1 "cancelled" Sample.pending).2 in
  Forall (λ o, Order.orderStatus o ∈ validStatuses) (orders cancelled)
  ∧ ∃ stats,
      getDashboardStats cancelled = Json 200 stats
      ∧ Stats.totalOrders stats = 1%nat
      ∧ (Stats.pending stats + Stats.processing stats + Stats.shipped stats
         + Stats.delivered stats = 0)%nat.
Proof.
  intros cancelled.
  assert (Hstatuses : Forall (λ o, Order.orderStatus o ∈ validStatuses)
                        (orders cancelled)).
  { assert (E : ∃ o, orders cancelled = [o]
                     ∧ Order.orderStatus o = "cancelled")
      by (eexists; vm_compute; split; reflexivity).
    destruct E as (o & -> & Ho). apply Forall_singleton. rewrite Ho.
    unfold validStatuses. rewrite !elem_of_cons. auto 10. }
  split; [exact Hstatuses|].
  destruct (dashboard_counts_leave_out_cancelled cancelled Hstatuses)
    as (stats & Hstats & Htotal).
  exists stats. split; [exact Hstats|].
  injection Hstats as <-. vm_compute. split; reflexivity.
Defined.

Lemma sumZ_cons (x : Z) (l : list Z) : sumZ (x :: l) = x + sumZ l.
Proof. reflexivity. Qed.

Lemma sumZ_app (l1 l2 : list Z) : sumZ (l1 ++ l2) = sumZ l1 + sumZ l2.
Proof.
  induction l1 as [|x l1 IH]; [reflexivity|].
  rewrite <- app_comm_cons, !sumZ_cons, IH. lia.
Qed.

Lemma sumPaid_each (os : list Order.t) :
  sumPaid os
  = sumZ ((λ o, if Order.isPaid o then Order.totalPrice o else 0) <$> os).
Proof.
  unfold sumPaid. induction os as [|o os IH]; [reflexivity|].
  rewrite fmap_cons, sumZ_cons, <- IH.
  destruct (Order.isPaid o) eqn:Hpaid.
  - rewrite filter_cons_True by exact Hpaid. by rewrite fmap_cons, sumZ_cons.
  - rewrite filter_cons_False by (rewrite Hpaid; discriminate). lia.
Qed.

Lemma sumPaid_app (os : list Order.t) (o : Order.t) :
  sumPaid (os ++ [o])
  = sumPaid os + (if Order.isPaid o then Order.totalPrice o else 0).
Proof.
  rewrite !sumPaid_each, fmap_app, sumZ_app. f_equal.
  rewrite fmap_cons, sumZ_cons. cbn. lia.
Qed.

Lemma sumPaid_replaceOrder (os : list Order.t) (o0 n : Order.t) :
  NoDup (Order._id <$> os) → o0 ∈ os → Order._id n = Order._id o0 →
  Order.isPaid n = Order.isPaid o0 → Order.totalPrice n = Order.totalPrice o0 →
  sumPaid (replaceOrder n os) = sumPaid os.
Proof.
  intros Hnd Ho0 Hid Hpaid Hprice. rewrite !sumPaid_each. f_equal.
  unfold replaceOrder. rewrite <- list_fmap_compose.
  apply list_fmap_ext. intros i x Hx. simpl.
  destruct (decide _) as [Heq|]; [|reflexivity].
  assert (x = o0) as ->.
  { apply (NoDup_fmap_eq Order._id os); [done| |done|congruence].
    apply list_elem_of_lookup. eauto. }
  by rewrite Hpaid, Hprice.
Qed.

Section Sales.
Context {V : SchemaValidators}.

(** X28. The sales of the dashboard count a cash-on-delivery order from
    its checkout on: a checkout that succeeds raises [totalSales] by the
    total of the order when the payment method is 'cod', and leaves it as
    it was otherwise; it raises [totalOrders] by one. *)
Theorem sales_count_cash_orders_at_checkout
    (env : Env) (user : User) (sa : option ShippingAddress.t)
    (pm : option string) (db db' : Db) (status : nat) (order : Order.t)
    (intent : option (string * string))
    (Hcheckout : createOrder env user sa pm db
                 = (Json status (order, intent), db')) :
  ∃ before after,
    getDashboardStats db = Json 200 before
    ∧ getDashboardStats db' = Json 200 after
    ∧ Stats.totalOrders after = S (Stats.totalOrders before)
    ∧ Stats.totalSales after
      = Stats.totalSales before
        + (if bool_decide (pm = Some "cod") then Order.totalPrice order else 0).
Proof.
  apply createOrder_Json in Hcheckout
    as (addr & cart & -> & _ & _ & _ & _ & _ & Hcases).
  set (o := newOrder env user addr (default "stripe" pm) cart (orders db)) in *.
  assert (Hid : Order._id o = fresh_id (orders db)) by apply newOrder_id.
  assert (Hos : orders db' = orders db ++ [order]
                ∧ Order.isPaid order = bool_decide (pm = Some "cod")).
  { destruct Hcases as [(Hpm & [= -> ->] & Hos)|(Hpm & secret & pid & [= -> ->] & Hos)].
    - split; [exact Hos|]. unfold o, newOrder.
      destruct pm as [pm|]; [|done]. simpl in *.
      destruct (decide (pm = "cod")) as [->|Hne].
      + by rewrite !bool_decide_eq_true_2.
      + rewrite !bool_decide_eq_false_2 by congruence. reflexivity.
    - split; [rewrite Hos; by apply replaceOrder_snoc|].
      unfold o, newOrder. rewrite Hpm. simpl.
      rewrite bool_decide_eq_false_2; [reflexivity|].
      destruct pm as [pm|]; [|done]. simpl in Hpm. by rewrite Hpm. }
  destruct Hos as [Hos Hpaid].
  eexists _, _. split; [reflexivity|]. split; [reflexivity|]. simpl.
  rewrite Hos, length_app, sumPaid_app, Hpaid. simpl. split; [lia|reflexivity].
Qed.

(** X29. The sales of the dashboard do not look at the status of an order.
    Where the stored orders have distinct ids, a change of status that
    succeeds - a cancellation too, and of a paid order too - leaves
    [totalSales] and [totalOrders] as they were. *)
Theorem sales_keep_cancelled_orders
    (env : Env) (id : nat) (status : string) (db db' : Db) (s : nat)
    (order : Order.t)
    (Hids : NoDup (Order._id <$> orders db))
    (Hupdate : updateOrderStatus env id status db = (Json s order, db')) :
  ∃ before after,
    getDashboardStats db = Json 200 before
    ∧ getDashboardStats db' = Json 200 after
    ∧ Stats.totalSales after = Stats.totalSales before
    ∧ Stats.totalOrders after = Stats.totalOrders before
    ∧ Order.orderStatus order = status.
Proof.
  unfold updateOrderStatus in Hupdate.
  destruct (negb _); [discriminate|].
  destruct (findById id (orders db)) as [order0|] eqn:Hfind; [|discriminate].
  destruct (save_order _ _) as [os|] eqn:Hsave; [|discriminate].
  apply save_order_Ok in Hsave. subst os. injection Hupdate as _ <- <-.
  apply findById_Some in Hfind as [Hid Hin].
  eexists _, _. split; [reflexivity|]. split; [reflexivity|]. simpl.
  split_and!.
  - apply (sumPaid_replaceOrder _ order0); auto; by destruct (bool_decide _).
  - unfold replaceOrder. by rewrite length_fmap.
  - by destruct (bool_decide _).
Qed.
End Sales.

(** Alice checks out with cash on delivery: nothing is paid, and the sales
    of the dashboard read 1100. *)
Lemma sales_count_cash_orders_at_checkout_witness :
  let r := createOrder (V:=declared) Sample.gateway Sample.alice
             (Some Sample.home) (Some "cod") Sample.boutique in
  ∃ order before after,
    r = (Json 201 (order, None), r.2)
    ∧ getDashboardStats Sample.boutique = Json 200 before
    ∧ getDashboardStats r.2 = Json 200 after
    ∧ Stats.totalSales before = 0
    ∧ Stats.totalSales after = 1100.
Proof.
  intros r.
  assert (E : ∃ order, r = (Json 201 (order, None), r.2)
                       ∧ Order.totalPrice order = 1100)
    by (eexists; vm_compute; split; reflexivity).
  destruct E as (order & E & Hprice).
  destruct (sales_count_cash_orders_at_checkout (V:=declared) _ _ _ _ _ _ _ _ _ E)
    as (before & after & Hbefore & Hafter & _ & Hsales).
  exists order, before, after.
  split; [exact E|]. split; [exact Hbefore|]. split; [exact Hafter|].
  assert (H0 : Stats.totalSales before = 0).
  { injection Hbefore as <-. vm_compute. reflexivity. }
  split; [exact H0|]. rewrite Hsales, H0, Hprice. reflexivity.
Defined.

(** Order 1, paid, is cancelled: the sales still read its 1100. *)
Lemma sales_keep_cancelled_orders_witness :
  let r := updateOrderStatus (V:=declared) Sample.later 1 "cancelled"
             Scenario.confirmed in
  NoDup (Order._id <$> orders Scenario.confirmed)
  ∧ ∃ order before after,
      r = (Json 200 order, r.2)
      ∧ Order.isPaid order = true
      ∧ Order.orderStatus order = "cancelled"
      ∧ getDashboardStats Scenario.confirmed = Json 200 before
      ∧ getDashboardStats r.2 = Json 200 after
      ∧ Stats.totalSales after = Stats.totalSales before
      ∧ Stats.totalSales before = 1100.
Proof.
  intros r.
  assert (Hids : NoDup (Order._id <$> orders Scenario.confirmed)).
  { vm_compute. apply NoDup_singleton. }
  split; [exact Hids|].
  assert (E : ∃ order, r = (Json 200 order, r.2) ∧ Order.isPaid order = true)
    by (eexists; vm_compute; split; reflexivity).
  destruct E as (order & E & Hpaid).
  destruct (sales_keep_cancelled_orders (V:=declared) _ _ _ _ _ _ _ Hids E)
    as (before & after & Hbefore & Hafter & Hsales & _ & Hstatus).
  exists order, before, after.
  split; [exact E|]. split; [exact Hpaid|]. split; [exact Hstatus|].
  split; [exact Hbefore|]. split; [exact Hafter|]. split; [exact Hsales|].
  injection Hbefore as <-. vm_compute. reflexivity.
Defined.
